(** * Entity definitions and entity records: a shallow embedding

    The development follows the layout of the backend:

    - [Js]: the JavaScript values that travel through the handlers (JSON
      request bodies, dates, object ids), truthiness, string helpers;
    - [Mongoose]: the casts that the schema types apply to assigned values;
    - [Entity]: models/Entity.js (schema, defaults, setters, hooks);
    - [EntityRecord]: models/EntityRecord.js, lines 1-105 (schema,
      defaults, hooks);
    - [entityController]: controllers/entityController.js;
    - [entityRecordController]: the record controller, which the sources
      carry as lines 106-662 of models/EntityRecord.js; line numbers in the
      comments are those of that file;
    - [Scenario]: the CUSTOMER scenario of the specification;
    - [entityHandlers] and [recordHandlers]: the handlers of the two
      controllers that read, toggle and delete;
    - [userRoleController]: the user role controller, which the sources
      carry as lines 662-871 of models/EntityRecord.js;
    - the inputs on which the model is the code: ASCII text, own property
      names, plain objects, field names ([plain_code], [own_name],
      [plain_object], [field_name]), used as hypotheses of the properties
      that depend on them;
    - [Cases]: further data on the scenario;
    - the properties, stated on those definitions.

    The database is explicit state: two collections keyed by [_id].  A
    handler is a function from the database and a request to a new database
    and a response.  What Mongoose does with a schema (casts, defaults,
    strict paths, hooks, validators, update validators) is written out for
    the two schemas of the repository. *)

From Stdlib Require Import Ascii String ZArith.
From stdpp Require Import gmap strings list fin_maps sorting pretty.

Local Open Scope Z_scope.
Local Open Scope string_scope.

(** ** JavaScript values *)

Module Js.

(** Values of a parsed JSON body, plus the two object kinds the handlers
    build themselves: [Date] ([None] is an Invalid Date) and [ObjectId]
    (its 24 digit hexadecimal form).  Numbers are integers: no handler
    under study computes with fractions. *)
#[local] Unset Elimination Schemes.
Inductive JsValue :=
| JUndefined
| JNull
| JBool (b : bool)
| JNum (n : Z)
| JStr (s : string)
| JDate (t : option Z)
| JOid (o : string)
| JArr (xs : list JsValue)
| JObj (fs : list (string * JsValue)).
#[local] Set Elimination Schemes.

(** [if (v)], [!v], [a || b]. *)
Definition truthy (v : JsValue) : bool :=
  match v with
  | JUndefined | JNull => false
  | JBool b => b
  | JNum n => negb (Z.eqb n 0)
  | JStr s => negb (String.eqb s "")
  | JDate _ | JOid _ | JArr _ | JObj _ => true
  end.

(** [v !== undefined]. *)
Definition defined (v : JsValue) : bool :=
  match v with JUndefined => false | _ => true end.

(** Structural equality: the comparison the store makes between a query
    value and a stored value (field order of embedded objects counts). *)
Fixpoint js_eqb (a b : JsValue) : bool :=
  match a, b with
  | JUndefined, JUndefined => true
  | JNull, JNull => true
  | JBool x, JBool y => Bool.eqb x y
  | JNum x, JNum y => Z.eqb x y
  | JStr x, JStr y => String.eqb x y
  | JDate None, JDate None => true
  | JDate (Some x), JDate (Some y) => Z.eqb x y
  | JOid x, JOid y => String.eqb x y
  | JArr xs, JArr ys =>
      (fix go (xs ys : list JsValue) : bool :=
         match xs, ys with
         | [], [] => true
         | x :: xs', y :: ys' => js_eqb x y && go xs' ys'
         | _, _ => false
         end) xs ys
  | JObj fs, JObj gs =>
      (fix go (fs gs : list (string * JsValue)) : bool :=
         match fs, gs with
         | [], [] => true
         | (k, x) :: fs', (l, y) :: gs' =>
             String.eqb k l && js_eqb x y && go fs' gs'
         | _, _ => false
         end) fs gs
  | _, _ => false
  end.

(** Own property lookup on an object literal; the first binding of a key
    is the live one.  It is the lookup of a field by the store, and the
    read [o[k]] of JavaScript when [o] is a plain object and [k] is none
    of the names objects inherit from Object.prototype; on other values
    and names (indices of strings and arrays, inherited names) the read of
    JavaScript finds more than this one does. *)
Fixpoint assoc_get (fs : list (string * JsValue)) (k : string) : JsValue :=
  match fs with
  | [] => JUndefined
  | (k', v) :: fs' => if String.eqb k' k then v else assoc_get fs' k
  end.

Definition js_get (o : JsValue) (k : string) : JsValue :=
  match o with
  | JObj fs => assoc_get fs k
  | _ => JUndefined
  end.

(** [typeof v === 'object'] *)
Definition typeof_object (v : JsValue) : bool :=
  match v with
  | JNull | JDate _ | JOid _ | JArr _ | JObj _ => true
  | _ => false
  end.

(** *** Strings *)

Definition between (lo hi : nat) (c : ascii) : bool :=
  (lo <=? nat_of_ascii c)%nat && (nat_of_ascii c <=? hi)%nat.

Definition is_lower (c : ascii) : bool := between 97 122 c.
Definition is_upper (c : ascii) : bool := between 65 90 c.
Definition is_digit (c : ascii) : bool := between 48 57 c.
Definition is_hex (c : ascii) : bool :=
  is_digit c || between 97 102 c || between 65 70 c.
(** White space that [String.prototype.trim] removes, in the ASCII range. *)
Definition is_space (c : ascii) : bool :=
  between 9 13 c || (nat_of_ascii c =? 32)%nat.

Definition upper_char (c : ascii) : ascii :=
  if is_lower c then ascii_of_nat (nat_of_ascii c - 32) else c.
Definition lower_char (c : ascii) : ascii :=
  if is_upper c then ascii_of_nat (nat_of_ascii c + 32) else c.

Fixpoint map_string (f : ascii -> ascii) (s : string) : string :=
  match s with
  | EmptyString => EmptyString
  | String c s' => String (f c) (map_string f s')
  end.

(** [s.toUpperCase()], [s.toLowerCase()] on ASCII text. *)
Definition toUpperCase (s : string) : string := map_string upper_char s.
Definition toLowerCase (s : string) : string := map_string lower_char s.

Fixpoint all_chars (p : ascii -> bool) (s : string) : bool :=
  match s with
  | EmptyString => true
  | String c s' => p c && all_chars p s'
  end.

Fixpoint drop_spaces (l : list ascii) : list ascii :=
  match l with
  | c :: l' => if is_space c then drop_spaces l' else l
  | [] => []
  end.

(** [s.trim()] on ASCII text. *)
Definition trim (s : string) : string :=
  string_of_list_ascii
    (rev (drop_spaces (rev (drop_spaces (list_ascii_of_string s))))).

(** [/^[A-Z0-9_]+$/.test(s)] *)
Definition is_code_char (c : ascii) : bool :=
  is_upper c || is_digit c || (nat_of_ascii c =? 95)%nat.
Definition code_pattern (s : string) : bool :=
  negb (String.eqb s "") && all_chars is_code_char s.

(** [s.split('.')] *)
Fixpoint split_dot_aux (acc : string) (s : string) : list string :=
  match s with
  | EmptyString => [acc]
  | String c s' =>
      if (nat_of_ascii c =? 46)%nat
      then acc :: split_dot_aux "" s'
      else split_dot_aux (acc ++ String c "") s'
  end.
Definition split_dot (s : string) : list string := split_dot_aux "" s.

(** A field name without a dot. *)
Definition no_dot (k : string) : Prop :=
  all_chars (fun c => negb (nat_of_ascii c =? 46)%nat) k = true.

(** What the host runtime and the store provide and the repository does not
    define: the date and number parsers, and the text index. *)
Class Host := {
  (** [new Date(s).getTime()]: [None] when the text is not a date. *)
  Date_parse : string -> option Z;
  (** [Number(s)] on a non-empty string: [None] for NaN. *)
  Number_parse : string -> option Z;
  (** [parseInt(s)]: [None] for NaN. *)
  parseInt_string : string -> option Z;
  (** [{ $text: { $search: s } }] on the text index over [data]. *)
  text_search : string -> JsValue -> bool;
}.

(** [new Date(v)] *)
Definition new_Date `{Host} (v : JsValue) : JsValue :=
  match v with
  | JNum n => JDate (Some n)
  | JStr s => JDate (Date_parse s)
  | JDate t => JDate t
  | JNull => JDate (Some 0)
  | JBool b => JDate (Some (if b then 1 else 0))
  | _ => JDate None
  end.

(** [parseInt(v)] *)
Definition parseInt `{Host} (v : JsValue) : option Z :=
  match v with
  | JNum n => Some n
  | JStr s => parseInt_string s
  | _ => None
  end.

End Js.
Export Js.

(** ** Mongoose schema types *)

Module Mongoose.

(** The outcome of casting an assigned value to the type of its path. *)
Inductive Cast (A : Type) :=
| Casted (a : A)
| CastNull
| CastError.
Arguments Casted {A} a.
Arguments CastNull {A}.
Arguments CastError {A}.

(** Boolean: [true, 'true', 1, '1', 'yes'] and [false, 'false', 0, '0',
    'no'] convert, [null] stays, anything else is a cast error. *)
Definition castBoolean (v : JsValue) : Cast bool :=
  match v with
  | JBool b => Casted b
  | JNum 1 => Casted true
  | JNum 0 => Casted false
  | JStr s =>
      if String.eqb s "true" || String.eqb s "1" || String.eqb s "yes"
      then Casted true
      else if String.eqb s "false" || String.eqb s "0" || String.eqb s "no"
      then Casted false
      else CastError
  | JNull | JUndefined => CastNull
  | _ => CastError
  end.

(** String: scalars convert through [toString()]; arrays and plain objects
    are cast errors.  Dates never reach a String path here. *)
Definition castString (v : JsValue) : Cast string :=
  match v with
  | JStr s => Casted s
  | JNum n => Casted (pretty n)
  | JBool b => Casted (if b then "true" else "false")
  | JOid o => Casted o
  | JNull | JUndefined => CastNull
  | _ => CastError
  end.

(** Number *)
Definition castNumber `{Host} (v : JsValue) : Cast Z :=
  match v with
  | JNum n => Casted n
  | JBool b => Casted (if b then 1 else 0)
  | JStr s =>
      if String.eqb s "" then CastNull
      else match Number_parse s with Some n => Casted n | None => CastError end
  | JNull | JUndefined => CastNull
  | _ => CastError
  end.

(** Date *)
Definition castDate `{Host} (v : JsValue) : Cast Z :=
  match v with
  | JDate (Some t) => Casted t
  | JNum n => Casted n
  | JStr s =>
      if String.eqb s "" then CastNull
      else match Date_parse s with Some t => Casted t | None => CastError end
  | JNull | JUndefined => CastNull
  | _ => CastError
  end.

(** [mongoose.Types.ObjectId.isValid(s)] on a string: 24 hexadecimal
    digits (the legacy 12 byte form is not modelled). *)
Definition ObjectId_isValid (s : string) : bool :=
  (String.length s =? 24)%nat && all_chars is_hex s.

(** ObjectId: stored in lower case. *)
Definition castObjectId (v : JsValue) : Cast string :=
  match v with
  | JOid o => Casted o
  | JStr s => if ObjectId_isValid s then Casted (toLowerCase s) else CastError
  | JNull | JUndefined => CastNull
  | _ => CastError
  end.

(** One entry of a ValidationError: the offending path and the message. *)
Record PathError := { pe_path : string; pe_message : string }.

(** [error.message] of a ValidationError. *)
Fixpoint join_errors (es : list PathError) : string :=
  match es with
  | [] => ""
  | [e] => pe_path e ++ ": " ++ pe_message e
  | e :: es' => pe_path e ++ ": " ++ pe_message e ++ ", " ++ join_errors es'
  end.

Definition cast_error (type path : string) : PathError :=
  {| pe_path := path;
     pe_message := "Cast to " ++ type ++ " failed at path " ++ path |}.

End Mongoose.
Export Mongoose.

(** Results of model operations: a value, a ValidationError (the list of
    failing paths), or any other thrown error (hook errors, cast errors of
    an update, store errors), which the handlers answer with status 500. *)
Inductive Outcome (A : Type) :=
| Done (a : A)
| ValidationError (es : list PathError)
| Thrown (message : string).
Arguments Done {A} a.
Arguments ValidationError {A} es.
Arguments Thrown {A} message.

(** ** models/Entity.js *)

Module Entity.

(** [derivedRecordConfig.activation].  A leaf is [None] when the stored
    document does not carry it; reading it then gives the schema default
    (see [activation_enabled] and the other readers below). *)
Module Activation.
Record t := {
  enabled : option bool;
  defaultState : option bool;
  entityActive : option bool;
  useTimeBounding : option bool;
}.
Definition empty : t :=
  {| enabled := None; defaultState := None; entityActive := None;
     useTimeBounding := None |}.
End Activation.

(** [derivedRecordConfig.versioning] *)
Module Versioning.
Record t := { enabled : option bool }.
Definition empty : t := {| enabled := None |}.
End Versioning.

(** [derivedRecordConfig.hierarchy] *)
Module Hierarchy.
Record t := {
  enabled : option bool;
  parentLinkField : option string;
  linkType : option string;
}.
Definition empty : t :=
  {| enabled := None; parentLinkField := None; linkType := None |}.
End Hierarchy.

Record DerivedRecordConfig := {
  activation : Activation.t;
  versioning : Versioning.t;
  hierarchy : Hierarchy.t;
}.

(** [schemaDefinition]: [properties] is of type Mixed. *)
Record SchemaDefinition := {
  type : option string;
  properties : option JsValue;
  required : option (list string);
}.

Record t := {
  _id : string;
  code : string;
  name : string;
  description : option string;
  derivedRecordConfig : DerivedRecordConfig;
  schemaDefinition : SchemaDefinition;
  createdBy : string;
  createdAt : Z;
  updatedAt : Z;
}.

(** *** Reading a document: schema defaults fill the leaves that the stored
    document lacks (lines 50-72 and 82-86 of the schema). *)
Definition activation_enabled (e : t) : bool :=
  default true (Activation.enabled (activation (derivedRecordConfig e))).
Definition activation_defaultState (e : t) : bool :=
  default true (Activation.defaultState (activation (derivedRecordConfig e))).
Definition activation_entityActive (e : t) : bool :=
  default true (Activation.entityActive (activation (derivedRecordConfig e))).
Definition activation_useTimeBounding (e : t) : bool :=
  default false
    (Activation.useTimeBounding (activation (derivedRecordConfig e))).
Definition versioning_enabled (e : t) : bool :=
  default false (Versioning.enabled (versioning (derivedRecordConfig e))).
Definition hierarchy_enabled (e : t) : bool :=
  default false (Hierarchy.enabled (hierarchy (derivedRecordConfig e))).
Definition hierarchy_parentLinkField (e : t) : string :=
  default "parentId"
    (Hierarchy.parentLinkField (hierarchy (derivedRecordConfig e))).
Definition hierarchy_linkType (e : t) : string :=
  default "_id" (Hierarchy.linkType (hierarchy (derivedRecordConfig e))).
Definition schema_properties (e : t) : JsValue :=
  default (JObj []) (properties (schemaDefinition e)).
Definition schema_required (e : t) : list string :=
  default [] (required (schemaDefinition e)).

(** The top-level property read [entity[prop]] on a document.  The schema
    declares the paths [code], [name], [description],
    [derivedRecordConfig], [schemaDefinition] and [createdBy]; Mongoose
    adds [_id] and the two timestamps; the schema defines no virtual.  Any
    other name is not a property of the document. *)
Definition config_value (e : t) : JsValue :=
  JObj [("activation",
         JObj [("enabled", JBool (activation_enabled e));
               ("defaultState", JBool (activation_defaultState e));
               ("entityActive", JBool (activation_entityActive e));
               ("useTimeBounding", JBool (activation_useTimeBounding e))]);
        ("versioning", JObj [("enabled", JBool (versioning_enabled e))]);
        ("hierarchy",
         JObj [("enabled", JBool (hierarchy_enabled e));
               ("parentLinkField", JStr (hierarchy_parentLinkField e));
               ("linkType", JStr (hierarchy_linkType e))])].

Definition schema_value (e : t) : JsValue :=
  JObj [("type", JStr (default "object" (type (schemaDefinition e))));
        ("properties", schema_properties e);
        ("required", JArr (JStr <$> schema_required e))].

Definition prop (e : t) (p : string) : JsValue :=
  if String.eqb p "_id" then JOid (_id e)
  else if String.eqb p "code" then JStr (code e)
  else if String.eqb p "name" then JStr (name e)
  else if String.eqb p "description"
  then from_option JStr JUndefined (description e)
  else if String.eqb p "derivedRecordConfig" then config_value e
  else if String.eqb p "schemaDefinition" then schema_value e
  else if String.eqb p "createdBy" then JOid (createdBy e)
  else if String.eqb p "createdAt" then JDate (Some (createdAt e))
  else if String.eqb p "updatedAt" then JDate (Some (updatedAt e))
  else JUndefined.

(** The same definition with another schema. *)
Definition with_schemaDefinition (s : SchemaDefinition) (e : t) : t :=
  {| _id := _id e; code := code e; name := name e;
     description := description e;
     derivedRecordConfig := derivedRecordConfig e;
     schemaDefinition := s;
     createdBy := createdBy e; createdAt := createdAt e;
     updatedAt := updatedAt e |}.

(** *** Construction: setters and defaults *)

(** The object handed to [Entity.create]. *)
Record EntityData := {
  d_code : option string;
  d_name : option string;
  d_description : option string;
  d_createdBy : string;
  d_derivedRecordConfig : DerivedRecordConfig;
  d_schemaDefinition : SchemaDefinition;
}.

(** A new document materialises every default. *)
Definition with_defaults (c : DerivedRecordConfig) : DerivedRecordConfig :=
  let a := activation c in
  let h := hierarchy c in
  {| activation :=
       {| Activation.enabled := Some (default true (Activation.enabled a));
          Activation.defaultState :=
            Some (default true (Activation.defaultState a));
          Activation.entityActive :=
            Some (default true (Activation.entityActive a));
          Activation.useTimeBounding :=
            Some (default false (Activation.useTimeBounding a)) |};
     versioning :=
       {| Versioning.enabled :=
            Some (default false (Versioning.enabled (versioning c))) |};
     hierarchy :=
       {| Hierarchy.enabled := Some (default false (Hierarchy.enabled h));
          Hierarchy.parentLinkField :=
            Some (trim (default "parentId" (Hierarchy.parentLinkField h)));
          Hierarchy.linkType := Some (default "_id" (Hierarchy.linkType h)) |}
  |}.

(** The schema of the document in memory; of it the store keeps no empty
    object, which reads back as the default. *)
Definition schema_with_defaults (s : SchemaDefinition) : SchemaDefinition :=
  {| type := Some (default "object" (type s));
     properties := Some (default (JObj []) (properties s));
     required := Some (default [] (required s)) |}.

(** *** Validators *)

(** [code]: [required], then [match: /^[A-Z0-9_]+$/]; the value has passed
    the [trim] and [uppercase] setters. *)
Definition validate_code (c : option string) : list PathError :=
  match c with
  | None => [{| pe_path := "code"; pe_message := "Entity code is required." |}]
  | Some s =>
      if String.eqb s ""
      then [{| pe_path := "code"; pe_message := "Entity code is required." |}]
      else if code_pattern s then []
      else [{| pe_path := "code";
               pe_message :=
                 "Entity code must be uppercase alphanumeric with underscores only" |}]
  end.

Definition validate_name (n : option string) : list PathError :=
  match n with
  | Some s =>
      if String.eqb s ""
      then [{| pe_path := "name"; pe_message := "Entity name is required." |}]
      else []
  | None => [{| pe_path := "name"; pe_message := "Entity name is required." |}]
  end.

(** [linkType]: [enum: ['_id', 'code']] *)
Definition validate_linkType (l : option string) : list PathError :=
  match l with
  | Some s =>
      if String.eqb s "_id" || String.eqb s "code" then []
      else [{| pe_path := "derivedRecordConfig.hierarchy.linkType";
               pe_message := "`" ++ s ++ "` is not a valid enum value for path `derivedRecordConfig.hierarchy.linkType`." |}]
  | None => []
  end.

(** [entitySchema.pre('validate', ...)], lines 241-275: [None] is
    [next()], [Some msg] is [next(new Error(msg))].  Reading a property of
    a [null] properties value throws, which the hook passes on. *)
Fixpoint required_defined (props : JsValue) (fields : list string)
    : option string :=
  match fields with
  | [] => None
  | field :: rest =>
      if negb (truthy (js_get props field))
      then Some ("Required field '" ++ field ++ "' is not defined in properties")
      else required_defined props rest
  end.

Definition pre_validate (s : SchemaDefinition) : option string :=
  let props := default (JObj []) (properties s) in
  if negb (typeof_object props)
  then Some "Schema properties must be an object"
  else match props with
       | JNull =>
           match default [] (required s) with
           | [] => None
           | _ => Some "Cannot read properties of null"
           end
       | _ => required_defined props (default [] (required s))
       end.

(** [new Entity(entityData)] followed by validation: the document that
    would be saved.  The unique index on [code] belongs to the store and is
    checked by [Entity_create] below. *)
Definition build (fresh : string) (now : Z) (d : EntityData) : Outcome t :=
  let code' : option string :=
    (fun s => toUpperCase (trim s)) <$> d_code d in
  let name' : option string := trim <$> d_name d in
  let config := with_defaults (d_derivedRecordConfig d) in
  let schema := schema_with_defaults (d_schemaDefinition d) in
  match pre_validate schema with
  | Some msg => Thrown msg
  | None =>
      match (validate_code code' ++ validate_name name'
             ++ validate_linkType (Hierarchy.linkType (hierarchy config)))%list
      with
      | [] =>
          Done {| _id := fresh;
                  code := default "" code';
                  name := default "" name';
                  description := trim <$> d_description d;
                  derivedRecordConfig := config;
                  schemaDefinition := schema;
                  createdBy := d_createdBy d;
                  createdAt := now;
                  updatedAt := now |}
      | es => ValidationError es
      end
  end.

(** *** Updates through [findByIdAndUpdate] *)

(** The update document: the request body of PUT /api/entities/:id.  A
    top-level key that is not a schema path is dropped by the strict
    schema and is not represented.  [u_code] is kept as the raw JSON value
    because the handler and the hook test its truthiness, and so are the
    two flags [versioning.enabled] and [hierarchy.enabled] of the
    [derivedRecordConfig] object, which the handler compares with
    [=== false]; [JUndefined] stands for a key that is absent.  A body
    with dotted keys or update operators ([$set] and the like) is not of
    this form. *)
Record ConfigUpdate := {
  c_activation : Activation.t;
  c_versioning_enabled : JsValue;
  c_hierarchy_enabled : JsValue;
  c_parentLinkField : option string;
  c_linkType : option string;
}.

Record Update := {
  u_code : JsValue;
  u_name : option string;
  u_description : option string;
  u_derivedRecordConfig : option ConfigUpdate;
  u_schemaDefinition : option SchemaDefinition;
}.

(** [entitySchema.pre('findOneAndUpdate', ...)], lines 178-226: the hook
    stops the update when [update.code] is truthy. *)
Definition pre_findOneAndUpdate (u : Update) : option string :=
  if truthy (u_code u)
  then Some "Entity code cannot be modified after creation"
  else None.

(** The [uppercase] and [trim] setters on [code]: a value that is not a
    string is cast first, then a truthy string is transformed. *)
Definition cast_code (v : JsValue) : Cast string :=
  match castString v with
  | Casted s => Casted (toUpperCase (trim s))
  | r => r
  end.

(** The update validators ([runValidators: true]) on the paths the update
    sets. *)
Definition update_validators (u : Update) (code' : option (option string))
    : list PathError :=
  (match code' with
   | Some c => validate_code c
   | None => []
   end
   ++ match u_name u with
      | Some n => validate_name (Some (trim n))
      | None => []
      end
   ++ match u_derivedRecordConfig u with
      | Some c => validate_linkType (c_linkType c)
      | None => []
      end)%list.

(** The cast of a flag of the update to Boolean.  An absent flag stays
    absent.  A [null] flag is stored as [null], which reads falsy like the
    default [false] of both flags, and is kept as [None]. *)
Definition cast_flag (v : JsValue) : Outcome (option bool) :=
  match v with
  | JUndefined => Done None
  | _ =>
      match castBoolean v with
      | Casted b => Done (Some b)
      | CastNull => Done None
      | CastError => Thrown "Cast to Boolean failed"
      end
  end.

(** The stored form of a nested object set by an update: the object of the
    update replaces the stored one as a whole, with its leaves cast and
    passed through the setters; no default is filled in. *)
Definition cast_config (c : ConfigUpdate) : Outcome DerivedRecordConfig :=
  match cast_flag (c_versioning_enabled c), cast_flag (c_hierarchy_enabled c)
  with
  | Done v, Done h =>
      Done {| activation := c_activation c;
              versioning := {| Versioning.enabled := v |};
              hierarchy :=
                {| Hierarchy.enabled := h;
                   Hierarchy.parentLinkField := trim <$> c_parentLinkField c;
                   Hierarchy.linkType := c_linkType c |} |}
  | Thrown m, _ | _, Thrown m => Thrown m
  | ValidationError es, _ | _, ValidationError es => ValidationError es
  end.

(** [$set] of the top-level keys of the update on document [e]. *)
Definition apply_update (now : Z) (u : Update) (code' : option string)
    (config' : option DerivedRecordConfig) (e : t) : t :=
  {| _id := _id e;
     code := default (code e) code';
     name := from_option trim (name e) (u_name u);
     description :=
       match u_description u with
       | Some d => Some (trim d)
       | None => description e
       end;
     derivedRecordConfig := default (derivedRecordConfig e) config';
     schemaDefinition := default (schemaDefinition e) (u_schemaDefinition u);
     createdBy := createdBy e;
     createdAt := createdAt e;
     updatedAt := now |}.

End Entity.

(** ** models/EntityRecord.js *)

Module EntityRecord.

(** A document of the model.  A path is [None] when it is [null]; [data]
    is of type Mixed and is [JUndefined] while it is not set.  The schema
    declares no parent link path. *)
Record t := {
  _id : string;
  entityId : option string;
  entityCode : option string;
  data : JsValue;
  isActive : option bool;
  effectiveFrom : option Z;
  effectiveTo : option Z;
  version : option Z;
  isCurrent : option bool;
  expiredAt : option Z;
  createdBy : option string;
  updatedBy : option string;
  createdAt : option Z;
  updatedAt : option Z;
}.

(** The paths of the schema (lines 4-65), and the names Mongoose manages
    itself. *)
Definition schema_paths : list string :=
  ["entityId"; "entityCode"; "data"; "isActive"; "effectiveFrom";
   "effectiveTo"; "version"; "isCurrent"; "expiredAt"; "createdBy";
   "updatedBy"].
Definition managed_paths : list string :=
  ["_id"; "id"; "__v"; "createdAt"; "updatedAt"].

(** A new document before any value is set: the schema defaults. *)
Definition blank (fresh : string) (now : Z) : t :=
  {| _id := fresh;
     entityId := None;
     entityCode := None;
     data := JUndefined;
     isActive := Some true;
     effectiveFrom := Some now;
     effectiveTo := None;
     version := Some 1;
     isCurrent := Some true;
     expiredAt := None;
     createdBy := None;
     updatedBy := None;
     createdAt := None;
     updatedAt := None |}.

(** A document together with the cast errors its assignments left on it;
    validation reports them. *)
Definition Pending : Type := t * list PathError.

Definition put {A} (cast : JsValue -> Cast A) (type path : string)
    (v : JsValue) (old : option A) (write : option A -> t) (errs : list PathError)
    : Pending :=
  match cast v with
  | Casted a => (write (Some a), errs)
  | CastNull => (write None, errs)
  | CastError => (write old, (errs ++ [cast_error type path])%list)
  end.

(** The [uppercase] and [trim] setters of [entityCode]. *)
Definition cast_entityCode (v : JsValue) : Cast string :=
  match castString v with
  | Casted s => Casted (toUpperCase (trim s))
  | r => r
  end.

(** Functional update of one path of a document. *)
Definition with_entityId (x : option string) (d : t) : t :=
  {| _id := _id d; entityId := x; entityCode := entityCode d; data := data d;
     isActive := isActive d; effectiveFrom := effectiveFrom d;
     effectiveTo := effectiveTo d; version := version d;
     isCurrent := isCurrent d; expiredAt := expiredAt d;
     createdBy := createdBy d; updatedBy := updatedBy d;
     createdAt := createdAt d; updatedAt := updatedAt d |}.
Definition with_entityCode (x : option string) (d : t) : t :=
  {| _id := _id d; entityId := entityId d; entityCode := x; data := data d;
     isActive := isActive d; effectiveFrom := effectiveFrom d;
     effectiveTo := effectiveTo d; version := version d;
     isCurrent := isCurrent d; expiredAt := expiredAt d;
     createdBy := createdBy d; updatedBy := updatedBy d;
     createdAt := createdAt d; updatedAt := updatedAt d |}.
Definition with_data (x : JsValue) (d : t) : t :=
  {| _id := _id d; entityId := entityId d; entityCode := entityCode d;
     data := x; isActive := isActive d; effectiveFrom := effectiveFrom d;
     effectiveTo := effectiveTo d; version := version d;
     isCurrent := isCurrent d; expiredAt := expiredAt d;
     createdBy := createdBy d; updatedBy := updatedBy d;
     createdAt := createdAt d; updatedAt := updatedAt d |}.
Definition with_isActive (x : option bool) (d : t) : t :=
  {| _id := _id d; entityId := entityId d; entityCode := entityCode d;
     data := data d; isActive := x; effectiveFrom := effectiveFrom d;
     effectiveTo := effectiveTo d; version := version d;
     isCurrent := isCurrent d; expiredAt := expiredAt d;
     createdBy := createdBy d; updatedBy := updatedBy d;
     createdAt := createdAt d; updatedAt := updatedAt d |}.
Definition with_effectiveFrom (x : option Z) (d : t) : t :=
  {| _id := _id d; entityId := entityId d; entityCode := entityCode d;
     data := data d; isActive := isActive d; effectiveFrom := x;
     effectiveTo := effectiveTo d; version := version d;
     isCurrent := isCurrent d; expiredAt := expiredAt d;
     createdBy := createdBy d; updatedBy := updatedBy d;
     createdAt := createdAt d; updatedAt := updatedAt d |}.
Definition with_effectiveTo (x : option Z) (d : t) : t :=
  {| _id := _id d; entityId := entityId d; entityCode := entityCode d;
     data := data d; isActive := isActive d;
     effectiveFrom := effectiveFrom d; effectiveTo := x;
     version := version d; isCurrent := isCurrent d;
     expiredAt := expiredAt d; createdBy := createdBy d;
     updatedBy := updatedBy d; createdAt := createdAt d;
     updatedAt := updatedAt d |}.
Definition with_version (x : option Z) (d : t) : t :=
  {| _id := _id d; entityId := entityId d; entityCode := entityCode d;
     data := data d; isActive := isActive d;
     effectiveFrom := effectiveFrom d; effectiveTo := effectiveTo d;
     version := x; isCurrent := isCurrent d; expiredAt := expiredAt d;
     createdBy := createdBy d; updatedBy := updatedBy d;
     createdAt := createdAt d; updatedAt := updatedAt d |}.
Definition with_isCurrent (x : option bool) (d : t) : t :=
  {| _id := _id d; entityId := entityId d; entityCode := entityCode d;
     data := data d; isActive := isActive d;
     effectiveFrom := effectiveFrom d; effectiveTo := effectiveTo d;
     version := version d; isCurrent := x; expiredAt := expiredAt d;
     createdBy := createdBy d; updatedBy := updatedBy d;
     createdAt := createdAt d; updatedAt := updatedAt d |}.
Definition with_expiredAt (x : option Z) (d : t) : t :=
  {| _id := _id d; entityId := entityId d; entityCode := entityCode d;
     data := data d; isActive := isActive d;
     effectiveFrom := effectiveFrom d; effectiveTo := effectiveTo d;
     version := version d; isCurrent := isCurrent d; expiredAt := x;
     createdBy := createdBy d; updatedBy := updatedBy d;
     createdAt := createdAt d; updatedAt := updatedAt d |}.
Definition with_createdBy (x : option string) (d : t) : t :=
  {| _id := _id d; entityId := entityId d; entityCode := entityCode d;
     data := data d; isActive := isActive d;
     effectiveFrom := effectiveFrom d; effectiveTo := effectiveTo d;
     version := version d; isCurrent := isCurrent d;
     expiredAt := expiredAt d; createdBy := x; updatedBy := updatedBy d;
     createdAt := createdAt d; updatedAt := updatedAt d |}.
Definition with_updatedBy (x : option string) (d : t) : t :=
  {| _id := _id d; entityId := entityId d; entityCode := entityCode d;
     data := data d; isActive := isActive d;
     effectiveFrom := effectiveFrom d; effectiveTo := effectiveTo d;
     version := version d; isCurrent := isCurrent d;
     expiredAt := expiredAt d; createdBy := createdBy d; updatedBy := x;
     createdAt := createdAt d; updatedAt := updatedAt d |}.
Definition with_timestamps (created updated : option Z) (d : t) : t :=
  {| _id := _id d; entityId := entityId d; entityCode := entityCode d;
     data := data d; isActive := isActive d;
     effectiveFrom := effectiveFrom d; effectiveTo := effectiveTo d;
     version := version d; isCurrent := isCurrent d;
     expiredAt := expiredAt d; createdBy := createdBy d;
     updatedBy := updatedBy d; createdAt := created; updatedAt := updated |}.

(** The assignment [doc[path] = v] for a defined [v] (no handler assigns
    [undefined]).  On a schema path the value is cast to the type of the
    path.  On any other name the schema is strict: the constructor drops
    the key, and on an existing document the assignment makes a plain
    property that is never saved.  The names of [managed_paths] are not
    assignable in this model. *)
Definition set `{Host} (path : string) (v : JsValue) (p : Pending) : Pending :=
  let '(d, errs) := p in
  if String.eqb path "entityId" then
    put castObjectId "ObjectId" path v (entityId d)
      (fun x => with_entityId x d) errs
  else if String.eqb path "entityCode" then
    put cast_entityCode "string" path v (entityCode d)
      (fun x => with_entityCode x d) errs
  else if String.eqb path "data" then (with_data v d, errs)
  else if String.eqb path "isActive" then
    put castBoolean "Boolean" path v (isActive d)
      (fun x => with_isActive x d) errs
  else if String.eqb path "effectiveFrom" then
    put castDate "date" path v (effectiveFrom d)
      (fun x => with_effectiveFrom x d) errs
  else if String.eqb path "effectiveTo" then
    put castDate "date" path v (effectiveTo d)
      (fun x => with_effectiveTo x d) errs
  else if String.eqb path "version" then
    put castNumber "Number" path v (version d)
      (fun x => with_version x d) errs
  else if String.eqb path "isCurrent" then
    put castBoolean "Boolean" path v (isCurrent d)
      (fun x => with_isCurrent x d) errs
  else if String.eqb path "expiredAt" then
    put castDate "date" path v (expiredAt d)
      (fun x => with_expiredAt x d) errs
  else if String.eqb path "createdBy" then
    put castObjectId "ObjectId" path v (createdBy d)
      (fun x => with_createdBy x d) errs
  else if String.eqb path "updatedBy" then
    put castObjectId "ObjectId" path v (updatedBy d)
      (fun x => with_updatedBy x d) errs
  else p.

(** [new EntityRecord(obj)]: every schema path that [obj] carries is set on
    the blank document; nothing else of [obj] is read. *)
Definition construct `{Host} (fresh : string) (now : Z)
    (obj : gmap string JsValue) : Pending :=
  foldl (fun p path =>
           match obj !! path with
           | Some v => if defined v then set path v p else p
           | None => p
           end)
        (blank fresh now, []) schema_paths.

(** [entityRecordSchema.pre('validate', ...)], lines 76-83. *)
Definition pre_validate (d : t) : list PathError :=
  match effectiveFrom d, effectiveTo d with
  | Some from, Some to =>
      if (from >=? to)%Z
      then [{| pe_path := "effectiveTo";
               pe_message :=
                 "Effective end date must be after effective start date" |}]
      else []
  | _, _ => []
  end.

(** The [required] validators of the schema. *)
Definition required_paths (d : t) : list PathError :=
  ((if entityId d is None
    then [{| pe_path := "entityId"; pe_message := "Entity ID is required" |}]
    else [])
   ++ (match entityCode d with
       | Some s =>
           if String.eqb s ""
           then [{| pe_path := "entityCode";
                    pe_message := "Entity code is required" |}]
           else []
       | None => [{| pe_path := "entityCode";
                     pe_message := "Entity code is required" |}]
       end)
   ++ (match data d with
       | JUndefined | JNull =>
           [{| pe_path := "data"; pe_message := "Record data is required" |}]
       | _ => []
       end)
   ++ (if createdBy d is None
       then [{| pe_path := "createdBy";
                pe_message := "Path `createdBy` is required." |}]
       else [])
   ++ (if updatedBy d is None
       then [{| pe_path := "updatedBy";
                pe_message := "Path `updatedBy` is required." |}]
       else []))%list.

(** [doc.validate()]: the cast errors left by the assignments, the hook,
    the validators. *)
Definition validate (p : Pending) : list PathError :=
  (p.2 ++ pre_validate p.1 ++ required_paths p.1)%list.

(** [entityRecordSchema.pre('save', ...)], lines 86-91: the hook does
    nothing. *)
Definition pre_save (d : t) : t := d.

(** [error.message] of a failed validation. *)
Definition validation_message (es : list PathError) : string :=
  "EntityRecord validation failed: " ++ join_errors es.

(** The property read [doc[p]] on a document: a name that is not a path of
    the schema is not a property of the document. *)
Definition prop (d : t) (p : string) : JsValue :=
  if String.eqb p "_id" then JOid (_id d)
  else if String.eqb p "entityId" then from_option JOid JNull (entityId d)
  else if String.eqb p "entityCode" then from_option JStr JNull (entityCode d)
  else if String.eqb p "data" then data d
  else if String.eqb p "isActive" then from_option JBool JNull (isActive d)
  else if String.eqb p "effectiveFrom"
  then from_option (fun t => JDate (Some t)) JNull (effectiveFrom d)
  else if String.eqb p "effectiveTo"
  then from_option (fun t => JDate (Some t)) JNull (effectiveTo d)
  else if String.eqb p "version" then from_option JNum JNull (version d)
  else if String.eqb p "isCurrent" then from_option JBool JNull (isCurrent d)
  else if String.eqb p "expiredAt"
  then from_option (fun t => JDate (Some t)) JNull (expiredAt d)
  else if String.eqb p "createdBy" then from_option JOid JNull (createdBy d)
  else if String.eqb p "updatedBy" then from_option JOid JNull (updatedBy d)
  else if String.eqb p "createdAt"
  then from_option (fun t => JDate (Some t)) JNull (createdAt d)
  else if String.eqb p "updatedAt"
  then from_option (fun t => JDate (Some t)) JNull (updatedAt d)
  else JUndefined.

End EntityRecord.

(** ** The database *)

(** The two collections, keyed by [_id]. *)
Record Db := {
  entities : gmap string Entity.t;
  entityRecords : gmap string EntityRecord.t;
}.

Definition set_entities (f : gmap string Entity.t -> gmap string Entity.t)
    (db : Db) : Db :=
  {| entities := f (entities db); entityRecords := entityRecords db |}.
Definition set_entityRecords
    (f : gmap string EntityRecord.t -> gmap string EntityRecord.t)
    (db : Db) : Db :=
  {| entities := entities db; entityRecords := f (entityRecords db) |}.

(** Ordering of a nullable sort key: [null] sorts lowest. *)
Definition opt_leb (a b : option Z) : bool :=
  match a, b with
  | None, _ => true
  | Some _, None => false
  | Some x, Some y => (x <=? y)%Z
  end.

(** [s.includes(sub)] *)
Fixpoint includes (sub s : string) : bool :=
  String.prefix sub s
  || match s with
     | EmptyString => false
     | String _ s' => includes sub s'
     end.

(** *** Static functions of the Entity model *)

(** [Entity.findOne({ code })] *)
Definition Entity_findOne (db : Db) (code : string) : option Entity.t :=
  head (filter (fun e => Entity.code e = code)
               (map_to_list (entities db)).*2).

(** [Entity.findById(id)] for an id that is an ObjectId already. *)
Definition Entity_findById (db : Db) (id : option string) : option Entity.t :=
  id ≫= fun i => entities db !! i.

(** [Entity.findById(req.params.id)]: the parameter is cast first. *)
Definition Entity_findById_param (db : Db) (id : string)
    : Outcome (option Entity.t) :=
  if ObjectId_isValid id then Done (entities db !! toLowerCase id)
  else Thrown "Cast to ObjectId failed".

(** [Entity.create(entityData)]: hooks, validators, then the insert, which
    the unique index on [code] can refuse. *)
Definition Entity_create (db : Db) (fresh : string) (now : Z)
    (d : Entity.EntityData) : Outcome (Db * Entity.t) :=
  match Entity.build fresh now d with
  | Done e =>
      if bool_decide (is_Some (Entity_findOne db (Entity.code e)))
         || bool_decide (is_Some (entities db !! fresh))
      then Thrown "E11000 duplicate key error"
      else Done (set_entities (insert fresh e) db, e)
  | ValidationError es => ValidationError es
  | Thrown m => Thrown m
  end.

(** [Entity.findByIdAndUpdate(id, update, { new: true, runValidators: true })]:
    the query hook, the cast of the update, the update validators, then the
    write.  The result is the updated document, or [None] when no document
    has this id. *)
Definition Entity_findByIdAndUpdate (db : Db) (id : string) (now : Z)
    (u : Entity.Update) : Outcome (Db * option Entity.t) :=
  match Entity.pre_findOneAndUpdate u with
  | Some msg => Thrown msg
  | None =>
      if negb (ObjectId_isValid id) then Thrown "Cast to ObjectId failed"
      else
        let code' : Outcome (option (option string)) :=
          if defined (Entity.u_code u)
          then match Entity.cast_code (Entity.u_code u) with
               | Casted s => Done (Some (Some s))
               | CastNull => Done (Some None)
               | CastError => Thrown "Cast to string failed for path code"
               end
          else Done None in
        let config' : Outcome (option Entity.DerivedRecordConfig) :=
          match Entity.u_derivedRecordConfig u with
          | Some c =>
              match Entity.cast_config c with
              | Done c' => Done (Some c')
              | ValidationError es => ValidationError es
              | Thrown m => Thrown m
              end
          | None => Done None
          end in
        match code', config' with
        | Thrown m, _ | _, Thrown m => Thrown m
        | ValidationError es, _ | _, ValidationError es => ValidationError es
        | Done c, Done config =>
            match Entity.update_validators u c with
            | [] =>
                match entities db !! toLowerCase id with
                | None => Done (db, None)
                | Some e =>
                    let e' := Entity.apply_update now u (mjoin c) config e in
                    if bool_decide (Entity.code e' ≠ Entity.code e)
                       && bool_decide
                            (is_Some (Entity_findOne db (Entity.code e')))
                    then Thrown "E11000 duplicate key error"
                    else Done (set_entities (insert (Entity._id e) e') db,
                               Some e')
                end
            | es => ValidationError es
            end
        end
  end.

(** *** Static functions of the EntityRecord model *)

(** A filter of [EntityRecord.find]: the conjunction of its conditions. *)
Definition EntityRecord_find (db : Db) (cond : EntityRecord.t -> bool)
    : list EntityRecord.t :=
  filter (fun r => cond r = true) (map_to_list (entityRecords db)).*2.

(** [EntityRecord.findOne({ _id: id, entityCode })] for a valid [id] and a
    code that the setters of the path leave as it is (upper case, nothing
    to trim). *)
Definition EntityRecord_findOne (db : Db) (id code : string)
    : option EntityRecord.t :=
  match entityRecords db !! toLowerCase id with
  | Some r =>
      if bool_decide (EntityRecord.entityCode r = Some code) then Some r
      else None
  | None => None
  end.

(** [EntityRecord.create(recordData)]: construct, validate, run the save
    hook, stamp and insert. *)
Definition EntityRecord_create `{Host} (db : Db) (fresh : string) (now : Z)
    (recordData : gmap string JsValue) : Outcome (Db * EntityRecord.t) :=
  let p := EntityRecord.construct fresh now recordData in
  match EntityRecord.validate p with
  | [] =>
      let d :=
        EntityRecord.with_timestamps (Some now) (Some now)
          (EntityRecord.pre_save p.1) in
      if bool_decide (is_Some (entityRecords db !! fresh))
      then Thrown "E11000 duplicate key error"
      else Done (set_entityRecords (insert (EntityRecord._id d) d) db, d)
  | es => ValidationError es
  end.

(** Whether two states of a document differ on a schema path. *)
Definition opt_eqb {A} (eqb : A -> A -> bool) (a b : option A) : bool :=
  match a, b with
  | Some x, Some y => eqb x y
  | None, None => true
  | _, _ => false
  end.

Definition isModified (old new : EntityRecord.t) : bool :=
  negb (opt_eqb String.eqb (EntityRecord.entityId old) (EntityRecord.entityId new)
        && opt_eqb String.eqb (EntityRecord.entityCode old)
             (EntityRecord.entityCode new)
        && js_eqb (EntityRecord.data old) (EntityRecord.data new)
        && opt_eqb Bool.eqb (EntityRecord.isActive old) (EntityRecord.isActive new)
        && opt_eqb Z.eqb (EntityRecord.effectiveFrom old)
             (EntityRecord.effectiveFrom new)
        && opt_eqb Z.eqb (EntityRecord.effectiveTo old)
             (EntityRecord.effectiveTo new)
        && opt_eqb Z.eqb (EntityRecord.version old) (EntityRecord.version new)
        && opt_eqb Bool.eqb (EntityRecord.isCurrent old)
             (EntityRecord.isCurrent new)
        && opt_eqb Z.eqb (EntityRecord.expiredAt old) (EntityRecord.expiredAt new)
        && opt_eqb String.eqb (EntityRecord.createdBy old)
             (EntityRecord.createdBy new)
        && opt_eqb String.eqb (EntityRecord.updatedBy old)
             (EntityRecord.updatedBy new)).

(** [record.save()] on a document loaded as [old]: validate, run the save
    hook, and write the document back under its own [_id]; the timestamp
    moves when a path changed. *)
Definition EntityRecord_save (db : Db) (now : Z) (old : EntityRecord.t)
    (p : EntityRecord.Pending) : Outcome (Db * EntityRecord.t) :=
  match EntityRecord.validate p with
  | [] =>
      let d := EntityRecord.pre_save p.1 in
      let d' :=
        EntityRecord.with_timestamps (EntityRecord.createdAt old)
          (if isModified old d then Some now else EntityRecord.updatedAt old)
          d in
      Done (set_entityRecords (insert (EntityRecord._id old) d') db, d')
  | es => ValidationError es
  end.

(** ** Responses *)

(** The JSON bodies the handlers send.  The [populate] of the creator and
    updater names is a join with the users collection and is left out. *)
Inductive Body :=
| Fail (message : string)
| FailErrors (errors : list PathError)
| ServerError (message : string)
| EntityData (data : Entity.t)
| RecordData (entityName : string) (data : EntityRecord.t)
| RecordPage (count : nat) (totalPages : option Z) (currentPage : option Z)
    (total : nat) (entityName : string) (data : list EntityRecord.t)
| RecordVersions (entityName : string) (count : nat)
    (data : list EntityRecord.t).

Record Response := { status : nat; body : Body }.

Definition json (code : nat) (b : Body) : Response :=
  {| status := code; body := b |}.

(** The value as express-validator sees it: [notEmpty()] fails on a missing
    value and on the empty string. *)
Definition notEmpty (v : option string) : bool :=
  match v with
  | Some s => negb (String.eqb s "")
  | None => false
  end.

Definition messages (es : list PathError) : string :=
  (fix go (es : list PathError) : string :=
     match es with
     | [] => ""
     | [e] => pe_message e
     | e :: es' => pe_message e ++ ", " ++ go es'
     end) es.

(** ** controllers/entityController.js *)

Module entityController.

(** The legacy [config] object of a create request. *)
Record LegacyConfig := {
  enableActivation : option bool;
  defaultActivationState : option bool;
  enableRecordLocking : option bool;
  enableVersioning : option bool;
  enableHierarchy : option bool;
  parentLinkField : option string;
  linkType : option string;
}.

(** The body of POST /api/entities. *)
Record CreateBody := {
  code : option string;
  name : option string;
  description : option string;
  derivedRecordConfig : option Entity.DerivedRecordConfig;
  config : option LegacyConfig;
  isActive : option bool;
  schemaDefinition : option Entity.SchemaDefinition;
  schema : option Entity.SchemaDefinition;
}.

Record CreateRequest := {
  create_body : CreateBody;
  create_user : string;
}.

Record UpdateRequest := {
  update_id : string;
  update_body : Entity.Update;
  update_user : string;
}.

(** The checks of routes/entityRoutes.js on POST /: [code] not empty and
    matching the pattern, [name] not empty. *)
Definition create_checks (b : CreateBody) : list PathError :=
  ((if notEmpty (code b) then []
    else [{| pe_path := "code"; pe_message := "Entity code is required" |}])
   ++ (if from_option code_pattern false (code b) then []
       else [{| pe_path := "code";
                pe_message :=
                  "Entity code must be uppercase alphanumeric with underscores only" |}])
   ++ (if notEmpty (name b) then []
       else [{| pe_path := "name";
                pe_message := "Entity name is required" |}]))%list.

(** The check on PUT /:id: [name], when present, is not empty. *)
Definition update_checks (u : Entity.Update) : list PathError :=
  match Entity.u_name u with
  | Some n =>
      if String.eqb n ""
      then [{| pe_path := "name";
               pe_message := "Entity name is required if provided" |}]
      else []
  | None => []
  end.

(** [a || b] on an optional string: the empty string is falsy. *)
Definition or_string (a : option string) (b : string) : string :=
  match a with
  | Some s => if String.eqb s "" then b else s
  | None => b
  end.

(** The fallback configuration built from the legacy fields, lines
    243-258. *)
Definition legacy_config (b : CreateBody) : Entity.DerivedRecordConfig :=
  let c := config b in
  {| Entity.activation :=
       {| Entity.Activation.enabled :=
            Some (default true (c ≫= enableActivation));
          Entity.Activation.defaultState :=
            Some (default true (c ≫= defaultActivationState));
          Entity.Activation.entityActive := Some (default true (isActive b));
          Entity.Activation.useTimeBounding :=
            Some (default false (c ≫= enableRecordLocking)) |};
     Entity.versioning :=
       {| Entity.Versioning.enabled :=
            Some (default false (c ≫= enableVersioning)) |};
     Entity.hierarchy :=
       {| Entity.Hierarchy.enabled :=
            Some (default false (c ≫= enableHierarchy));
          Entity.Hierarchy.parentLinkField :=
            Some (or_string (c ≫= parentLinkField) "parentId");
          Entity.Hierarchy.linkType :=
            Some (or_string (c ≫= linkType) "_id") |} |}.

(** The schema definition of the request, lines 262-276. *)
Definition request_schema (b : CreateBody) : Entity.SchemaDefinition :=
  match schemaDefinition b with
  | Some s => s
  | None =>
      match schema b with
      | Some s =>
          {| Entity.type := Some (or_string (Entity.type s) "object");
             Entity.properties :=
               Some (match Entity.properties s with
                     | Some p => if truthy p then p else JObj []
                     | None => JObj []
                     end);
             Entity.required := Some (default [] (Entity.required s)) |}
      | None =>
          {| Entity.type := Some "object";
             Entity.properties := Some (JObj []);
             Entity.required := Some [] |}
      end
  end.

(** [exports.createEntity], lines 186-316. *)
Definition createEntity (db : Db) (fresh : string) (now : Z)
    (req : CreateRequest) : Db * Response :=
  let b := create_body req in
  match create_checks b with
  | _ :: _ as errors => (db, json 400 (FailErrors errors))
  | [] =>
      (* Ensure code is uppercase *)
      let code' : option string :=
        match code b with
        | Some c => if String.eqb c "" then Some c else Some (toUpperCase c)
        | None => None
        end in
      match code' ≫= Entity_findOne db with
      | Some _ =>
          (db, json 400
                 (Fail ("Entity with code '" ++ default "" code'
                        ++ "' already exists")))
      | None =>
          let entityData :=
            {| Entity.d_code := code';
               Entity.d_name := name b;
               Entity.d_description := description b;
               Entity.d_createdBy := create_user req;
               Entity.d_derivedRecordConfig :=
                 default (legacy_config b) (derivedRecordConfig b);
               Entity.d_schemaDefinition := request_schema b |} in
          match Entity_create db fresh now entityData with
          | Done (db', entity) => (db', json 201 (EntityData entity))
          | ValidationError es => (db, json 400 (Fail (messages es)))
          | Thrown _ =>
              (db, json 500 (ServerError "Server error while creating entity"))
          end
      end
  end.

(** [delete req.body.code] *)
Definition delete_code (u : Entity.Update) : Entity.Update :=
  {| Entity.u_code := JUndefined;
     Entity.u_name := Entity.u_name u;
     Entity.u_description := Entity.u_description u;
     Entity.u_derivedRecordConfig := Entity.u_derivedRecordConfig u;
     Entity.u_schemaDefinition := Entity.u_schemaDefinition u |}.

(** [req.body.derivedRecordConfig?.versioning?.enabled === false] and the
    same for [hierarchy]. *)
Definition disables_versioning (u : Entity.Update) : bool :=
  match Entity.u_derivedRecordConfig u with
  | Some c => js_eqb (Entity.c_versioning_enabled c) (JBool false)
  | None => false
  end.

Definition disables_hierarchy (u : Entity.Update) : bool :=
  match Entity.u_derivedRecordConfig u with
  | Some c => js_eqb (Entity.c_hierarchy_enabled c) (JBool false)
  | None => false
  end.

(** [exports.updateEntity], lines 323-443. *)
Definition updateEntity (db : Db) (now : Z) (req : UpdateRequest)
    : Db * Response :=
  let failed :=
    (db, json 500 (ServerError "Server error while updating entity")) in
  match update_checks (update_body req) with
  | _ :: _ as errors => (db, json 400 (FailErrors errors))
  | [] =>
      (* Remove code from update payload (immutable) *)
      let body :=
        if truthy (Entity.u_code (update_body req))
        then delete_code (update_body req)
        else update_body req in
      match Entity_findById_param db (update_id req) with
      | Done None => (db, json 404 (Fail "Entity not found"))
      | Done (Some entity) =>
          if Entity.versioning_enabled entity && disables_versioning body
          then (db, json 400
                      (Fail "Cannot disable versioning once it has been enabled"))
          else if Entity.hierarchy_enabled entity && disables_hierarchy body
          then (db, json 400
                      (Fail "Cannot disable hierarchy once it has been enabled"))
          else
            match Entity_findByIdAndUpdate db (update_id req) now body with
            | Done (db', Some updatedEntity) =>
                (db', json 200 (EntityData updatedEntity))
            | Done (_, None) => failed
            | ValidationError es => (db, json 400 (Fail (messages es)))
            | Thrown _ => failed
            end
      | _ => failed
      end
  end.

End entityController.

(** ** controllers/entityRecordController.js *)

Module entityRecordController.

(** [req.query] of the listing: a key that is absent is [JUndefined]. *)
Record Query := {
  search : JsValue;
  currentOnly : JsValue;
  active : JsValue;
  limit : JsValue;
  page : JsValue;
}.

(** [req.body] of a create or update. *)
Record RecordBody := {
  data : JsValue;
  isActive : JsValue;
  effectiveFrom : JsValue;
  effectiveTo : JsValue;
  parent : JsValue;
}.

Record Request := {
  entityCode : string;
  id : string;
  query : Query;
  body : RecordBody;
  user : string;
}.

(** The check of routes/entityRecordRoutes.js on POST: [data] is not
    empty. *)
Definition create_checks (b : RecordBody) : list PathError :=
  match data b with
  | JUndefined | JNull | JStr "" =>
      [{| pe_path := "data"; pe_message := "Record data is required" |}]
  | _ => []
  end.

(** The check on PUT: [data], when present, is not empty. *)
Definition update_checks (b : RecordBody) : list PathError :=
  match data b with
  | JNull | JStr "" =>
      [{| pe_path := "data";
          pe_message := "Record data cannot be empty if provided" |}]
  | _ => []
  end.

(** The conditions of a query of the listing. *)
Definition list_filter `{Host} (code : string) (currentOnly active search : JsValue)
    (r : EntityRecord.t) : bool :=
  bool_decide (EntityRecord.entityCode r = Some code)
  && (if js_eqb currentOnly (JStr "true")
      then bool_decide (EntityRecord.isCurrent r = Some true)
      else true)
  && (if defined active
      then bool_decide
             (EntityRecord.isActive r = Some (js_eqb active (JStr "true")))
      else true)
  && (match search with
      | JStr s =>
          if String.eqb s "" then true else text_search s (EntityRecord.data r)
      | _ => true
      end).

(** [.sort({ createdAt: -1 })] *)
Definition newest_first (a b : EntityRecord.t) : Prop :=
  opt_leb (EntityRecord.createdAt b) (EntityRecord.createdAt a) = true.

(** [.sort({ version: -1 })] *)
Definition version_descending (a b : EntityRecord.t) : Prop :=
  opt_leb (EntityRecord.version b) (EntityRecord.version a) = true.

#[global] Instance newest_first_dec a b : Decision (newest_first a b).
Proof. unfold newest_first. apply _. Defined.
#[global] Instance version_descending_dec a b :
  Decision (version_descending a b).
Proof. unfold version_descending. apply _. Defined.

(** [.skip(skip).limit(limit)]: the store refuses a skip or a limit that is
    not a number and a negative skip; a limit of zero is no limit, a
    negative limit counts as its absolute value. *)
Definition paginate {A} (skip limit : option Z) (l : list A)
    : option (list A) :=
  match skip, limit with
  | Some s, Some n =>
      if (s <? 0)%Z then None
      else
        let rest := drop (Z.to_nat s) l in
        Some (if (n =? 0)%Z then rest else take (Z.to_nat (Z.abs n)) rest)
  | _, _ => None
  end.

(** [Math.ceil(total / parseInt(limit))], [None] when it is not finite. *)
Definition totalPages (total : nat) (limit : option Z) : option Z :=
  match limit with
  | Some n => if (n =? 0)%Z then None else Some (- ((- Z.of_nat total) / n))
  | None => None
  end.

(** [exports.getEntityRecords], lines 115-178. *)
Definition getEntityRecords `{Host} (db : Db) (req : Request) : Response :=
  let q := query req in
  (* const { search, currentOnly = 'true', active, limit = 20, page = 1 } *)
  let currentOnly' :=
    if defined (currentOnly q) then currentOnly q else JStr "true" in
  let limit' := if defined (limit q) then limit q else JNum 20 in
  let page' := if defined (page q) then page q else JNum 1 in
  let code := toUpperCase (entityCode req) in
  let cond := list_filter code currentOnly' (active q) (search q) in
  let skip :=
    p ← parseInt page'; l ← parseInt limit'; Some ((p - 1) * l)%Z in
  let failed :=
    json 500 (ServerError "Server error while fetching entity records") in
  match Entity_findOne db code with
  | None =>
      json 404
        (Fail ("Entity with code " ++ entityCode req ++ " not found"))
  | Some entity =>
      match search q with
      | JUndefined | JNull | JStr _ | JBool false | JNum 0 =>
          let found := merge_sort newest_first (EntityRecord_find db cond) in
          match paginate skip (parseInt limit') found with
          | Some records =>
              let total := length (EntityRecord_find db cond) in
              json 200
                (RecordPage (length records)
                   (totalPages total (parseInt limit')) (parseInt page')
                   total (Entity.name entity) records)
          | None => failed
          end
      | _ => failed
      end
  end.

(** The object [recordData] of the create handler, lines 264-295. *)
Definition recordData `{Host} (entity : Entity.t) (req : Request)
    : gmap string JsValue :=
  let b := body req in
  (* Set record metadata *)
  let rd : gmap string JsValue :=
    <["updatedBy" := JOid (user req)]>
      (<["createdBy" := JOid (user req)]>
         (<["data" := data b]>
            (<["entityCode" := JStr (Entity.code entity)]>
               (<["entityId" := JOid (Entity._id entity)]> ∅)))) in
  (* Set activation based on entity configuration *)
  let rd :=
    if Entity.activation_enabled entity
    then <["isActive" :=
             if defined (isActive b) then isActive b
             else JBool (Entity.activation_defaultState entity)]> rd
    else rd in
  (* Set time bounding if configured *)
  let rd :=
    if Entity.activation_useTimeBounding entity
    then
      let rd :=
        if truthy (effectiveFrom b)
        then <["effectiveFrom" := new_Date (effectiveFrom b)]> rd else rd in
      if truthy (effectiveTo b)
      then <["effectiveTo" := new_Date (effectiveTo b)]> rd else rd
    else rd in
  (* Set hierarchy parent if configured *)
  if Entity.hierarchy_enabled entity && truthy (parent b)
  then <[Entity.hierarchy_parentLinkField entity := parent b]> rd
  else rd.

(** [entity.entityIsActive], the property both write handlers test. *)
Definition entityIsActive (entity : Entity.t) : JsValue :=
  Entity.prop entity "entityIsActive".

(** The answer of the [catch] block of the write handlers. *)
Definition caught (what : string) (name message : string) : Response :=
  if String.eqb name "ValidationError" || includes "Required field" message
  then json 400 (Fail message)
  else json 500 (ServerError ("Server error while " ++ what ++ " entity record")).

(** [exports.createEntityRecord], lines 234-321. *)
Definition createEntityRecord `{Host} (db : Db) (fresh : string) (now : Z)
    (req : Request) : Db * Response :=
  match create_checks (body req) with
  | _ :: _ as errors => (db, json 400 (FailErrors errors))
  | [] =>
      (* Find the entity definition *)
      match Entity_findOne db (toUpperCase (entityCode req)) with
      | None =>
          (db, json 404
                 (Fail ("Entity with code " ++ entityCode req ++ " not found")))
      | Some entity =>
          (* Check if the entity is active *)
          if negb (truthy (entityIsActive entity))
          then
            (db, json 400
                   (Fail ("Entity " ++ Entity.name entity
                          ++ " is currently inactive and cannot accept new records")))
          else
            (* Create the record *)
            match EntityRecord_create db fresh now (recordData entity req) with
            | Done (db', record) =>
                (db', json 201 (RecordData (Entity.name entity) record))
            | ValidationError es =>
                (db, caught "creating" "ValidationError"
                       (EntityRecord.validation_message es))
            | Thrown m => (db, caught "creating" "Error" m)
            end
      end
  end.

(** The assignments of the update handler on the loaded document, lines
    379-406. *)
Definition assign `{Host} (entity : Entity.t) (req : Request)
    (record : EntityRecord.t) : EntityRecord.Pending :=
  let b := body req in
  let p : EntityRecord.Pending := (record, []) in
  (* Update the data *)
  let p := if truthy (data b) then EntityRecord.set "data" (data b) p else p in
  (* Update activation if configured *)
  let p :=
    if Entity.activation_enabled entity && defined (isActive b)
    then EntityRecord.set "isActive" (isActive b) p else p in
  (* Update time bounding if configured *)
  let p :=
    if Entity.activation_useTimeBounding entity
    then
      let p :=
        if truthy (effectiveFrom b)
        then EntityRecord.set "effectiveFrom" (new_Date (effectiveFrom b)) p
        else p in
      if truthy (effectiveTo b)
      then EntityRecord.set "effectiveTo" (new_Date (effectiveTo b)) p
      else p
    else p in
  (* Update hierarchy parent if configured *)
  let p :=
    if Entity.hierarchy_enabled entity && defined (parent b)
    then EntityRecord.set (Entity.hierarchy_parentLinkField entity) (parent b) p
    else p in
  (* Set updater *)
  EntityRecord.set "updatedBy" (JOid (user req)) p.

(** [exports.updateEntityRecord], lines 328-437. *)
Definition updateEntityRecord `{Host} (db : Db) (now : Z) (req : Request)
    : Db * Response :=
  match update_checks (body req) with
  | _ :: _ as errors => (db, json 400 (FailErrors errors))
  | [] =>
      if negb (ObjectId_isValid (id req))
      then (db, json 400 (Fail "Invalid ID format"))
      else
        match EntityRecord_findOne db (id req) (toUpperCase (entityCode req)) with
        | None => (db, json 404 (Fail "Entity record not found"))
        | Some record =>
            match Entity_findById db (EntityRecord.entityId record) with
            | None =>
                (db, json 404 (Fail "Parent entity definition not found"))
            | Some entity =>
                if negb (truthy (entityIsActive entity))
                then
                  (db, json 400
                         (Fail ("Entity " ++ Entity.name entity
                                ++ " is currently inactive and records cannot be updated")))
                else
                  match EntityRecord_save db now record
                          (assign entity req record) with
                  | Done (db', updatedRecord) =>
                      (db', json 200
                              (RecordData (Entity.name entity) updatedRecord))
                  | ValidationError es =>
                      (db, caught "updating" "ValidationError"
                             (EntityRecord.validation_message es))
                  | Thrown m => (db, caught "updating" "Error" m)
                  end
            end
        end
  end.

(** [getBusinessKeyFields], lines 646-661: the required fields that the
    data carries, with their values; [None] is [null]. *)
Definition getBusinessKeyFields (entity : Entity.t) (data : JsValue)
    : option (gmap string JsValue) :=
  if negb (truthy data) then None
  else
    let businessKey : gmap string JsValue :=
      foldl (fun bk field =>
               if defined (js_get data field)
               then <[field := js_get data field]> bk
               else bk)
            ∅ (Entity.schema_required entity) in
    if (0 <? size businessKey)%nat then Some businessKey else None.

(** The value at a dotted path of a stored document. *)
Fixpoint path_get (v : JsValue) (segments : list string) : JsValue :=
  match segments with
  | [] => v
  | s :: rest => path_get (js_get v s) rest
  end.

(** The equality condition [{ path: q }] of the store on the value found
    at the path: equal values match, an array matches through any of its
    elements, and [null] matches a missing field. *)
Definition matches (q stored : JsValue) : bool :=
  match stored with
  | JUndefined => js_eqb q JNull
  | JArr xs => js_eqb q stored || existsb (js_eqb q) xs
  | _ => js_eqb q stored
  end.

(** [versionQuery]: the entity code and one condition [data.<key>] per
    entry of the business key. *)
Definition versionQuery (code : string) (businessKey : gmap string JsValue)
    (r : EntityRecord.t) : bool :=
  bool_decide (EntityRecord.entityCode r = Some code)
  && forallb (fun kv => matches kv.2
                          (path_get (EntityRecord.data r) (split_dot kv.1)))
       (map_to_list businessKey).

(** [exports.getEntityRecordVersions], lines 556-640. *)
Definition getEntityRecordVersions (db : Db) (req : Request) : Response :=
  if negb (ObjectId_isValid (id req))
  then json 400 (Fail "Invalid ID format")
  else
    match EntityRecord_findOne db (id req) (toUpperCase (entityCode req)) with
    | None => json 404 (Fail "Entity record not found")
    | Some currentRecord =>
        match Entity_findById db (EntityRecord.entityId currentRecord) with
        | None => json 404 (Fail "Parent entity definition not found")
        | Some entity =>
            if negb (Entity.versioning_enabled entity)
            then json 400 (Fail "Versioning is not enabled for this entity type")
            else
              match getBusinessKeyFields entity
                      (EntityRecord.data currentRecord) with
              | None =>
                  json 400 (Fail "Cannot determine business key for versioning")
              | Some businessKey =>
                  let versions :=
                    merge_sort version_descending
                      (EntityRecord_find db
                         (versionQuery (toUpperCase (entityCode req))
                            businessKey)) in
                  json 200
                    (RecordVersions (Entity.name entity) (length versions)
                       versions)
              end
        end
    end.

End entityRecordController.

Module EC := entityController.
Module ERC := entityRecordController.

(** ** Runs of the record handlers *)

(** A write request on records: a create (with the [_id] the driver draws
    for the new document and the time of the request) or an update. *)
Inductive Op :=
| Create (fresh : string) (now : Z) (req : ERC.Request)
| Update (now : Z) (req : ERC.Request).

Definition step `{Host} (db : Db) (op : Op) : Db :=
  match op with
  | Create fresh now req => (ERC.createEntityRecord db fresh now req).1
  | Update now req => (ERC.updateEntityRecord db now req).1
  end.

Definition run `{Host} (db : Db) (ops : list Op) : Db := foldl step db ops.

(** The records a listing response carries. *)
Definition listed (r : Response) : list EntityRecord.t :=
  match body r with
  | RecordPage _ _ _ _ _ records => records
  | RecordVersions _ _ versions => versions
  | _ => []
  end.

(** The ordering invariant of the validity window of a record. *)
Definition window_ordered (d : EntityRecord.t) : Prop :=
  forall from to,
    EntityRecord.effectiveFrom d = Some from ->
    EntityRecord.effectiveTo d = Some to ->
    (from < to)%Z.

(** ** The scenario of the specification

    A definition CUSTOMER with [required = ["customerCode"]] and versioning
    enabled, one record for customer ACME001, and the requests made on
    them. *)

Module Scenario.

(** A host whose date parser knows the two dates of the scenario. *)
Definition host : Host :=
  {| Date_parse := fun s =>
       if String.eqb s "2024-01-01" then Some 1704067200000%Z
       else if String.eqb s "2023-01-01" then Some 1672531200000%Z
       else None;
     Number_parse := fun _ => None;
     parseInt_string := fun _ => None;
     text_search := fun _ _ => false |}.

Definition admin : string := "60d21b4667d0d8992e610c80".
Definition customer_id : string := "60d21b4667d0d8992e610c85".
Definition acme_id : string := "60f7a4c67d0d8992e610c851".
Definition acme_id2 : string := "60f7a4c67d0d8992e610c852".
Definition parent_id : string := "60f7a4c67d0d8992e610c83f".

Definition empty_db : Db := {| entities := ∅; entityRecords := ∅ |}.

Definition customer_schema : Entity.SchemaDefinition :=
  {| Entity.type := Some "object";
     Entity.properties :=
       Some (JObj [("customerCode", JObj [("type", JStr "string")]);
                   ("email", JObj [("type", JStr "string");
                                   ("format", JStr "email")])]);
     Entity.required := Some ["customerCode"] |}.

(** POST /api/entities for CUSTOMER, with the flags of the scenario at
    hand. *)
Definition define_customer (timeBounding versioning hierarchy : bool)
    : EC.CreateRequest :=
  {| EC.create_body :=
       {| EC.code := Some "CUSTOMER";
          EC.name := Some "Customer";
          EC.description := None;
          EC.derivedRecordConfig :=
            Some {| Entity.activation :=
                      {| Entity.Activation.enabled := None;
                         Entity.Activation.defaultState := None;
                         Entity.Activation.entityActive := Some true;
                         Entity.Activation.useTimeBounding :=
                           Some timeBounding |};
                    Entity.versioning :=
                      {| Entity.Versioning.enabled := Some versioning |};
                    Entity.hierarchy :=
                      {| Entity.Hierarchy.enabled := Some hierarchy;
                         Entity.Hierarchy.parentLinkField := None;
                         Entity.Hierarchy.linkType := None |} |};
          EC.config := None;
          EC.isActive := None;
          EC.schemaDefinition := Some customer_schema;
          EC.schema := None |};
     EC.create_user := admin |}.

(** The stored definition: usable ([entityActive] is true), with the
    defaults materialised. *)
Definition customer (timeBounding versioning hierarchy : bool) : Entity.t :=
  {| Entity._id := customer_id;
     Entity.code := "CUSTOMER";
     Entity.name := "Customer";
     Entity.description := None;
     Entity.derivedRecordConfig :=
       {| Entity.activation :=
            {| Entity.Activation.enabled := Some true;
               Entity.Activation.defaultState := Some true;
               Entity.Activation.entityActive := Some true;
               Entity.Activation.useTimeBounding := Some timeBounding |};
          Entity.versioning :=
            {| Entity.Versioning.enabled := Some versioning |};
          Entity.hierarchy :=
            {| Entity.Hierarchy.enabled := Some hierarchy;
               Entity.Hierarchy.parentLinkField := Some "parentId";
               Entity.Hierarchy.linkType := Some "_id" |} |};
     Entity.schemaDefinition := customer_schema;
     Entity.createdBy := admin;
     Entity.createdAt := 1000;
     Entity.updatedAt := 1000 |}.

Definition db_with (e : Entity.t) (records : list EntityRecord.t) : Db :=
  {| entities := {[ Entity._id e := e ]};
     entityRecords :=
       list_to_map ((fun r => (EntityRecord._id r, r)) <$> records) |}.

(** The versioned definition of the scenario, and the database that holds
    only it. *)
Definition versioned : Entity.t := customer false true false.
Definition db_customer : Db := db_with versioned [].

Definition no_query : ERC.Query :=
  {| ERC.search := JUndefined; ERC.currentOnly := JUndefined;
     ERC.active := JUndefined; ERC.limit := JUndefined;
     ERC.page := JUndefined |}.

Definition record_request (id : string) (data from to parent : JsValue)
    : ERC.Request :=
  {| ERC.entityCode := "CUSTOMER";
     ERC.id := id;
     ERC.query := no_query;
     ERC.body :=
       {| ERC.data := data; ERC.isActive := JUndefined;
          ERC.effectiveFrom := from; ERC.effectiveTo := to;
          ERC.parent := parent |};
     ERC.user := admin |}.

Definition acme_data (email : string) : JsValue :=
  JObj [("customerCode", JStr "ACME001"); ("email", JStr email)].

(** POST /api/entity-records/CUSTOMER
    [{ data: { customerCode: "ACME001", email: "a@a.com" } }] *)
Definition create_acme : ERC.Request :=
  record_request "" (acme_data "a@a.com") JUndefined JUndefined JUndefined.

(** PUT /api/entity-records/CUSTOMER/<acme_id>
    [{ data: { customerCode: "ACME001", email: "b@b.com" } }] *)
Definition update_acme : ERC.Request :=
  record_request acme_id (acme_data "b@b.com") JUndefined JUndefined JUndefined.

(** GET /api/entity-records/CUSTOMER/<acme_id>/versions *)
Definition versions_acme : ERC.Request :=
  record_request acme_id JUndefined JUndefined JUndefined JUndefined.

(** POST with a payload that lacks the required [customerCode]. *)
Definition create_invalid : ERC.Request :=
  record_request "" (JObj [("email", JStr "a@a.com")])
    JUndefined JUndefined JUndefined.

(** POST with [effectiveFrom] after [effectiveTo]. *)
Definition create_reversed : ERC.Request :=
  record_request "" (acme_data "a@a.com")
    (JStr "2024-01-01") (JStr "2023-01-01") JUndefined.

(** POST with a parent reference. *)
Definition create_child : ERC.Request :=
  record_request "" (acme_data "a@a.com") JUndefined JUndefined
    (JStr parent_id).

(** A revision of ACME001 as the model stores it. *)
Definition acme (id : string) (email : string) (version : Z)
    (isCurrent : bool) (expiredAt : option Z) (created updated : Z)
    : EntityRecord.t :=
  {| EntityRecord._id := id;
     EntityRecord.entityId := Some customer_id;
     EntityRecord.entityCode := Some "CUSTOMER";
     EntityRecord.data := acme_data email;
     EntityRecord.isActive := Some true;
     EntityRecord.effectiveFrom := Some created;
     EntityRecord.effectiveTo := None;
     EntityRecord.version := Some version;
     EntityRecord.isCurrent := Some isCurrent;
     EntityRecord.expiredAt := expiredAt;
     EntityRecord.createdBy := Some admin;
     EntityRecord.updatedBy := Some admin;
     EntityRecord.createdAt := Some created;
     EntityRecord.updatedAt := Some updated |}.

(** Revision 1 of ACME001, current. *)
Definition acme_v1 : EntityRecord.t :=
  acme acme_id "a@a.com" 1 true None 2000 2000.
Definition db_acme : Db := db_with versioned [acme_v1].

(** The one document of ACME001 after an update in place at time 3000, and
    the database that holds it. *)
Definition acme_overwritten : EntityRecord.t :=
  acme acme_id "b@b.com" 1 true None 2000 3000.
Definition db_overwritten : Db := db_with versioned [acme_overwritten].

(** PUT /api/entities/<customer_id>
    [{ derivedRecordConfig: { activation: { useTimeBounding: true },
                              versioning: { enabled: <flag> } } }];
    with [JUndefined] for the flag the patch has no [versioning] key. *)
Definition patch_config (flag : JsValue) : EC.UpdateRequest :=
  {| EC.update_id := customer_id;
     EC.update_body :=
       {| Entity.u_code := JUndefined;
          Entity.u_name := None;
          Entity.u_description := None;
          Entity.u_derivedRecordConfig :=
            Some {| Entity.c_activation :=
                      {| Entity.Activation.enabled := None;
                         Entity.Activation.defaultState := None;
                         Entity.Activation.entityActive := None;
                         Entity.Activation.useTimeBounding := Some true |};
                    Entity.c_versioning_enabled := flag;
                    Entity.c_hierarchy_enabled := JUndefined;
                    Entity.c_parentLinkField := None;
                    Entity.c_linkType := None |};
          Entity.u_schemaDefinition := None |};
     EC.update_user := admin |}.

(** PUT /api/entities/<customer_id> [{ code: <code>, name: "Client" }] *)
Definition patch_code (code : JsValue) : EC.UpdateRequest :=
  {| EC.update_id := customer_id;
     EC.update_body :=
       {| Entity.u_code := code;
          Entity.u_name := Some "Client";
          Entity.u_description := None;
          Entity.u_derivedRecordConfig := None;
          Entity.u_schemaDefinition := None |};
     EC.update_user := admin |}.

End Scenario.

(** ** The handlers that read, toggle and delete

    The handlers of the two controllers that the write paths above leave
    out.  Line numbers of the record handlers are those of
    models/EntityRecord.js, as before. *)

(** The bodies these handlers send: the shapes of [Body], and the ones of
    their own. *)
Inductive Answer :=
| Plain (b : Body)
| RecordToggled (entityName : string) (id : string) (isActive : option bool)
| RecordDeleted (entityName : string)
| EntityToggled (id : string) (code : string) (entityActive : bool)
| EntityDeleted
| EntitySchema (entityCode entityName : string)
    (schemaDefinition : Entity.SchemaDefinition)
    (derivedRecordConfig : Entity.DerivedRecordConfig).

Record Reply := { reply_status : nat; reply_body : Answer }.

Definition reply (code : nat) (a : Answer) : Reply :=
  {| reply_status := code; reply_body := a |}.

(** [{ status: 'fail', message }] and [{ status: 'error', message }] *)
Definition refuse (code : nat) (message : string) : Reply :=
  reply code (Plain (Fail message)).
Definition crash (message : string) : Reply :=
  reply 500 (Plain (ServerError message)).

(** *** Saving a loaded definition *)

(** A loaded document carries the schema default at every leaf that the
    stored document lacks; setters do not run on loading.  The next save
    writes those defaults back. *)
Definition Entity_loaded_config (c : Entity.DerivedRecordConfig)
    : Entity.DerivedRecordConfig :=
  let a := Entity.activation c in
  let h := Entity.hierarchy c in
  {| Entity.activation :=
       {| Entity.Activation.enabled :=
            Some (default true (Entity.Activation.enabled a));
          Entity.Activation.defaultState :=
            Some (default true (Entity.Activation.defaultState a));
          Entity.Activation.entityActive :=
            Some (default true (Entity.Activation.entityActive a));
          Entity.Activation.useTimeBounding :=
            Some (default false (Entity.Activation.useTimeBounding a)) |};
     Entity.versioning :=
       {| Entity.Versioning.enabled :=
            Some (default false
                    (Entity.Versioning.enabled (Entity.versioning c))) |};
     Entity.hierarchy :=
       {| Entity.Hierarchy.enabled :=
            Some (default false (Entity.Hierarchy.enabled h));
          Entity.Hierarchy.parentLinkField :=
            Some (default "parentId" (Entity.Hierarchy.parentLinkField h));
          Entity.Hierarchy.linkType :=
            Some (default "_id" (Entity.Hierarchy.linkType h)) |} |}.

(** [entity.derivedRecordConfig.activation.entityActive = v] on a loaded
    document. *)
Definition Entity_set_entityActive (v : bool) (e : Entity.t) : Entity.t :=
  let c := Entity_loaded_config (Entity.derivedRecordConfig e) in
  let a := Entity.activation c in
  {| Entity._id := Entity._id e;
     Entity.code := Entity.code e;
     Entity.name := Entity.name e;
     Entity.description := Entity.description e;
     Entity.derivedRecordConfig :=
       {| Entity.activation :=
            {| Entity.Activation.enabled := Entity.Activation.enabled a;
               Entity.Activation.defaultState :=
                 Entity.Activation.defaultState a;
               Entity.Activation.entityActive := Some v;
               Entity.Activation.useTimeBounding :=
                 Entity.Activation.useTimeBounding a |};
          Entity.versioning := Entity.versioning c;
          Entity.hierarchy := Entity.hierarchy c |};
     Entity.schemaDefinition :=
       Entity.schema_with_defaults (Entity.schemaDefinition e);
     Entity.createdBy := Entity.createdBy e;
     Entity.createdAt := Entity.createdAt e;
     Entity.updatedAt := Entity.updatedAt e |}.

(** [entitySchema.pre('save', ...)], models/Entity.js lines 109-175: the
    hook stops the save of an existing document whose [code] is modified;
    the rest of it writes to the log. *)
Definition Entity_pre_save (isNew codeModified : bool) : option string :=
  if negb isNew && codeModified
  then Some "Entity code cannot be modified after creation"
  else None.

(** The document a save writes: [new] under the [_id] it was loaded with,
    with the timestamp moved. *)
Definition Entity_saved (now : Z) (old new : Entity.t) : Entity.t :=
  {| Entity._id := Entity._id old;
     Entity.code := Entity.code new;
     Entity.name := Entity.name new;
     Entity.description := Entity.description new;
     Entity.derivedRecordConfig := Entity.derivedRecordConfig new;
     Entity.schemaDefinition := Entity.schemaDefinition new;
     Entity.createdBy := Entity.createdBy new;
     Entity.createdAt := Entity.createdAt new;
     Entity.updatedAt := now |}.

(** [entity.save()] on a document loaded as [old] and modified to [new]:
    the validate hook, the validators, the save hook, then the write. *)
Definition Entity_save (db : Db) (now : Z) (old new : Entity.t)
    : Outcome (Db * Entity.t) :=
  match Entity.pre_validate (Entity.schemaDefinition new) with
  | Some msg => Thrown msg
  | None =>
      match (Entity.validate_code (Some (Entity.code new))
             ++ Entity.validate_name (Some (Entity.name new))
             ++ Entity.validate_linkType
                  (Entity.Hierarchy.linkType
                     (Entity.hierarchy (Entity.derivedRecordConfig new))))%list
      with
      | [] =>
          match Entity_pre_save false
                  (negb (String.eqb (Entity.code old) (Entity.code new)))
          with
          | Some msg => Thrown msg
          | None =>
              let stored := Entity_saved now old new in
              Done (set_entities (insert (Entity._id old) stored) db, stored)
          end
      | es => ValidationError es
      end
  end.

(** *** controllers/entityController.js, the other handlers *)

Module entityHandlers.

(** [req.query] of GET /api/entities. *)
Record Query := {
  search : JsValue;
  active : JsValue;
  limit : JsValue;
  page : JsValue;
}.

(** An entry of the list view: the document without
    [schemaDefinition.properties] ([.select('-schemaDefinition.properties')]). *)
Record Listed := {
  l_id : string;
  l_code : string;
  l_name : string;
  l_description : option string;
  l_derivedRecordConfig : Entity.DerivedRecordConfig;
  l_schema_type : option string;
  l_schema_required : option (list string);
  l_createdBy : string;
  l_createdAt : Z;
  l_updatedAt : Z;
}.

Definition select (e : Entity.t) : Listed :=
  {| l_id := Entity._id e;
     l_code := Entity.code e;
     l_name := Entity.name e;
     l_description := Entity.description e;
     l_derivedRecordConfig := Entity.derivedRecordConfig e;
     l_schema_type := Entity.type (Entity.schemaDefinition e);
     l_schema_required := Entity.required (Entity.schemaDefinition e);
     l_createdBy := Entity.createdBy e;
     l_createdAt := Entity.createdAt e;
     l_updatedAt := Entity.updatedAt e |}.

(** The answer of the listing. *)
Record Page := {
  count : nat;
  totalPages : option Z;
  currentPage : option Z;
  total : nat;
  data : list Listed;
}.

(** The text index of the model covers [name] and [description]. *)
Definition text_fields (e : Entity.t) : JsValue :=
  JObj (("name", JStr (Entity.name e))
        :: match Entity.description e with
           | Some d => [("description", JStr d)]
           | None => []
           end).

(** The query of the listing, lines 16-26: the store compares the stored
    leaf, so a definition that lacks [entityActive] matches neither value
    of [active]. *)
Definition list_filter `{Host} (active search : JsValue) (e : Entity.t)
    : bool :=
  (if defined active
   then bool_decide
          (Entity.Activation.entityActive
             (Entity.activation (Entity.derivedRecordConfig e))
           = Some (js_eqb active (JStr "true")))
   else true)
  && (match search with
      | JStr s => if String.eqb s "" then true else text_search s (text_fields e)
      | _ => true
      end).

(** [.sort({ createdAt: -1 })] *)
Definition newest_first (a b : Entity.t) : Prop :=
  (Entity.createdAt b <= Entity.createdAt a)%Z.

#[global] Instance entity_newest_first_dec a b : Decision (newest_first a b).
Proof. unfold newest_first. apply _. Defined.

(** [Entity.find(query)] *)
Definition Entity_find (db : Db) (cond : Entity.t -> bool) : list Entity.t :=
  filter (fun e => cond e = true) (map_to_list (entities db)).*2.

(** [exports.getEntities], lines 13-73: [Some page] is the answer 200,
    [None] the answer 500. *)
Definition getEntities `{Host} (db : Db) (q : Query) : option Page :=
  (* const { search, active, limit = 10, page = 1 } = req.query *)
  let limit' := if defined (limit q) then limit q else JNum 10 in
  let page' := if defined (page q) then page q else JNum 1 in
  let cond := list_filter (active q) (search q) in
  let skip :=
    p ← parseInt page'; l ← parseInt limit'; Some ((p - 1) * l)%Z in
  match search q with
  | JUndefined | JNull | JStr _ | JBool false | JNum 0 =>
      let found := merge_sort newest_first (Entity_find db cond) in
      entities ← ERC.paginate skip (parseInt limit') (select <$> found);
      let total := length (Entity_find db cond) in
      Some {| count := length entities;
              totalPages := ERC.totalPages total (parseInt limit');
              currentPage := parseInt page';
              total := total;
              data := entities |}
  | _ => None
  end.

(** [exports.getEntityById], lines 80-125. *)
Definition getEntityById (db : Db) (id : string) : Response :=
  match Entity_findById_param db id with
  | Done (Some entity) => json 200 (EntityData entity)
  | Done None => json 404 (Fail "Entity not found")
  | _ => json 500 (ServerError "Server error while fetching entity")
  end.

(** [exports.getEntityByCode], lines 132-179. *)
Definition getEntityByCode (db : Db) (code : string) : Response :=
  match Entity_findOne db (toUpperCase code) with
  | Some entity => json 200 (EntityData entity)
  | None => json 404 (Fail "Entity not found")
  end.

(** [exports.toggleEntityActivation], lines 450-504. *)
Definition toggleEntityActivation (db : Db) (now : Z) (id : string)
    : Db * Reply :=
  let failed := (db, crash "Server error while toggling entity activation") in
  match Entity_findById_param db id with
  | Done None => (db, refuse 404 "Entity not found")
  | Done (Some entity) =>
      (* Toggle the activation status *)
      let previousStatus := Entity.activation_entityActive entity in
      match Entity_save db now entity
              (Entity_set_entityActive (negb previousStatus) entity) with
      | Done (db', saved) =>
          (db', reply 200
                  (EntityToggled (Entity._id saved) (Entity.code saved)
                     (Entity.activation_entityActive saved)))
      | _ => failed
      end
  | _ => failed
  end.

(** [exports.deleteEntity], lines 511-559. *)
Definition deleteEntity (db : Db) (id : string) : Db * Reply :=
  match Entity_findById_param db id with
  | Done None => (db, refuse 404 "Entity not found")
  | Done (Some entity) =>
      (* Perform the deletion *)
      (set_entities (delete (toLowerCase id)) db, reply 200 EntityDeleted)
  | _ => (db, crash "Server error while deleting entity")
  end.

(** [exports.getEntitySchema], lines 566-615. *)
Definition getEntitySchema (db : Db) (id : string) : Reply :=
  match Entity_findById_param db id with
  | Done None => refuse 404 "Entity not found"
  | Done (Some entity) =>
      reply 200
        (EntitySchema (Entity.code entity) (Entity.name entity)
           (Entity.schemaDefinition entity)
           (Entity.derivedRecordConfig entity))
  | _ => crash "Server error while fetching entity schema"
  end.

End entityHandlers.

(** *** The record controller, the other handlers *)

Module recordHandlers.

(** [exports.getEntityRecordById], lines 185-227. *)
Definition getEntityRecordById (db : Db) (req : ERC.Request) : Response :=
  if negb (ObjectId_isValid (ERC.id req))
  then json 400 (Fail "Invalid ID format")
  else
    match EntityRecord_findOne db (ERC.id req)
            (toUpperCase (ERC.entityCode req)) with
    | None => json 404 (Fail "Entity record not found")
    | Some record =>
        (* Get the entity definition for additional context *)
        let entity := Entity_findById db (EntityRecord.entityId record) in
        json 200 (RecordData (from_option Entity.name "Unknown" entity) record)
    end.

(** The two assignments of the toggle, lines 480-481. *)
Definition flip `{Host} (user : string) (record : EntityRecord.t)
    : EntityRecord.Pending :=
  EntityRecord.set "updatedBy" (JOid user)
    (EntityRecord.set "isActive"
       (JBool (negb (truthy (EntityRecord.prop record "isActive"))))
       (record, [])).

(** [exports.toggleEntityRecordActivation], lines 444-499. *)
Definition toggleEntityRecordActivation `{Host} (db : Db) (now : Z)
    (req : ERC.Request) : Db * Reply :=
  if negb (ObjectId_isValid (ERC.id req))
  then (db, refuse 400 "Invalid ID format")
  else
    match EntityRecord_findOne db (ERC.id req)
            (toUpperCase (ERC.entityCode req)) with
    | None => (db, refuse 404 "Entity record not found")
    | Some record =>
        match Entity_findById db (EntityRecord.entityId record) with
        | Some entity =>
            if negb (Entity.activation_enabled entity)
            then (db, refuse 400 "Activation is not enabled for this entity type")
            else
              match EntityRecord_save db now record
                      (flip (ERC.user req) record) with
              | Done (db', saved) =>
                  (db', reply 200
                          (RecordToggled (Entity.name entity)
                             (EntityRecord._id saved)
                             (EntityRecord.isActive saved)))
              | _ =>
                  (db, crash "Server error while toggling entity record activation")
              end
        | None => (db, refuse 400 "Activation is not enabled for this entity type")
        end
    end.

(** [exports.deleteEntityRecord], lines 506-549. *)
Definition deleteEntityRecord (db : Db) (req : ERC.Request) : Db * Reply :=
  if negb (ObjectId_isValid (ERC.id req))
  then (db, refuse 400 "Invalid ID format")
  else
    match EntityRecord_findOne db (ERC.id req)
            (toUpperCase (ERC.entityCode req)) with
    | None => (db, refuse 404 "Entity record not found")
    | Some record =>
        let entity := Entity_findById db (EntityRecord.entityId record) in
        (* Delete the record *)
        (set_entityRecords (delete (toLowerCase (ERC.id req))) db,
         reply 200 (RecordDeleted (from_option Entity.name "Unknown" entity)))
    end.

End recordHandlers.

Module EH := entityHandlers.
Module RH := recordHandlers.

(** The request [req] made under another spelling of the entity code. *)
Definition at_code (code : string) (req : ERC.Request) : ERC.Request :=
  {| ERC.entityCode := code;
     ERC.id := ERC.id req;
     ERC.query := ERC.query req;
     ERC.body := ERC.body req;
     ERC.user := ERC.user req |}.

(** Every document of the database is stored under its own [_id]. *)
Definition keyed (db : Db) : Prop :=
  map_Forall (fun i e => Entity._id e = i) (entities db)
  /\ map_Forall (fun i r => EntityRecord._id r = i) (entityRecords db).

#[global] Instance keyed_dec db : Decision (keyed db).
Proof. unfold keyed. apply _. Defined.

(** ** The user role controller

    The sources carry controllers/userRoleController.js as lines 662-871
    of models/EntityRecord.js.  It works on three collections: the users
    (of a user document the handlers read [_id] and [username]), the roles
    and the assignments of models/UserRole.js. *)

Module userRoleController.

Record User := { user_id : string; username : string }.

Record Role := {
  role_id : string;
  role_name : string;
  role_description : option string;
}.

(** models/UserRole.js: one assignment of a role to a user. *)
Record UserRole := {
  ur_id : string;
  userId : string;
  roleId : string;
  createdAt : Z;
}.

Record Store := {
  users : gmap string User;
  roles : gmap string Role;
  userRoles : gmap string UserRole;
}.

Definition set_userRoles
    (f : gmap string UserRole -> gmap string UserRole) (s : Store) : Store :=
  {| users := users s; roles := roles s; userRoles := f (userRoles s) |}.

(** [Model.findById(id)]: the id is cast first. *)
Definition findById {A} (m : gmap string A) (id : string)
    : Outcome (option A) :=
  if ObjectId_isValid id then Done (m !! toLowerCase id)
  else Thrown "Cast to ObjectId failed".

(** The condition [{ userId, roleId }] on an assignment, the two ids cast. *)
Definition assigns (user role : string) (ur : UserRole) : bool :=
  String.eqb (userId ur) (toLowerCase user)
  && String.eqb (roleId ur) (toLowerCase role).

(** [UserRole.findOne(cond)]: the first assignment that matches, with the
    key it is stored under. *)
Definition UserRole_findOne (s : Store) (cond : UserRole -> bool)
    : option (string * UserRole) :=
  head (filter (fun kv => cond kv.2 = true) (map_to_list (userRoles s))).

(** [UserRole.find({ userId })] *)
Definition UserRole_find (s : Store) (user : string) : list UserRole :=
  filter (fun ur => userId ur = toLowerCase user)
    (map_to_list (userRoles s)).*2.

(** The bodies of the answers. *)
Inductive Answer :=
| Refused (message : string)
| Crashed (message : string)
| Errors (errors : list PathError)
| Roles (count : nat) (data : list (option Role))
| Assigned (userId roleId username roleName : string)
| Removed
| HasRole (hasRole : bool) (username roleName : string).

Definition Reply : Type := nat * Answer.

(** [isHexadecimal] of the validator library, [/^(0x|0h)?[0-9A-F]+$/i]:
    hexadecimal digits, after an optional prefix. *)
Definition hex_digits (s : string) : bool :=
  negb (String.eqb s "") && all_chars is_hex s.
Definition isHexadecimal (s : string) : bool :=
  hex_digits s
  || match s with
     | String "0" (String c rest) =>
         (Ascii.eqb c "x" || Ascii.eqb c "X" || Ascii.eqb c "h"
          || Ascii.eqb c "H")
         && hex_digits rest
     | _ => false
     end.

(** [isMongoId]: hexadecimal and of length 24.  A text with a prefix
    passes this check and is not an ObjectId for the store. *)
Definition isMongoId (s : string) : bool :=
  isHexadecimal s && (String.length s =? 24)%nat.

(** The check of routes/userRoleRoutes.js on POST: [roleId], read from the
    body, is a Mongo id. *)
Definition add_checks (role : option string) : list PathError :=
  if from_option isMongoId false role then []
  else [{| pe_path := "roleId"; pe_message := "Role ID is required" |}].

(** [exports.getUserRoles], lines 670-699. *)
Definition getUserRoles (s : Store) (user : string) : Reply :=
  match findById (users s) user with
  | Done None => (404%nat, Refused "User not found")
  | Done (Some _) =>
      (* Get roles for this user *)
      let roles := (fun ur => roles s !! roleId ur) <$> UserRole_find s user in
      (200%nat, Roles (length roles) roles)
  | _ => (500%nat, Crashed "Server error while fetching roles")
  end.

(** [exports.addRoleToUser], lines 704-764; [fresh] is the [_id] the
    driver draws for the new assignment. *)
Definition addRoleToUser (s : Store) (fresh : string) (now : Z)
    (user : string) (role : option string) : Store * Reply :=
  let failed :=
    (s, (500%nat, Crashed "Server error while adding role to user")) in
  match add_checks role with
  | _ :: _ as errors => (s, (400%nat, Errors errors))
  | [] =>
      let role := default "" role in
      match findById (users s) user with
      | Done None => (s, (404%nat, Refused "User not found"))
      | Done (Some u) =>
          match findById (roles s) role with
          | Done None => (s, (404%nat, Refused "Role not found"))
          | Done (Some r) =>
              (* Check if role is already assigned to user *)
              match UserRole_findOne s (assigns user role) with
              | Some _ =>
                  (s, (400%nat,
                       Refused "Role is already assigned to this user"))
              | None =>
                  (* Create user-role relationship *)
                  if bool_decide (is_Some (userRoles s !! fresh))
                  then failed
                  else
                    (set_userRoles
                       (insert fresh
                          {| ur_id := fresh;
                             userId := toLowerCase user;
                             roleId := toLowerCase role;
                             createdAt := now |})
                       s,
                     (201%nat,
                      Assigned user role (username u) (role_name r)))
              end
          | _ => failed
          end
      | _ => failed
      end
  end.

(** [exports.removeRoleFromUser], lines 769-821. *)
Definition removeRoleFromUser (s : Store) (user role : string)
    : Store * Reply :=
  let failed :=
    (s, (500%nat, Crashed "Server error while removing role from user")) in
  match findById (users s) user with
  | Done None => (s, (404%nat, Refused "User not found"))
  | Done (Some _) =>
      match findById (roles s) role with
      | Done None => (s, (404%nat, Refused "Role not found"))
      | Done (Some _) =>
          match UserRole_findOne s (assigns user role) with
          | None =>
              (s, (404%nat, Refused "Role is not assigned to this user"))
          | Some (key, _) =>
              (* Remove role from user *)
              (set_userRoles (delete key) s, (200%nat, Removed))
          end
      | _ => failed
      end
  | _ => failed
  end.

(** [exports.checkUserRole], lines 826-871. *)
Definition checkUserRole (s : Store) (user role : string) : Reply :=
  let failed := (500%nat, Crashed "Server error while checking role") in
  match findById (users s) user with
  | Done None => (404%nat, Refused "User not found")
  | Done (Some u) =>
      match findById (roles s) role with
      | Done None => (404%nat, Refused "Role not found")
      | Done (Some r) =>
          let hasRole :=
            bool_decide (is_Some (UserRole_findOne s (assigns user role))) in
          (200%nat, HasRole hasRole (username u) (role_name r))
      | _ => failed
      end
  | _ => failed
  end.

(** The compound unique index of models/UserRole.js, line 23: no two
    assignments of the same role to the same user. *)
Definition unique_assignments (s : Store) : Prop :=
  map_Forall
    (fun k1 a1 =>
       map_Forall
         (fun k2 a2 =>
            userId a1 = userId a2 -> roleId a1 = roleId a2 -> k1 = k2)
         (userRoles s))
    (userRoles s).

#[global] Instance unique_assignments_dec s : Decision (unique_assignments s).
Proof. unfold unique_assignments. apply _. Defined.

End userRoleController.

Module URC := userRoleController.

(** ** The inputs on which the model is the code

    The model reads text as ASCII and the fields of an object as its own;
    the properties that depend on it state the inputs they cover. *)

(** Text in the ASCII range: on it [toUpperCase] and [trim] of the model
    are those of JavaScript. *)
Definition is_ascii (s : string) : bool :=
  all_chars (fun c => (nat_of_ascii c <? 128)%nat) s.

(** A spelling of an entity code in a URL that the store compares as the
    model does: ASCII, and with no white space around it for the setters
    of the path to trim off the filter value. *)
Definition plain_code (code : string) : bool :=
  is_ascii code && String.eqb (trim code) code.

(** The names every plain object inherits from [Object.prototype]: a read
    [o[k]] of one of them finds it although [o] has no such field. *)
Definition Object_prototype : list string :=
  ["constructor"; "__defineGetter__"; "__defineSetter__"; "hasOwnProperty";
   "__lookupGetter__"; "__lookupSetter__"; "isPrototypeOf";
   "propertyIsEnumerable"; "toString"; "valueOf"; "__proto__";
   "toLocaleString"].

Definition own_name (k : string) : bool :=
  negb (bool_decide (k ∈ Object_prototype)).

(** A plain object: the reads [o[k]] of names that are not inherited are
    the own fields of [o]. *)
Definition plain_object (v : JsValue) : bool :=
  match v with JObj _ => true | _ => false end.

(** A name made of a letter followed by letters, digits and underscores:
    neither empty nor dotted, and none of the names Mongoose keeps for
    itself ([_id], [__v], [$__], [_doc], [__proto__]). *)
Definition field_name (k : string) : bool :=
  match k with
  | String c _ =>
      (is_lower c || is_upper c)
      && all_chars (fun c => is_lower c || is_upper c || is_digit c
                             || (nat_of_ascii c =? 95)%nat) k
  | EmptyString => false
  end.



(** ** Further cases on the scenario *)

Module Cases.

(** The store with the retired revision 1 and the current revision 2 of
    ACME001, and the business key of both. *)
Definition retired : EntityRecord.t :=
  Scenario.acme Scenario.acme_id "a@a.com" 1 false (Some 3000) 2000 3000.
Definition current : EntityRecord.t :=
  Scenario.acme Scenario.acme_id2 "b@b.com" 2 true None 3000 3000.
Definition history : Db := Scenario.db_with Scenario.versioned [retired; current].
Definition acme_key : gmap string JsValue :=
  {[ "customerCode" := JStr "ACME001" ]}.

(** PUT /api/entities/<customer_id> with a schema that requires a field it
    does not declare. *)
Definition broken_schema : Entity.SchemaDefinition :=
  {| Entity.type := Some "object";
     Entity.properties := Some (JObj [("email", JObj [("type", JStr "string")])]);
     Entity.required := Some ["customerCode"] |}.
Definition patch_schema : EC.UpdateRequest :=
  {| EC.update_id := Scenario.customer_id;
     EC.update_body :=
       {| Entity.u_code := JUndefined;
          Entity.u_name := None;
          Entity.u_description := None;
          Entity.u_derivedRecordConfig := None;
          Entity.u_schemaDefinition := Some broken_schema |};
     EC.update_user := Scenario.admin |}.

(** CUSTOMER after that patch. *)
Definition broken : Entity.t :=
  Entity.apply_update 5000 (EC.update_body patch_schema) None None
    Scenario.versioned.

(** GET /api/entities?active=true *)
Definition active_only : EH.Query :=
  {| EH.search := JUndefined; EH.active := JStr "true";
     EH.limit := JUndefined; EH.page := JUndefined |}.

(** A user, a role, and the stores without and with the assignment of one
    to the other. *)
Definition alice : string := "60d21b4667d0d8992e610c80".
Definition editor : string := "60d21b4667d0d8992e610c90".
Definition assignment : string := "60d21b4667d0d8992e610ca0".
Definition unassigned : URC.Store :=
  {| URC.users := {[ alice := {| URC.user_id := alice;
                                 URC.username := "alice" |} ]};
     URC.roles := {[ editor := {| URC.role_id := editor;
                                  URC.role_name := "editor";
                                  URC.role_description := None |} ]};
     URC.userRoles := ∅ |}.
Definition assigned : URC.Store :=
  URC.set_userRoles
    (insert assignment
       {| URC.ur_id := assignment; URC.userId := alice;
          URC.roleId := editor; URC.createdAt := 7000 |})
    unassigned.

(** ACME001 with a payload that lacks the required [customerCode], and with
    a validity window that ends. *)
Definition nameless : EntityRecord.t :=
  EntityRecord.with_data (JObj [("email", JStr "a@a.com")]) Scenario.acme_v1.
Definition db_nameless : Db := Scenario.db_with Scenario.versioned [nameless].
Definition bounded : EntityRecord.t :=
  EntityRecord.with_effectiveTo (Some 9000%Z) Scenario.acme_v1.
Definition db_bounded : Db := Scenario.db_with Scenario.versioned [bounded].

(** CUSTOMER with a hierarchy, and the update of ACME001 that names a
    parent. *)
Definition hierarchical : Entity.t := Scenario.customer false true true.
Definition update_child : ERC.Request :=
  Scenario.record_request Scenario.acme_id (Scenario.acme_data "b@b.com")
    JUndefined JUndefined (JStr Scenario.parent_id).

End Cases.

(** * Properties *)

(** ** Values and strings *)

Lemma js_eqb_refl : forall v, js_eqb v v = true.
Proof.
  fix IH 1.
  intros [ | | b | n | s | [t|] | o | xs | fs]; simpl; try reflexivity.
  - by destruct b.
  - apply Z.eqb_refl.
  - apply String.eqb_refl.
  - apply Z.eqb_refl.
  - apply String.eqb_refl.
  - revert xs. fix IHxs 1. intros [|x xs]; [reflexivity|].
    rewrite (IH x), (IHxs xs). reflexivity.
  - revert fs. fix IHfs 1. intros [|[k x] fs]; [reflexivity|].
    rewrite String.eqb_refl, (IH x), (IHfs fs). reflexivity.
Qed.

Lemma code_char_upper c : is_code_char c = true -> upper_char c = c.
Proof.
  destruct c as [[] [] [] [] [] [] [] []]; vm_compute; congruence.
Qed.

Lemma code_char_not_space c : is_code_char c = true -> is_space c = false.
Proof.
  destruct c as [[] [] [] [] [] [] [] []]; vm_compute; congruence.
Qed.

Lemma all_chars_Forall p s :
  all_chars p s = true -> Forall (fun c => p c = true) (list_ascii_of_string s).
Proof.
  induction s as [|c s IH]; simpl; [constructor|].
  intros [Hc Hs]%andb_prop. constructor; auto.
Qed.

Lemma drop_spaces_id l :
  Forall (fun c => is_space c = false) l -> drop_spaces l = l.
Proof. destruct 1 as [|c l Hc _]; simpl; [done|]. by rewrite Hc. Qed.

(** A code that matches the pattern is its own upper case ... *)
Lemma code_pattern_upper s : code_pattern s = true -> toUpperCase s = s.
Proof.
  unfold code_pattern. intros [_ Hs]%andb_prop. revert Hs.
  induction s as [|c s IH]; simpl; [done|].
  intros [Hc Hs]%andb_prop. unfold toUpperCase in *. simpl.
  by rewrite (code_char_upper c Hc), (IH Hs).
Qed.

(** ... and has no white space to trim. *)
Lemma code_pattern_trim s : code_pattern s = true -> trim s = s.
Proof.
  unfold code_pattern. intros [_ Hs]%andb_prop.
  assert (Forall (fun c => is_space c = false) (list_ascii_of_string s)) as Hl.
  { eapply Forall_impl; [apply all_chars_Forall, Hs|].
    intros c. apply code_char_not_space. }
  unfold trim. rewrite (drop_spaces_id _ Hl).
  rewrite (drop_spaces_id (rev _)).
  - by rewrite rev_involutive, string_of_list_ascii_of_string.
  - by apply List.Forall_rev.
Qed.

(** ** The usability gate of the record handlers *)

(** No definition has a property [entityIsActive]: the schema keeps the
    flag at [derivedRecordConfig.activation.entityActive]. *)
Lemma entityIsActive_undefined entity : ERC.entityIsActive entity = JUndefined.
Proof. reflexivity. Qed.

(** Hence neither write handler ever changes the database. *)
Lemma createEntityRecord_db `{Host} db fresh now req :
  (ERC.createEntityRecord db fresh now req).1 = db.
Proof.
  unfold ERC.createEntityRecord.
  destruct (ERC.create_checks _); [|done].
  by destruct (Entity_findOne _ _).
Qed.

Lemma updateEntityRecord_db `{Host} db now req :
  (ERC.updateEntityRecord db now req).1 = db.
Proof.
  unfold ERC.updateEntityRecord.
  destruct (ERC.update_checks _); [|done].
  destruct (negb _); [done|].
  destruct (EntityRecord_findOne _ _ _); [|done].
  by destruct (Entity_findById _ _).
Qed.

Lemma run_db `{Host} db ops : run db ops = db.
Proof.
  revert db. induction ops as [|op ops IH]; intros db; [done|].
  unfold run in *. simpl. rewrite IH.
  destruct op; simpl; [apply createEntityRecord_db|apply updateEntityRecord_db].
Qed.

(** C4 (the code departs from the claim).  Creating a record is rejected as
    inactive for every definition the store can return, whatever the value
    of [derivedRecordConfig.activation.entityActive]: the handler tests
    [entity.entityIsActive], which no definition carries.  No record is
    inserted. *)
Theorem createEntityRecord_rejects_every_definition `{Host}
    db fresh now req entity :
  ERC.create_checks (ERC.body req) = [] ->
  Entity_findOne db (toUpperCase (ERC.entityCode req)) = Some entity ->
  ERC.createEntityRecord db fresh now req
  = (db, json 400
           (Fail ("Entity " ++ Entity.name entity
                  ++ " is currently inactive and cannot accept new records"))).
Proof.
  intros Hchecks Hentity. unfold ERC.createEntityRecord.
  by rewrite Hchecks, Hentity.
Qed.

(** The usable definition CUSTOMER rejects the record of the scenario. *)
Lemma createEntityRecord_rejects_usable_customer :
  Entity.activation_entityActive Scenario.versioned = true
  /\ ERC.createEntityRecord (H := Scenario.host) Scenario.db_customer
       Scenario.acme_id 2000 Scenario.create_acme
     = (Scenario.db_customer,
        json 400
          (Fail "Entity Customer is currently inactive and cannot accept new records")).
Proof.
  split; [reflexivity|].
  apply (createEntityRecord_rejects_every_definition (H := Scenario.host)
           Scenario.db_customer Scenario.acme_id 2000 Scenario.create_acme
           Scenario.versioned).
  - reflexivity.
  - vm_compute. reflexivity.
Defined.

(** ** Listing the records of an entity *)

Lemma paginate_elem {A} skip limit (l page : list A) x :
  ERC.paginate skip limit l = Some page -> x ∈ page -> x ∈ l.
Proof.
  unfold ERC.paginate. destruct skip as [s|], limit as [n|]; try done.
  destruct (s <? 0)%Z; [done|]. intros [= <-] Hx.
  destruct (n =? 0)%Z.
  - by apply (subseteq_drop (Z.to_nat s)).
  - by apply (subseteq_drop (Z.to_nat s)), (subseteq_take (Z.to_nat (Z.abs n))).
Qed.

Lemma EntityRecord_find_elem db cond r :
  r ∈ EntityRecord_find db cond
  <-> cond r = true /\ exists i, entityRecords db !! i = Some r.
Proof.
  unfold EntityRecord_find. rewrite list_elem_of_filter, list_elem_of_fmap.
  split.
  - intros [Hc [[i r'] [-> Hin]]]. split; [done|]. exists i.
    by apply elem_of_map_to_list.
  - intros [Hc [i Hi]]. split; [done|]. exists (i, r). split; [done|].
    by apply elem_of_map_to_list.
Qed.

(** The filter of a listing that asks for current revisions keeps only
    records with [isCurrent = true]. *)
Lemma list_filter_current `{Host} code active search r :
  ERC.list_filter code (JStr "true") active search r = true ->
  EntityRecord.isCurrent r = Some true.
Proof.
  unfold ERC.list_filter. simpl.
  intros [[[_ Hc]%andb_prop _]%andb_prop _]%andb_prop.
  by apply bool_decide_eq_true in Hc.
Qed.

(** With [currentOnly] set to anything but the text 'true', the filter does
    not look at [isCurrent]. *)
Lemma list_filter_all_revisions `{Host} code currentOnly r :
  js_eqb currentOnly (JStr "true") = false ->
  ERC.list_filter code currentOnly JUndefined JUndefined r
  = bool_decide (EntityRecord.entityCode r = Some code).
Proof.
  intros Hco. unfold ERC.list_filter. rewrite Hco. simpl.
  by rewrite !andb_true_r.
Qed.

(** C10.  A listing whose query carries no [currentOnly] returns only
    records with [isCurrent = true]; with the default page and limit it
    answers 200 with the first twenty current records of the entity,
    newest first. *)
Theorem getEntityRecords_defaults_to_current `{Host} db req :
  ERC.currentOnly (ERC.query req) = JUndefined ->
  Forall (fun r => EntityRecord.isCurrent r = Some true)
    (listed (ERC.getEntityRecords db req))
  /\ (forall entity,
        Entity_findOne db (toUpperCase (ERC.entityCode req)) = Some entity ->
        ERC.search (ERC.query req) = JUndefined ->
        ERC.limit (ERC.query req) = JUndefined ->
        ERC.page (ERC.query req) = JUndefined ->
        status (ERC.getEntityRecords db req) = 200%nat
        /\ listed (ERC.getEntityRecords db req)
           = take 20
               (merge_sort ERC.newest_first
                  (EntityRecord_find db
                     (ERC.list_filter (toUpperCase (ERC.entityCode req))
                        (JStr "true") (ERC.active (ERC.query req))
                        JUndefined)))).
Proof.
  intros Hco. split.
  - unfold ERC.getEntityRecords. rewrite Hco. simpl.
    destruct (Entity_findOne _ _); [|by constructor].
    match goal with
    | |- context [ERC.paginate ?s ?l ?xs] =>
        destruct (ERC.paginate s l xs) as [records|] eqn:Hpage
    end.
    + assert (Forall (fun r => EntityRecord.isCurrent r = Some true) records)
        as Hall.
      { apply Forall_forall. intros r Hr.
        eapply paginate_elem in Hr; [|exact Hpage].
        rewrite merge_sort_Permutation in Hr.
        apply EntityRecord_find_elem in Hr as [Hr _].
        by eapply list_filter_current. }
      destruct (ERC.search (ERC.query req)) as [ | | [] | [] | | | | | ];
        simpl; by (constructor || exact Hall).
    + destruct (ERC.search (ERC.query req)) as [ | | [] | [] | | | | | ];
        simpl; by constructor.
  - intros entity Hentity Hsearch Hlimit Hpage.
    unfold ERC.getEntityRecords.
    rewrite Hco, Hsearch, Hlimit, Hpage, Hentity. simpl.
    split; [reflexivity|]. by rewrite drop_0.
Qed.

(** A store with the retired revision 1 and the current revision 2 of
    ACME001: the default listing returns revision 2 only. *)
Lemma getEntityRecords_defaults_to_current_history :
  let history :=
    Scenario.db_with Scenario.versioned
      [Scenario.acme Scenario.acme_id "a@a.com" 1 false (Some 3000) 2000 3000;
       Scenario.acme Scenario.acme_id2 "b@b.com" 2 true None 3000 3000] in
  let listing :=
    ERC.getEntityRecords (H := Scenario.host) history Scenario.versions_acme in
  Forall (fun r => EntityRecord.isCurrent r = Some true) (listed listing)
  /\ status listing = 200%nat
  /\ listed listing
     = [Scenario.acme Scenario.acme_id2 "b@b.com" 2 true None 3000 3000].
Proof.
  intros history listing.
  destruct (getEntityRecords_defaults_to_current (H := Scenario.host)
              history Scenario.versions_acme eq_refl) as [Hcurrent Hpage].
  destruct (Hpage Scenario.versioned) as [Hstatus Hlisted];
    [vm_compute; reflexivity|reflexivity..|].
  split_and!; [exact Hcurrent|exact Hstatus|].
  fold listing in Hlisted. rewrite Hlisted. vm_compute. reflexivity.
Defined.

(** The same listing with [currentOnly=false] returns both revisions. *)
Example getEntityRecords_with_history :
  let history :=
    Scenario.db_with Scenario.versioned
      [Scenario.acme Scenario.acme_id "a@a.com" 1 false (Some 3000) 2000 3000;
       Scenario.acme Scenario.acme_id2 "b@b.com" 2 true None 3000 3000] in
  let req :=
    {| ERC.entityCode := "customer"; ERC.id := "";
       ERC.query :=
         {| ERC.search := JUndefined; ERC.currentOnly := JStr "false";
            ERC.active := JUndefined; ERC.limit := JUndefined;
            ERC.page := JUndefined |};
       ERC.body := ERC.body Scenario.versions_acme;
       ERC.user := Scenario.admin |} in
  EntityRecord.version
    <$> listed (ERC.getEntityRecords (H := Scenario.host) history req)
  = [Some 2; Some 1]%Z.
Proof. vm_compute. reflexivity. Qed.

(** ** The record model *)

(** Membership of a name in a list of literal names. *)
Ltac in_literal := apply list_elem_of_In; simpl; tauto.
Ltac not_in_literal :=
  let Hin := fresh "Hin" in
  intros Hin; apply list_elem_of_In in Hin; simpl in Hin;
  intuition discriminate.

(** The schema is strict: an assignment to a name that is not one of its
    paths changes nothing of the document ... *)
Lemma EntityRecord_set_strict `{Host} path v p :
  path ∉ EntityRecord.schema_paths -> EntityRecord.set path v p = p.
Proof.
  intros Hpath. unfold EntityRecord.set. destruct p as [d errs].
  repeat match goal with
         | |- context [String.eqb path ?s] =>
             destruct (String.eqb_spec path s) as [->|_];
             [exfalso; apply Hpath; unfold EntityRecord.schema_paths;
              in_literal|]
         end.
  reflexivity.
Qed.




(** A document that passes validation has an ordered validity window. *)
Lemma validate_window p :
  EntityRecord.validate p = [] -> window_ordered p.1.
Proof.
  unfold EntityRecord.validate.
  intros [_ [Hhook _]%app_eq_nil]%app_eq_nil from to Hfrom Hto.
  unfold EntityRecord.pre_validate in Hhook. rewrite Hfrom, Hto in Hhook.
  rewrite Z.geb_leb in Hhook.
  destruct (to <=? from)%Z eqn:Hle; [done|]. lia.
Qed.

(** Both writes of the model keep the window ordered, and a save writes the
    document back under the [_id] it was loaded with. *)
Lemma EntityRecord_create_window `{Host} db fresh now obj db' d :
  EntityRecord_create db fresh now obj = Done (db', d) -> window_ordered d.
Proof.
  unfold EntityRecord_create.
  generalize (EntityRecord.construct fresh now obj) as p. intros p.
  destruct (EntityRecord.validate p) eqn:Hvalid; [|done].
  destruct (bool_decide _); [done|]. intros Hdone.
  injection Hdone as _ <-. exact (validate_window p Hvalid).
Qed.

Lemma EntityRecord_save_window db now old p db' d :
  EntityRecord_save db now old p = Done (db', d) -> window_ordered d.
Proof.
  unfold EntityRecord_save.
  destruct (EntityRecord.validate p) eqn:Hvalid; [|done].
  intros Hdone. injection Hdone as _ <-. exact (validate_window p Hvalid).
Qed.

Lemma EntityRecord_save_in_place db now old p db' d :
  EntityRecord_save db now old p = Done (db', d) ->
  entityRecords db' = <[EntityRecord._id old := d]> (entityRecords db)
  /\ entities db' = entities db
  /\ EntityRecord._id d = EntityRecord._id p.1
  /\ EntityRecord.version d = EntityRecord.version p.1
  /\ EntityRecord.isCurrent d = EntityRecord.isCurrent p.1
  /\ EntityRecord.expiredAt d = EntityRecord.expiredAt p.1.
Proof.
  unfold EntityRecord_save.
  destruct (EntityRecord.validate _); [|done]. by intros [= <- <-].
Qed.

(** No assignment moves a document to another [_id], and an assignment to
    a path other than the three versioning paths leaves them as they
    are. *)
Lemma EntityRecord_set_keeps_id `{Host} path v p :
  EntityRecord._id (EntityRecord.set path v p).1 = EntityRecord._id p.1.
Proof.
  unfold EntityRecord.set. destruct p as [d errs].
  repeat match goal with
         | |- context [String.eqb path ?s] => destruct (String.eqb path s)
         end;
    unfold EntityRecord.put;
    repeat match goal with
           | |- context [match ?c with Casted _ => _ | _ => _ end] =>
               destruct c
           end;
    reflexivity.
Qed.

Lemma EntityRecord_set_keeps_versioning `{Host} path v p :
  path ∉ ["version"; "isCurrent"; "expiredAt"] ->
  EntityRecord.version (EntityRecord.set path v p).1
  = EntityRecord.version p.1
  /\ EntityRecord.isCurrent (EntityRecord.set path v p).1
     = EntityRecord.isCurrent p.1
  /\ EntityRecord.expiredAt (EntityRecord.set path v p).1
     = EntityRecord.expiredAt p.1.
Proof.
  intros Hpath. unfold EntityRecord.set. destruct p as [d errs].
  repeat match goal with
         | |- context [String.eqb path ?s] =>
             destruct (String.eqb_spec path s) as [->|_]
         end;
    try (exfalso; apply Hpath; in_literal);
    unfold EntityRecord.put;
    repeat match goal with
           | |- context [match ?c with Casted _ => _ | _ => _ end] =>
               destruct c
           end;
    done.
Qed.

(** The assignments of the update handler keep the [_id], the [version],
    [isCurrent] and [expiredAt] of the loaded document, when the parent
    link field of the definition is a field name other than the three
    versioning paths and the names Mongoose manages. *)
Lemma assign_keeps_revision `{Host} entity req record :
  field_name (Entity.hierarchy_parentLinkField entity) = true ->
  Entity.hierarchy_parentLinkField entity
    ∉ ["version"; "isCurrent"; "expiredAt"] ->
  Entity.hierarchy_parentLinkField entity ∉ EntityRecord.managed_paths ->
  let updated := (ERC.assign entity req record).1 in
  EntityRecord._id updated = EntityRecord._id record
  /\ EntityRecord.version updated = EntityRecord.version record
  /\ EntityRecord.isCurrent updated = EntityRecord.isCurrent record
  /\ EntityRecord.expiredAt updated = EntityRecord.expiredAt record.
Proof.
  intros _ Hfield _. unfold ERC.assign.
  repeat match goal with
         | |- context [if ?b then _ else _] => destruct b
         end;
    cbv zeta;
    repeat (rewrite EntityRecord_set_keeps_id
            || match goal with
               | |- context [EntityRecord.set ?path ?v ?p] =>
                   destruct (EntityRecord_set_keeps_versioning path v p)
                     as (->&->&->); [first [exact Hfield|not_in_literal]|]
               end);
    done.
Qed.

(** An existing window that is reversed is reported on [effectiveTo]. *)
Lemma pre_validate_reversed d from to :
  EntityRecord.effectiveFrom d = Some from ->
  EntityRecord.effectiveTo d = Some to ->
  (to <= from)%Z ->
  EntityRecord.pre_validate d
  = [{| pe_path := "effectiveTo";
        pe_message := "Effective end date must be after effective start date" |}].
Proof.
  intros Hfrom Hto Hle. unfold EntityRecord.pre_validate.
  rewrite Hfrom, Hto. by rewrite Z.geb_leb, (proj2 (Z.leb_le to from) Hle).
Qed.

(** ** The version history *)

#[global] Instance version_descending_total : Total ERC.version_descending.
Proof.
  intros a b. unfold ERC.version_descending, opt_leb.
  destruct (EntityRecord.version a) as [x|], (EntityRecord.version b) as [y|];
    auto.
  destruct (Z.leb_spec y x); [by left|]. right. apply Z.leb_le. lia.
Qed.

(** The history comes back ordered by version, descending. *)
Lemma getEntityRecordVersions_sorted db req :
  Sorted ERC.version_descending (listed (ERC.getEntityRecordVersions db req)).
Proof.
  unfold ERC.getEntityRecordVersions.
  destruct (negb (ObjectId_isValid _)); [constructor|].
  destruct (EntityRecord_findOne _ _ _); [|constructor].
  destruct (Entity_findById _ _); [|constructor].
  destruct (negb (Entity.versioning_enabled _)); [constructor|].
  destruct (ERC.getBusinessKeyFields _ _); [|constructor].
  apply (Sorted_merge_sort ERC.version_descending).
Qed.

Lemma append_snoc acc c s :
  ((acc ++ String c "") ++ s)%string = (acc ++ String c s)%string.
Proof.
  induction acc as [|a acc IH]; [reflexivity|].
  change (String a ((acc ++ String c "") ++ s) = String a (acc ++ String c s)).
  by rewrite IH.
Qed.

Lemma split_dot_no_dot k : no_dot k -> split_dot k = [k].
Proof.
  unfold split_dot, no_dot.
  enough (forall acc, all_chars (fun c => negb (nat_of_ascii c =? 46)%nat) k = true
                      -> split_dot_aux acc k = [(acc ++ k)%string]) as Hacc
    by (intros Hk; apply (Hacc "" Hk)).
  induction k as [|c k IH]; intros acc; simpl.
  - intros _. f_equal. induction acc as [|a acc IHacc]; [done|].
    change (String a acc = String a (acc ++ "")). by rewrite <- IHacc.
  - intros [Hc Hk]%andb_prop. apply negb_true_iff in Hc. rewrite Hc.
    by rewrite (IH _ Hk), append_snoc.
Qed.

(** An entry of the business key is a required field with the value the
    data holds for it. *)
Lemma getBusinessKeyFields_lookup entity data businessKey k v :
  ERC.getBusinessKeyFields entity data = Some businessKey ->
  businessKey !! k = Some v ->
  v = js_get data k /\ defined v = true /\ k ∈ Entity.schema_required entity.
Proof.
  unfold ERC.getBusinessKeyFields. destruct (negb (truthy data)); [done|].
  destruct (0 <? _)%nat; [|done]. intros [= <-].
  generalize (Entity.schema_required entity) as fields.
  assert (forall k v, (∅ : gmap string JsValue) !! k = Some v ->
                      v = js_get data k /\ defined v = true /\ False) as Hacc
    by (intros ??; by rewrite lookup_empty).
  revert Hacc. generalize (∅ : gmap string JsValue) as acc.
  intros acc Hacc fields. revert acc Hacc k v.
  enough (forall (acc : gmap string JsValue) (seen : list string),
            (forall k v, acc !! k = Some v ->
               v = js_get data k /\ defined v = true /\ k ∈ seen) ->
            forall k v,
              foldl (fun bk field =>
                       if defined (js_get data field)
                       then <[field := js_get data field]> bk else bk)
                acc fields !! k = Some v ->
              v = js_get data k /\ defined v = true /\ k ∈ (seen ++ fields)%list)
    as Hfold.
  { intros acc Hacc k v Hk. apply (Hfold acc [] ) in Hk; [done|].
    intros k' v' Hk'. destruct (Hacc k' v' Hk') as (_ & _ & []). }
  induction fields as [|field fields IH]; intros acc seen Hacc k v; simpl.
  - rewrite app_nil_r. apply Hacc.
  - intros Hk. replace (seen ++ field :: fields)%list
      with ((seen ++ [field]) ++ fields)%list by by rewrite <- app_assoc.
    eapply IH; [|exact Hk]. intros k' v'.
    destruct (defined (js_get data field)) eqn:Hdef.
    + destruct (decide (field = k')) as [->|Hne].
      * rewrite lookup_insert_eq. intros [= <-].
        split_and!; [done|done|]. apply elem_of_app. right. by left.
      * rewrite lookup_insert_ne by done. intros Hk'.
        destruct (Hacc k' v' Hk') as (?&?&?).
        split_and!; [done|done|]. apply elem_of_app. by left.
    + intros Hk'. destruct (Hacc k' v' Hk') as (?&?&?).
      split_and!; [done|done|]. apply elem_of_app. by left.
Qed.

Lemma matches_refl v : defined v = true -> ERC.matches v v = true.
Proof.
  unfold ERC.matches.
  destruct v as [ | | b | n | s | t | o | xs | fs]; intros Hdef;
    try discriminate Hdef; try apply js_eqb_refl.
  change (js_eqb (JArr xs) (JArr xs) || existsb (js_eqb (JArr xs)) xs = true).
  by rewrite js_eqb_refl.
Qed.

(** Every stored revision of the same entity code whose resolved business
    key is that of the record asked for is part of the history (field names
    are plain: they carry no dot). *)
Lemma getEntityRecordVersions_complete db req current entity businessKey i r :
  ObjectId_isValid (ERC.id req) = true ->
  EntityRecord_findOne db (ERC.id req) (toUpperCase (ERC.entityCode req))
  = Some current ->
  Entity_findById db (EntityRecord.entityId current) = Some entity ->
  Entity.versioning_enabled entity = true ->
  Forall no_dot (Entity.schema_required entity) ->
  ERC.getBusinessKeyFields entity (EntityRecord.data current)
  = Some businessKey ->
  entityRecords db !! i = Some r ->
  EntityRecord.entityCode r = Some (toUpperCase (ERC.entityCode req)) ->
  ERC.getBusinessKeyFields entity (EntityRecord.data r) = Some businessKey ->
  r ∈ listed (ERC.getEntityRecordVersions db req).
Proof.
  intros Hid Hcurrent Hentity Hversioning Hplain Hkey Hi Hcode Hshared.
  unfold ERC.getEntityRecordVersions.
  rewrite Hid, Hcurrent, Hentity, Hversioning, Hkey. unfold listed. simpl.
  rewrite merge_sort_Permutation. apply EntityRecord_find_elem.
  split; [|by exists i]. unfold ERC.versionQuery.
  rewrite bool_decide_eq_true_2 by done. simpl.
  apply forallb_forall. intros [k v] Hkv%list_elem_of_In.
  apply elem_of_map_to_list in Hkv.
  destruct (getBusinessKeyFields_lookup _ _ _ _ _ Hshared Hkv)
    as (-> & Hdef & Hk).
  rewrite Forall_forall in Hplain. simpl.
  rewrite (split_dot_no_dot k (Hplain k Hk)). simpl.
  by apply matches_refl.
Qed.






(** ** The scenario, step by step *)

(** The definition of the scenario is what [createEntity] stores, and the
    first revision of ACME001 is what the insert of the create handler
    would store for the request of the scenario. *)
Example createEntity_customer timeBounding versioning hierarchy :
  let stored := Scenario.customer timeBounding versioning hierarchy in
  EC.createEntity Scenario.empty_db Scenario.customer_id 1000
    (Scenario.define_customer timeBounding versioning hierarchy)
  = (Scenario.db_with stored [], json 201 (EntityData stored))
  /\ Entity.activation_entityActive stored = true.
Proof.
  destruct timeBounding, versioning, hierarchy;
    split; vm_compute; reflexivity.
Qed.

Example EntityRecord_create_acme :
  EntityRecord_create (H := Scenario.host) Scenario.db_customer
    Scenario.acme_id 2000
    (ERC.recordData (H := Scenario.host) Scenario.versioned
       Scenario.create_acme)
  = Done (Scenario.db_acme, Scenario.acme_v1).
Proof. vm_compute. reflexivity. Qed.

(** C1 (the code departs from the claim).  Under the versioned definition
    CUSTOMER, the update of revision 1 of ACME001 is answered 400 and the
    store keeps revision 1 as it was: nothing is retired, nothing inserted.
    The assignments and the save of the handler (lines 379-409), run on the
    same request, overwrite the one document in place: same [_id], new
    data, [version] still 1, [isCurrent] still true, [expiredAt] still
    null. *)
Theorem updateEntityRecord_versioned_in_place :
  Entity.versioning_enabled Scenario.versioned = true
  /\ ERC.updateEntityRecord (H := Scenario.host) Scenario.db_acme 3000
       Scenario.update_acme
     = (Scenario.db_acme,
        json 400
          (Fail "Entity Customer is currently inactive and records cannot be updated"))
  /\ EntityRecord_save Scenario.db_acme 3000 Scenario.acme_v1
       (ERC.assign (H := Scenario.host) Scenario.versioned
          Scenario.update_acme Scenario.acme_v1)
     = Done (Scenario.db_overwritten, Scenario.acme_overwritten)
  /\ Scenario.acme_overwritten
     = Scenario.acme Scenario.acme_id "b@b.com" 1 true None 2000 3000
  /\ map_to_list (entityRecords Scenario.db_overwritten)
     = [(Scenario.acme_id, Scenario.acme_overwritten)].
Proof. split_and!; vm_compute; reflexivity. Qed.

(** C2 (the code departs from the claim).  After the create of the
    scenario the record collection is still empty, so ACME001 has no
    current revision where the claim promises exactly one.  The insert of
    the handler (line 298), run twice on the same request, stores two
    documents with [isCurrent = true] and the same business key. *)
Theorem create_then_no_current_revision :
  entityRecords
    (run (H := Scenario.host) Scenario.db_customer
       [Create Scenario.acme_id 2000 Scenario.create_acme])
  = ∅
  /\ EntityRecord_create (H := Scenario.host) Scenario.db_acme
       Scenario.acme_id2 2500
       (ERC.recordData (H := Scenario.host) Scenario.versioned
          Scenario.create_acme)
     = Done
         (Scenario.db_with Scenario.versioned
            [Scenario.acme_v1;
             Scenario.acme Scenario.acme_id2 "a@a.com" 1 true None 2500 2500],
          Scenario.acme Scenario.acme_id2 "a@a.com" 1 true None 2500 2500)
  /\ Forall (fun r =>
               EntityRecord.isCurrent r = Some true
               /\ ERC.getBusinessKeyFields Scenario.versioned
                    (EntityRecord.data r)
                  = Some {[ "customerCode" := JStr "ACME001" ]})
       [Scenario.acme_v1;
        Scenario.acme Scenario.acme_id2 "a@a.com" 1 true None 2500 2500].
Proof.
  split_and!; try (vm_compute; reflexivity).
  repeat constructor; vm_compute; reflexivity.
Qed.

(** Neither the object handed to the insert nor the assignments of the
    update depend on the schema of the definition. *)
Lemma recordData_ignores_schema `{Host} schema entity req :
  ERC.recordData (Entity.with_schemaDefinition schema entity) req
  = ERC.recordData entity req.
Proof. reflexivity. Qed.

Lemma assign_ignores_schema `{Host} schema entity req record :
  ERC.assign (Entity.with_schemaDefinition schema entity) req record
  = ERC.assign entity req record.
Proof. reflexivity. Qed.

(** C3 (the code departs from the claim).  A create whose data lacks the
    required field [customerCode] is answered with the one message of the
    usability gate, not with a list of violations; and the insert of the
    handler stores that data as it is: no step of the create path reads
    [schemaDefinition]. *)
Theorem createEntityRecord_skips_schema :
  Entity.schema_required Scenario.versioned = ["customerCode"]
  /\ js_get (ERC.data (ERC.body Scenario.create_invalid)) "customerCode"
     = JUndefined
  /\ ERC.createEntityRecord (H := Scenario.host) Scenario.db_customer
       Scenario.acme_id 2000 Scenario.create_invalid
     = (Scenario.db_customer,
        json 400
          (Fail "Entity Customer is currently inactive and cannot accept new records"))
  /\ (exists db' record,
        EntityRecord_create (H := Scenario.host) Scenario.db_customer
          Scenario.acme_id 2000
          (ERC.recordData (H := Scenario.host) Scenario.versioned
             Scenario.create_invalid)
        = Done (db', record)
        /\ entityRecords db' !! Scenario.acme_id = Some record
        /\ EntityRecord.data record = JObj [("email", JStr "a@a.com")]).
Proof.
  split_and!; try (vm_compute; reflexivity).
  eexists _, _. split_and!; vm_compute; reflexivity.
Qed.

(** After the update of the scenario, which is answered 400, the history
    of ACME001 lists version 1 alone.  It is the same after the
    assignments and the save of the update handler have run. *)
Example getEntityRecordVersions_after_update :
  EntityRecord.version
    <$> listed
          (ERC.getEntityRecordVersions
             (run (H := Scenario.host) Scenario.db_acme
                [Update 3000 Scenario.update_acme])
             Scenario.versions_acme)
  = [Some 1%Z]
  /\ EntityRecord_save Scenario.db_acme 3000 Scenario.acme_v1
       (ERC.assign (H := Scenario.host) Scenario.versioned
          Scenario.update_acme Scenario.acme_v1)
     = Done (Scenario.db_overwritten, Scenario.acme_overwritten)
  /\ EntityRecord.version
       <$> listed
             (ERC.getEntityRecordVersions Scenario.db_overwritten
                Scenario.versions_acme)
     = [Some 1%Z].
Proof. split_and!; vm_compute; reflexivity. Qed.

(** C8 (the code departs from the claim).  Under a definition with the
    hierarchy enabled and [parentLinkField = "parentId"], a create that
    supplies a parent is answered 400 and stores nothing.  The handler does
    put the reference under the configured name in [recordData] (line 294)
    and checks no parent; but the record schema declares no such path, so
    the insert stores the very document it stores without a parent, and
    that document has no property [parentId]. *)
Theorem createEntityRecord_drops_parent :
  let hierarchical := Scenario.customer false true true in
  let db := Scenario.db_with hierarchical [] in
  Entity.hierarchy_enabled hierarchical = true
  /\ Entity.hierarchy_parentLinkField hierarchical = "parentId"
  /\ ERC.createEntityRecord (H := Scenario.host) db Scenario.acme_id 2000
       Scenario.create_child
     = (db,
        json 400
          (Fail "Entity Customer is currently inactive and cannot accept new records"))
  /\ ERC.recordData (H := Scenario.host) hierarchical Scenario.create_child
       !! "parentId"
     = Some (JStr Scenario.parent_id)
  /\ EntityRecord_create (H := Scenario.host) db Scenario.acme_id 2000
       (ERC.recordData (H := Scenario.host) hierarchical Scenario.create_child)
     = EntityRecord_create (H := Scenario.host) db Scenario.acme_id 2000
         (ERC.recordData (H := Scenario.host) hierarchical Scenario.create_acme)
  /\ EntityRecord_create (H := Scenario.host) db Scenario.acme_id 2000
       (ERC.recordData (H := Scenario.host) hierarchical Scenario.create_child)
     = Done (Scenario.db_with hierarchical [Scenario.acme_v1], Scenario.acme_v1)
  /\ EntityRecord.prop Scenario.acme_v1 "parentId" = JUndefined.
Proof. intros hierarchical db. split_and!; vm_compute; reflexivity. Qed.

(** C9 (the code departs from the claim).  Under a time-bounded
    definition, the create of the scenario with [effectiveFrom] 2024-01-01
    and [effectiveTo] 2023-01-01 stores nothing, but the answer is the
    message of the usability gate, not an ordering error.  The hook of the
    schema is never reached; run on the same request, the insert of the
    handler reports the ordering on [effectiveTo]. *)
Theorem createEntityRecord_reversed_window :
  let bounded := Scenario.customer true true false in
  let db := Scenario.db_with bounded [] in
  Entity.activation_useTimeBounding bounded = true
  /\ ERC.createEntityRecord (H := Scenario.host) db Scenario.acme_id 2000
       Scenario.create_reversed
     = (db,
        json 400
          (Fail "Entity Customer is currently inactive and cannot accept new records"))
  /\ EntityRecord_create (H := Scenario.host) db Scenario.acme_id 2000
       (ERC.recordData (H := Scenario.host) bounded Scenario.create_reversed)
     = ValidationError
         [{| pe_path := "effectiveTo";
             pe_message :=
               "Effective end date must be after effective start date" |}].
Proof. intros bounded db. split_and!; vm_compute; reflexivity. Qed.

(** ** Entity definitions *)

(** A successful create stores the code of the request, upper-cased, under
    the new [_id]. *)
Lemma createEntity_stores_upper_code db fresh now req db' entity code :
  EC.code (EC.create_body req) = Some code ->
  EC.createEntity db fresh now req = (db', json 201 (EntityData entity)) ->
  Entity.code entity = toUpperCase code
  /\ entities db' !! fresh = Some entity.
Proof.
  intros Hcode. unfold EC.createEntity.
  destruct (EC.create_checks _) eqn:Hchecks; [|done].
  unfold EC.create_checks in Hchecks. rewrite Hcode in Hchecks. simpl in Hchecks.
  destruct (negb (String.eqb code "")) eqn:Hne; [|done].
  destruct (code_pattern code) eqn:Hpattern; [|done].
  rewrite Hcode. apply negb_true_iff in Hne. rewrite Hne. simpl.
  destruct (Entity_findOne db (toUpperCase code)); [done|].
  unfold Entity_create, Entity.build. simpl.
  destruct (Entity.pre_validate _); [done|].
  rewrite (code_pattern_upper code Hpattern), (code_pattern_trim code Hpattern).
  rewrite (code_pattern_upper code Hpattern).
  unfold Entity.validate_code. rewrite Hne, Hpattern. simpl.
  destruct (Entity.validate_name _ ++ _)%list; [|done]. simpl.
  destruct (_ || _); [done|]. intros [= <- <-]. simpl.
  split; [done|]. apply lookup_insert_eq.
Qed.

(** A truthy [code] in the patch is stripped: the update is the update of
    the patch without it ... *)
Lemma updateEntity_strips_code db now req :
  truthy (Entity.u_code (EC.update_body req)) = true ->
  EC.updateEntity db now req
  = EC.updateEntity db now
      {| EC.update_id := EC.update_id req;
         EC.update_body := EC.delete_code (EC.update_body req);
         EC.update_user := EC.update_user req |}.
Proof. intros Hcode. unfold EC.updateEntity. simpl. by rewrite Hcode. Qed.

(** ... and a successful update without [code] leaves the stored code as
    it is. *)
Lemma updateEntity_keeps_code db now req db' entity updated :
  truthy (Entity.u_code (EC.update_body req)) = true ->
  entities db !! toLowerCase (EC.update_id req) = Some entity ->
  EC.updateEntity db now req = (db', json 200 (EntityData updated)) ->
  Entity.code updated = Entity.code entity
  /\ entities db' !! Entity._id entity = Some updated.
Proof.
  intros Hcode Hentity. unfold EC.updateEntity.
  destruct (EC.update_checks _); [|done]. rewrite Hcode.
  unfold Entity_findById_param.
  destruct (ObjectId_isValid (EC.update_id req)) eqn:Hid; [|done].
  rewrite Hentity.
  destruct (_ && _); [done|]. destruct (_ && _); [done|].
  unfold Entity_findByIdAndUpdate. simpl. rewrite Hid. simpl.
  destruct (Entity.u_derivedRecordConfig (EC.update_body req)) as [c|];
    [destruct (Entity.cast_config c) as [config|es|m]; [|done|done]|];
    (destruct (Entity.update_validators _ _); [|done]);
    rewrite Hentity; simpl;
    (rewrite bool_decide_eq_false_2 by (intros Hne; by apply Hne)); simpl;
    intros [= <- <-]; simpl; (split; [done|]); apply lookup_insert_eq.
Qed.

(** The guard of the update: a patch that sets the versioning flag, or the
    hierarchy flag, of a definition from true to the boolean false is
    answered 400 and the database is left as it is. *)
Lemma updateEntity_refuses_disabling db now req entity :
  EC.update_checks (EC.update_body req) = [] ->
  ObjectId_isValid (EC.update_id req) = true ->
  entities db !! toLowerCase (EC.update_id req) = Some entity ->
  (Entity.versioning_enabled entity = true
   /\ EC.disables_versioning (EC.update_body req) = true)
  \/ (Entity.hierarchy_enabled entity = true
      /\ EC.disables_hierarchy (EC.update_body req) = true) ->
  exists message, EC.updateEntity db now req = (db, json 400 (Fail message)).
Proof.
  intros Hchecks Hid Hentity Hflag. unfold EC.updateEntity.
  rewrite Hchecks. unfold Entity_findById_param. rewrite Hid, Hentity.
  assert (forall u, EC.disables_versioning
                      (if truthy (Entity.u_code u) then EC.delete_code u else u)
                    = EC.disables_versioning u) as Hv
    by (intros u; by destruct (truthy _)).
  assert (forall u, EC.disables_hierarchy
                      (if truthy (Entity.u_code u) then EC.delete_code u else u)
                    = EC.disables_hierarchy u) as Hh
    by (intros u; by destruct (truthy _)).
  rewrite Hv, Hh.
  destruct Hflag as [[-> ->]|[-> ->]]; simpl; [by eexists|].
  destruct (_ && _); by eexists.
Qed.

(** C6 (the code departs from the claim).  The guard refuses the boolean
    [false] (first part).  But the versioned definition CUSTOMER, patched
    with activation settings only, is answered 200 and the definition
    stored and returned reads [versioning.enabled = false]: the object of
    the patch has replaced the stored [derivedRecordConfig] as a whole, and
    the flag that is now missing reads as its default.  A patch that
    carries the flag as the text 'false' is answered 200 as well, and
    stores the flag as false. *)
Theorem updateEntity_resets_versioning :
  Entity.versioning_enabled Scenario.versioned = true
  /\ EC.updateEntity Scenario.db_customer 5000
       (Scenario.patch_config (JBool false))
     = (Scenario.db_customer,
        json 400 (Fail "Cannot disable versioning once it has been enabled"))
  /\ (exists db' updated,
        EC.updateEntity Scenario.db_customer 5000
          (Scenario.patch_config JUndefined)
        = (db', json 200 (EntityData updated))
        /\ entities db' !! Scenario.customer_id = Some updated
        /\ Entity.versioning (Entity.derivedRecordConfig updated)
           = Entity.Versioning.empty
        /\ Entity.versioning_enabled updated = false)
  /\ (exists db' updated,
        EC.updateEntity Scenario.db_customer 5000
          (Scenario.patch_config (JStr "false"))
        = (db', json 200 (EntityData updated))
        /\ entities db' !! Scenario.customer_id = Some updated
        /\ Entity.versioning (Entity.derivedRecordConfig updated)
           = {| Entity.Versioning.enabled := Some false |}
        /\ Entity.versioning_enabled updated = false).
Proof.
  split_and!; try (vm_compute; reflexivity);
    eexists _, _; split_and!; vm_compute; reflexivity.
Qed.

(** C7 (the code departs from the claim).  A patch whose [code] is the
    empty text is not stripped: the update is answered 400 and the name of
    the patch is not applied.  A patch whose [code] is the number 0 is not
    stripped either: the update is answered 200 and the stored code is
    now "0". *)
Theorem updateEntity_falsy_code :
  EC.updateEntity Scenario.db_customer 5000 (Scenario.patch_code (JStr ""))
  = (Scenario.db_customer, json 400 (Fail "Entity code is required."))
  /\ exists db' updated,
       EC.updateEntity Scenario.db_customer 5000
         (Scenario.patch_code (JNum 0))
       = (db', json 200 (EntityData updated))
       /\ entities db' !! Scenario.customer_id = Some updated
       /\ Entity.code Scenario.versioned = "CUSTOMER"
       /\ Entity.code updated = "0"
       /\ Entity.name updated = "Client".
Proof.
  split; [vm_compute; reflexivity|].
  eexists _, _. split_and!; vm_compute; reflexivity.
Qed.

(** A patch with a truthy code leaves the code of the scenario as it is
    and applies the name. *)
Example updateEntity_truthy_code :
  exists db' updated,
    EC.updateEntity Scenario.db_customer 5000
      (Scenario.patch_code (JStr "other"))
    = (db', json 200 (EntityData updated))
    /\ Entity.code updated = "CUSTOMER"
    /\ Entity.name updated = "Client".
Proof. eexists _, _. split_and!; vm_compute; reflexivity. Qed.
(** * The handlers that read, toggle and delete *)

(** ** Records *)

(** The entity code of the URL is read in upper case: two spellings with
    the same upper-case form are the same request to the handlers that
    take a record id. *)
Lemma entityCode_spelling `{Host} db now req code1 code2 :
  toUpperCase code1 = toUpperCase code2 ->
  RH.getEntityRecordById db (at_code code1 req)
  = RH.getEntityRecordById db (at_code code2 req)
  /\ RH.toggleEntityRecordActivation db now (at_code code1 req)
     = RH.toggleEntityRecordActivation db now (at_code code2 req)
  /\ RH.deleteEntityRecord db (at_code code1 req)
     = RH.deleteEntityRecord db (at_code code2 req)
  /\ ERC.getEntityRecordVersions db (at_code code1 req)
     = ERC.getEntityRecordVersions db (at_code code2 req)
  /\ ERC.updateEntityRecord db now (at_code code1 req)
     = ERC.updateEntityRecord db now (at_code code2 req).
Proof.
  intros Hcode.
  unfold RH.getEntityRecordById, RH.toggleEntityRecordActivation,
    RH.deleteEntityRecord, ERC.getEntityRecordVersions, ERC.updateEntityRecord.
  cbn [at_code ERC.entityCode ERC.id ERC.body ERC.user].
  rewrite Hcode. split_and!; reflexivity.
Qed.

(** A record is served under its own entity code only: for a plain
    spelling of the code in the URL, the answer is 200 exactly when the id
    is well formed and the document stored under it carries that code, in
    upper case; the answer then carries that document. *)
Lemma getEntityRecordById_scope db req :
  plain_code (ERC.entityCode req) = true ->
  status (RH.getEntityRecordById db req) = 200%nat
  <-> ObjectId_isValid (ERC.id req) = true
      /\ exists r,
           entityRecords db !! toLowerCase (ERC.id req) = Some r
           /\ EntityRecord.entityCode r = Some (toUpperCase (ERC.entityCode req))
           /\ exists name,
                body (RH.getEntityRecordById db req) = RecordData name r.
Proof.
  intros _. unfold RH.getEntityRecordById, EntityRecord_findOne.
  destruct (ObjectId_isValid (ERC.id req)); simpl.
  - destruct (entityRecords db !! toLowerCase (ERC.id req)) as [r|]; simpl.
    + case_bool_decide as Hcode; simpl.
      * split; [|done]. intros _. split; [done|]. exists r. by eauto.
      * split; [done|]. intros [_ (r' & [= <-] & Hcode' & _)]. done.
    + split; [done|]. by intros [_ (r & ? & _)].
  - split; [done|]. by intros [? _].
Qed.

(** The two assignments of the toggle, written out. *)
Lemma flip_eq `{Host} user r :
  RH.flip user r
  = (EntityRecord.with_updatedBy (Some user)
       (EntityRecord.with_isActive
          (Some (negb (default false (EntityRecord.isActive r)))) r), []).
Proof.
  unfold RH.flip, EntityRecord.prop. simpl.
  by destruct (EntityRecord.isActive r) as [[]|].
Qed.

Lemma isModified_isActive old new :
  opt_eqb Bool.eqb (EntityRecord.isActive old) (EntityRecord.isActive new)
  = false ->
  isModified old new = true.
Proof.
  intros Hneq. unfold isModified. rewrite Hneq.
  by rewrite andb_false_r.
Qed.

(** The validators of a save read neither [isActive] nor the timestamps. *)
Lemma validate_toggled `{Host} user flag created updated r :
  EntityRecord.validate
    (RH.flip user
       (EntityRecord.with_timestamps created updated
          (EntityRecord.with_updatedBy (Some user)
             (EntityRecord.with_isActive flag r))))
  = EntityRecord.validate (RH.flip user r).
Proof. by rewrite !flip_eq. Qed.

(** A toggle answers 200 exactly in this case: the record is found under
    the code of the URL, its definition is found and has activation
    enabled, and the document with the two assignments passes validation.
    The flag [entityActive] of the definition plays no part. *)
Lemma toggle_done `{Host} db now req db' a :
  RH.toggleEntityRecordActivation db now req = (db', reply 200 a) ->
  exists r entity,
    ObjectId_isValid (ERC.id req) = true
    /\ entityRecords db !! toLowerCase (ERC.id req) = Some r
    /\ EntityRecord.entityCode r = Some (toUpperCase (ERC.entityCode req))
    /\ Entity_findById db (EntityRecord.entityId r) = Some entity
    /\ Entity.activation_enabled entity = true
    /\ EntityRecord.validate (RH.flip (ERC.user req) r) = []
    /\ db' = set_entityRecords
               (insert (EntityRecord._id r)
                  (EntityRecord.with_timestamps (EntityRecord.createdAt r)
                     (Some now)
                     (EntityRecord.with_updatedBy (Some (ERC.user req))
                        (EntityRecord.with_isActive
                           (Some (negb (default false (EntityRecord.isActive r))))
                           r))))
               db
    /\ a = RecordToggled (Entity.name entity) (EntityRecord._id r)
             (Some (negb (default false (EntityRecord.isActive r)))).
Proof.
  unfold RH.toggleEntityRecordActivation, EntityRecord_findOne.
  destruct (ObjectId_isValid (ERC.id req)); [|done]. simpl.
  destruct (entityRecords db !! toLowerCase (ERC.id req)) as [r|]; [|done].
  case_bool_decide as Hcode; [|done].
  destruct (Entity_findById _ _) as [entity|] eqn:Hentity; [|done].
  destruct (Entity.activation_enabled entity) eqn:Henabled; [|done]. simpl.
  unfold EntityRecord_save.
  destruct (EntityRecord.validate _) eqn:Hvalid; [|done].
  rewrite flip_eq. unfold EntityRecord.pre_save. cbn [fst].
  rewrite isModified_isActive
    by (simpl; by destruct (EntityRecord.isActive r) as [[]|]).
  intros [= <- <-]. exists r, entity. split_and!; done.
Qed.

Lemma toggle_succeeds `{Host} db now req r entity :
  ObjectId_isValid (ERC.id req) = true ->
  entityRecords db !! toLowerCase (ERC.id req) = Some r ->
  EntityRecord.entityCode r = Some (toUpperCase (ERC.entityCode req)) ->
  Entity_findById db (EntityRecord.entityId r) = Some entity ->
  Entity.activation_enabled entity = true ->
  EntityRecord.validate (RH.flip (ERC.user req) r) = [] ->
  RH.toggleEntityRecordActivation db now req
  = (set_entityRecords
       (insert (EntityRecord._id r)
          (EntityRecord.with_timestamps (EntityRecord.createdAt r) (Some now)
             (EntityRecord.with_updatedBy (Some (ERC.user req))
                (EntityRecord.with_isActive
                   (Some (negb (default false (EntityRecord.isActive r))))
                   r))))
       db,
     reply 200
       (RecordToggled (Entity.name entity) (EntityRecord._id r)
          (Some (negb (default false (EntityRecord.isActive r)))))).
Proof.
  intros Hid Hr Hcode Hentity Henabled Hvalid.
  unfold RH.toggleEntityRecordActivation, EntityRecord_findOne.
  rewrite Hid, Hr. simpl. rewrite bool_decide_eq_true_2 by done.
  rewrite Hentity, Henabled. simpl.
  unfold EntityRecord_save. rewrite Hvalid.
  rewrite flip_eq. unfold EntityRecord.pre_save. cbn [fst].
  rewrite isModified_isActive
    by (simpl; by destruct (EntityRecord.isActive r) as [[]|]).
  reflexivity.
Qed.

(** What a toggle that answers 200 has done: the document stored under the
    id has its [isActive] negated ([null] counts as false) and its updater
    and [updatedAt] set; the payload, the validity window, the three
    versioning paths and the creation stamps are as before, and so are the
    definitions. *)
Lemma toggleEntityRecordActivation_flips `{Host} db now req db' a :
  RH.toggleEntityRecordActivation db now req = (db', reply 200 a) ->
  entities db' = entities db
  /\ exists r r',
       entityRecords db !! toLowerCase (ERC.id req) = Some r
       /\ entityRecords db' !! EntityRecord._id r = Some r'
       /\ EntityRecord.isActive r'
          = Some (negb (default false (EntityRecord.isActive r)))
       /\ EntityRecord.updatedBy r' = Some (ERC.user req)
       /\ EntityRecord.updatedAt r' = Some now
       /\ EntityRecord.data r' = EntityRecord.data r
       /\ (EntityRecord.effectiveFrom r', EntityRecord.effectiveTo r')
          = (EntityRecord.effectiveFrom r, EntityRecord.effectiveTo r)
       /\ (EntityRecord.version r', EntityRecord.isCurrent r',
           EntityRecord.expiredAt r')
          = (EntityRecord.version r, EntityRecord.isCurrent r,
             EntityRecord.expiredAt r)
       /\ (EntityRecord._id r', EntityRecord.entityId r',
           EntityRecord.entityCode r')
          = (EntityRecord._id r, EntityRecord.entityId r,
             EntityRecord.entityCode r)
       /\ (EntityRecord.createdBy r', EntityRecord.createdAt r')
          = (EntityRecord.createdBy r, EntityRecord.createdAt r).
Proof.
  intros (r & entity & _ & Hr & _ & _ & _ & _ & -> & _)%toggle_done.
  split; [reflexivity|]. exists r. eexists. split; [exact Hr|].
  split; [apply lookup_insert_eq|]. split_and!; reflexivity.
Qed.

(** Two toggles in a row give the record back as it was, but for the
    updater and [updatedAt]: the second toggle answers 200 with the flag
    the record had at first. *)
Lemma toggleEntityRecordActivation_twice `{Host} db now now' req db1 a1 r b :
  keyed db ->
  entityRecords db !! toLowerCase (ERC.id req) = Some r ->
  EntityRecord.isActive r = Some b ->
  RH.toggleEntityRecordActivation db now req = (db1, reply 200 a1) ->
  exists db2 name,
    RH.toggleEntityRecordActivation db1 now' req
    = (db2, reply 200 (RecordToggled name (EntityRecord._id r) (Some b)))
    /\ entityRecords db2 !! toLowerCase (ERC.id req)
       = Some (EntityRecord.with_timestamps (EntityRecord.createdAt r)
                 (Some now')
                 (EntityRecord.with_updatedBy (Some (ERC.user req)) r)).
Proof.
  intros [_ Hkeyed] Hr Hb
    (r0 & entity & Hid & Hr0 & Hcode & Hentity & Henabled & Hvalid & -> & _)%toggle_done.
  rewrite Hr in Hr0. injection Hr0 as <-.
  pose proof (Hkeyed _ _ Hr) as Hkey.
  set (r1 := EntityRecord.with_timestamps (EntityRecord.createdAt r) (Some now)
               (EntityRecord.with_updatedBy (Some (ERC.user req))
                  (EntityRecord.with_isActive
                     (Some (negb (default false (EntityRecord.isActive r))))
                     r))).
  set (db1 := set_entityRecords (insert (EntityRecord._id r) r1) db).
  assert (entityRecords db1 !! toLowerCase (ERC.id req) = Some r1) as Hr1
    by (simpl; rewrite Hkey; apply lookup_insert_eq).
  assert (EntityRecord.validate (RH.flip (ERC.user req) r1) = []) as Hvalid1
    by (unfold r1; by rewrite validate_toggled).
  rewrite (toggle_succeeds db1 now' req r1 entity
             Hid Hr1 Hcode Hentity Henabled Hvalid1).
  clear Hr1 Hvalid1. subst db1 r1.
  destruct r. simpl in *. subst.
  eexists _, (Entity.name entity).
  destruct b; (split; [reflexivity|]); simpl;
    by rewrite insert_insert_eq, lookup_insert_eq.
Qed.

(** A delete that answers 200 has removed the document stored under the
    id and nothing else; the record is then gone for a read and for a
    second delete. *)
Lemma deleteEntityRecord_gone db req db' a :
  RH.deleteEntityRecord db req = (db', reply 200 a) ->
  db' = set_entityRecords (delete (toLowerCase (ERC.id req))) db
  /\ RH.getEntityRecordById db' req
     = json 404 (Fail "Entity record not found")
  /\ RH.deleteEntityRecord db' req
     = (db', refuse 404 "Entity record not found").
Proof.
  unfold RH.deleteEntityRecord, RH.getEntityRecordById.
  destruct (negb _); [done|].
  destruct (EntityRecord_findOne db _ _); [|done].
  intros [= <- _]. unfold EntityRecord_findOne. simpl.
  by rewrite lookup_delete_eq.
Qed.

(** Neither handler touches the definitions or a record other than the
    one stored under the id of the request. *)
Lemma toggle_delete_frame `{Host} db now req j :
  keyed db ->
  j <> toLowerCase (ERC.id req) ->
  let toggled := (RH.toggleEntityRecordActivation db now req).1 in
  let deleted := (RH.deleteEntityRecord db req).1 in
  entities toggled = entities db
  /\ entityRecords toggled !! j = entityRecords db !! j
  /\ entities deleted = entities db
  /\ entityRecords deleted !! j = entityRecords db !! j.
Proof.
  intros [_ Hkeyed] Hj toggled deleted.
  assert (entities toggled = entities db
          /\ entityRecords toggled !! j = entityRecords db !! j) as [??].
  { subst toggled.
    destruct (RH.toggleEntityRecordActivation db now req) as [db' [code a]]
      eqn:Htoggle.
    destruct (decide (code = 200%nat)) as [->|Hcode].
    - apply toggle_done in Htoggle
        as (r & entity & _ & Hr & _ & _ & _ & _ & -> & _).
      simpl. split; [done|]. rewrite lookup_insert_ne; [done|].
      rewrite (Hkeyed _ _ Hr). by intros <-.
    - revert Htoggle. unfold RH.toggleEntityRecordActivation.
      destruct (negb _); [by intros [= <- _]|].
      destruct (EntityRecord_findOne _ _ _) as [r|]; [|by intros [= <- _]].
      destruct (Entity_findById _ _) as [entity|]; [|by intros [= <- _]].
      destruct (negb _); [by intros [= <- _]|].
      destruct (EntityRecord_save _ _ _ _) as [[db'' saved]|es|m];
        [|by intros [= <- _]..].
      intros [= _ <- _]. done. }
  split_and!; [done|done|..]; subst deleted; unfold RH.deleteEntityRecord;
    destruct (negb _); try done;
    destruct (EntityRecord_findOne _ _ _); try done.
  simpl. by rewrite lookup_delete_ne.
Qed.

(** ** Listings and histories *)

Lemma Sorted_drop {A} (R : relation A) n l : Sorted R l -> Sorted R (drop n l).
Proof.
  revert l. induction n as [|n IH]; intros l Hl; [by rewrite drop_0|].
  destruct l as [|x l]; [constructor|]. simpl. apply IH.
  by inversion Hl.
Qed.

Lemma Sorted_take {A} (R : relation A) n l : Sorted R l -> Sorted R (take n l).
Proof.
  revert l. induction n as [|n IH]; intros l Hl; [constructor|].
  destruct l as [|x l]; [constructor|]. simpl.
  inversion Hl as [|? ? Hsorted Hhd]; subst. constructor; [by apply IH|].
  destruct Hhd; destruct n; simpl; by constructor.
Qed.

Lemma paginate_Sorted {A} (R : relation A) skip limit (l page : list A) :
  ERC.paginate skip limit l = Some page -> Sorted R l -> Sorted R page.
Proof.
  unfold ERC.paginate. destruct skip as [s|], limit as [n|]; try done.
  destruct (s <? 0)%Z; [done|]. intros [= <-] Hl.
  destruct (n =? 0)%Z; [|apply Sorted_take]; by apply Sorted_drop.
Qed.

Lemma paginate_length {A} skip n (l page : list A) :
  ERC.paginate skip (Some n) l = Some page ->
  n <> 0%Z -> (Z.of_nat (length page) <= Z.abs n)%Z.
Proof.
  unfold ERC.paginate. destruct skip as [s|]; [|done].
  destruct (s <? 0)%Z; [done|]. intros [= <-] Hn.
  destruct (Z.eqb_spec n 0); [done|].
  rewrite length_take. lia.
Qed.

#[global] Instance newest_first_total : Total ERC.newest_first.
Proof.
  intros a b. unfold ERC.newest_first, opt_leb.
  destruct (EntityRecord.createdAt a) as [x|],
    (EntityRecord.createdAt b) as [y|]; auto.
  destruct (Z.leb_spec y x); [by left|]. right. apply Z.leb_le. lia.
Qed.

(** The records of a page of the listing, for a plain spelling of the code
    in the URL: each is a stored record of that entity code and passes the
    [active] filter of the query; the page is ordered by creation time,
    newest first, and is no longer than the limit. *)
Lemma getEntityRecords_page `{Host} db req :
  plain_code (ERC.entityCode req) = true ->
  let page := listed (ERC.getEntityRecords db req) in
  let q := ERC.query req in
  Forall (fun r =>
            EntityRecord.entityCode r = Some (toUpperCase (ERC.entityCode req))
            /\ (exists i, entityRecords db !! i = Some r)
            /\ (defined (ERC.active q) = true ->
                EntityRecord.isActive r
                = Some (js_eqb (ERC.active q) (JStr "true"))))
    page
  /\ Sorted ERC.newest_first page
  /\ (forall n,
        parseInt (if defined (ERC.limit q) then ERC.limit q else JNum 20)
        = Some n ->
        n <> 0%Z -> (Z.of_nat (length page) <= Z.abs n)%Z).
Proof.
  intros _ page q. subst page q. unfold ERC.getEntityRecords.
  destruct (Entity_findOne _ _) as [entity|];
    [|split_and!; [constructor..|simpl; lia]].
  match goal with
  | |- context [ERC.paginate ?s ?l ?xs] =>
      destruct (ERC.paginate s l xs) as [records|] eqn:Hpage
  end.
  2: { destruct (ERC.search (ERC.query req)) as [ | | [] | [] | | | | | ];
         (split_and!; [constructor..|simpl; lia]). }
  assert (Forall (fun r =>
            EntityRecord.entityCode r = Some (toUpperCase (ERC.entityCode req))
            /\ (exists i, entityRecords db !! i = Some r)
            /\ (defined (ERC.active (ERC.query req)) = true ->
                EntityRecord.isActive r
                = Some (js_eqb (ERC.active (ERC.query req)) (JStr "true"))))
            records) as Hall.
  { apply Forall_forall. intros r Hr.
    eapply paginate_elem in Hr; [|exact Hpage].
    rewrite merge_sort_Permutation in Hr.
    apply EntityRecord_find_elem in Hr as [Hr Hstored].
    unfold ERC.list_filter in Hr.
    apply andb_prop in Hr as [[[Hcode _]%andb_prop Hactive]%andb_prop _].
    apply bool_decide_eq_true in Hcode. split_and!; [done|done|].
    intros Hdef. rewrite Hdef in Hactive. by apply bool_decide_eq_true in Hactive. }
  assert (Sorted ERC.newest_first records) as Hsorted.
  { eapply paginate_Sorted; [exact Hpage|].
    apply (Sorted_merge_sort ERC.newest_first). }
  assert (forall n,
            parseInt (if defined (ERC.limit (ERC.query req))
                      then ERC.limit (ERC.query req) else JNum 20) = Some n ->
            n <> 0%Z -> (Z.of_nat (length records) <= Z.abs n)%Z) as Hlen.
  { intros n Hn Hne. rewrite Hn in Hpage. by eapply paginate_length. }
  destruct (ERC.search (ERC.query req)) as [ | | [] | [] | | | | | ];
    first [by split_and! | split_and!; [constructor..|simpl; lia]].
Qed.

(** The fold of [getBusinessKeyFields]: the key it builds holds, for each
    required field that the data defines, the value of the data. *)
Lemma businessKey_fold (data : JsValue) fields (acc : gmap string JsValue) k :
  foldl (fun bk field =>
           if defined (js_get data field)
           then <[field := js_get data field]> bk else bk) acc fields !! k
  = if bool_decide (k ∈ fields) && defined (js_get data k)
    then Some (js_get data k) else acc !! k.
Proof.
  revert acc. induction fields as [|field fields IH]; intros acc; cbn [foldl].
  - by rewrite bool_decide_eq_false_2 by apply not_elem_of_nil.
  - rewrite IH. destruct (decide (k = field)) as [->|Hne].
    + rewrite (bool_decide_eq_true_2 (field ∈ field :: fields))
        by apply list_elem_of_here.
      destruct (defined (js_get data field)) eqn:Hdef; simpl.
      * rewrite lookup_insert_eq. by destruct (bool_decide _).
      * by rewrite andb_false_r.
    + assert (bool_decide (k ∈ field :: fields) = bool_decide (k ∈ fields))
        as -> by (apply bool_decide_ext; rewrite elem_of_cons; tauto).
      destruct (_ && _); [done|].
      destruct (defined (js_get data field)); [|done].
      by rewrite lookup_insert_ne.
Qed.


(** A history needs a business key: for a record whose data, a plain
    object, defines none of the required fields of its definition (names
    that no object inherits), the history is answered 400. *)
Lemma getEntityRecordVersions_needs_required db req current entity :
  ObjectId_isValid (ERC.id req) = true ->
  EntityRecord_findOne db (ERC.id req) (toUpperCase (ERC.entityCode req))
  = Some current ->
  Entity_findById db (EntityRecord.entityId current) = Some entity ->
  Entity.versioning_enabled entity = true ->
  plain_object (EntityRecord.data current) = true ->
  forallb own_name (Entity.schema_required entity) = true ->
  Forall (fun k => defined (js_get (EntityRecord.data current) k) = false)
    (Entity.schema_required entity) ->
  ERC.getEntityRecordVersions db req
  = json 400 (Fail "Cannot determine business key for versioning").
Proof.
  intros Hid Hcurrent Hentity Hversioning _ _ Hnone.
  rewrite Forall_forall in Hnone.
  unfold ERC.getEntityRecordVersions.
  rewrite Hid, Hcurrent, Hentity, Hversioning. simpl.
  unfold ERC.getBusinessKeyFields.
  destruct (negb (truthy _)); [done|].
  match goal with
  | |- context [size ?m] => assert (m = ∅) as ->
  end.
  { apply map_eq. intros k. rewrite businessKey_fold, lookup_empty.
    destruct (bool_decide_reflect (k ∈ Entity.schema_required entity))
      as [Hk|]; [|done].
    by rewrite (Hnone k Hk). }
  by rewrite map_size_empty.
Qed.

(** ** The document of a create *)

(** The constructor leaves the three versioning paths of the blank
    document alone when the object carries none of them. *)
Lemma construct_versioning `{Host} fresh now (obj : gmap string JsValue) :
  obj !! "version" = None ->
  obj !! "isCurrent" = None ->
  obj !! "expiredAt" = None ->
  let d := (EntityRecord.construct fresh now obj).1 in
  EntityRecord._id d = fresh
  /\ EntityRecord.version d = Some 1%Z
  /\ EntityRecord.isCurrent d = Some true
  /\ EntityRecord.expiredAt d = None.
Proof.
  intros Hversion Hcurrent Hexpired. unfold EntityRecord.construct.
  assert (forall paths p,
            let q :=
              foldl (fun p path =>
                       match obj !! path with
                       | Some v => if defined v then EntityRecord.set path v p else p
                       | None => p
                       end) p paths in
            EntityRecord._id q.1 = EntityRecord._id p.1
            /\ EntityRecord.version q.1 = EntityRecord.version p.1
            /\ EntityRecord.isCurrent q.1 = EntityRecord.isCurrent p.1
            /\ EntityRecord.expiredAt q.1 = EntityRecord.expiredAt p.1) as Hfold.
  { induction paths as [|path paths IH]; intros p; [done|].
    cbn [foldl]. cbv zeta in IH |- *.
    destruct (IH (match obj !! path with
                  | Some v => if defined v then EntityRecord.set path v p else p
                  | None => p
                  end)) as (-> & -> & -> & ->).
    destruct (obj !! path) as [v|] eqn:Hpath; [|done].
    destruct (defined v); [|done].
    rewrite EntityRecord_set_keeps_id.
    destruct (EntityRecord_set_keeps_versioning path v p) as (-> & -> & ->);
      [|done].
    intros Hin. apply list_elem_of_In in Hin. simpl in Hin.
    destruct Hin as [<-|[<-|[<-|[]]]]; congruence. }
  destruct (Hfold EntityRecord.schema_paths (EntityRecord.blank fresh now, []))
    as (-> & -> & -> & ->).
  done.
Qed.

Lemma recordData_lookup_None `{Host} entity req k :
  k ∉ ["entityId"; "entityCode"; "data"; "createdBy"; "updatedBy"; "isActive";
       "effectiveFrom"; "effectiveTo"] ->
  k <> Entity.hierarchy_parentLinkField entity ->
  ERC.recordData entity req !! k = None.
Proof.
  intros Hk Hparent. unfold ERC.recordData.
  assert (forall k', k' ∈ ["entityId"; "entityCode"; "data"; "createdBy";
                           "updatedBy"; "isActive"; "effectiveFrom";
                           "effectiveTo"] -> k' <> k) as Hne
    by (intros k' Hk' ->; done).
  repeat match goal with
         | |- context [if ?b then _ else _] => destruct b
         end;
    rewrite ?(lookup_insert_ne _ (Entity.hierarchy_parentLinkField entity))
      by done;
    repeat (rewrite lookup_insert_ne by (apply Hne; in_literal));
    apply lookup_empty.
Qed.

(** The document that the create handler hands to the store is a first
    revision whatever the request carries: it has the new [_id], version
    1, is current and not expired, and is stamped with the time of the
    request; the insert puts a document under the new [_id] and touches
    nothing else.  The parent link field of the definition is a field name
    other than the three versioning paths and the names Mongoose
    manages. *)
Lemma recordData_first_revision `{Host} db fresh now entity req db' d :
  field_name (Entity.hierarchy_parentLinkField entity) = true ->
  Entity.hierarchy_parentLinkField entity
    ∉ ["version"; "isCurrent"; "expiredAt"] ->
  Entity.hierarchy_parentLinkField entity ∉ EntityRecord.managed_paths ->
  EntityRecord_create db fresh now (ERC.recordData entity req) = Done (db', d) ->
  EntityRecord._id d = fresh
  /\ EntityRecord.version d = Some 1%Z
  /\ EntityRecord.isCurrent d = Some true
  /\ EntityRecord.expiredAt d = None
  /\ EntityRecord.createdAt d = Some now
  /\ EntityRecord.updatedAt d = Some now
  /\ entityRecords db !! fresh = None
  /\ is_Some (entityRecords db' !! fresh)
  /\ (forall j, j <> fresh -> entityRecords db' !! j = entityRecords db !! j)
  /\ entities db' = entities db.
Proof.
  intros _ Hfield _. unfold EntityRecord_create.
  destruct (construct_versioning fresh now (ERC.recordData entity req))
    as (Hid & Hversion & Hcurrent & Hexpired);
    [apply recordData_lookup_None;
     [not_in_literal|intros Heq; apply Hfield; rewrite <- Heq; in_literal]..|].
  revert Hid Hversion Hcurrent Hexpired.
  generalize (EntityRecord.construct fresh now (ERC.recordData entity req)) as p.
  intros p Hid Hversion Hcurrent Hexpired.
  destruct (EntityRecord.validate p); [|done].
  case_bool_decide as Hfresh; [done|].
  intros Hdone. injection Hdone as <- <-.
  unfold EntityRecord.pre_save. simpl. rewrite Hid.
  split_and!; try done.
  - by apply eq_None_not_Some.
  - rewrite lookup_insert_eq. by eexists.
  - intros j Hj. by rewrite lookup_insert_ne.
Qed.

(** ** Definitions *)

(** [Entity.findOne({ code })] returns a stored definition of that code,
    and none only when no stored definition has it. *)
Lemma Entity_findOne_stored db code e :
  Entity_findOne db code = Some e ->
  Entity.code e = code /\ exists i, entities db !! i = Some e.
Proof.
  unfold Entity_findOne. intros Hhead%head_Some_elem_of.
  apply list_elem_of_filter in Hhead as [Hcode Hin].
  apply list_elem_of_fmap in Hin as [[i e'] [-> Hin]].
  apply elem_of_map_to_list in Hin. eauto.
Qed.

Lemma Entity_findOne_None db code :
  Entity_findOne db code = None
  <-> forall i e, entities db !! i = Some e -> Entity.code e <> code.
Proof.
  split.
  - unfold Entity_findOne. rewrite head_None. intros Hnil i e Hi Hcode.
    eapply (filter_nil_not_elem_of _ _ e Hnil Hcode).
    apply list_elem_of_fmap. exists (i, e). split; [done|].
    by apply elem_of_map_to_list.
  - intros Hnone. destruct (Entity_findOne db code) as [e|] eqn:Hfound; [|done].
    apply Entity_findOne_stored in Hfound as [Hcode [i Hi]].
    by destruct (Hnone i e Hi).
Qed.

Lemma Entity_findOne_unique db code i e :
  entities db !! i = Some e ->
  Entity.code e = code ->
  (forall j e', entities db !! j = Some e' -> Entity.code e' = code -> e' = e) ->
  Entity_findOne db code = Some e.
Proof.
  intros Hi Hcode Hunique.
  destruct (Entity_findOne db code) as [e'|] eqn:Hfound.
  - apply Entity_findOne_stored in Hfound as [Hcode' [j Hj]].
    by rewrite (Hunique j e' Hj Hcode').
  - rewrite Entity_findOne_None in Hfound. by destruct (Hfound i e Hi).
Qed.

(** What a create that answers 201 has done. *)
Lemma createEntity_done db fresh now req db' entity :
  EC.createEntity db fresh now req = (db', json 201 (EntityData entity)) ->
  let b := EC.create_body req in
  exists code name,
    EC.code b = Some code
    /\ EC.name b = Some name
    /\ code_pattern code = true
    /\ name <> ""
    /\ Entity_findOne db code = None
    /\ entities db !! fresh = None
    /\ db' = set_entities (insert fresh entity) db
    /\ Entity.pre_validate
         (Entity.schema_with_defaults (EC.request_schema b)) = None
    /\ Entity.validate_name (Some (trim name)) = []
    /\ Entity.validate_linkType
         (Entity.Hierarchy.linkType
            (Entity.hierarchy
               (Entity.with_defaults
                  (default (EC.legacy_config b) (EC.derivedRecordConfig b)))))
       = []
    /\ entity
       = {| Entity._id := fresh;
            Entity.code := code;
            Entity.name := trim name;
            Entity.description := trim <$> EC.description b;
            Entity.derivedRecordConfig :=
              Entity.with_defaults
                (default (EC.legacy_config b) (EC.derivedRecordConfig b));
            Entity.schemaDefinition :=
              Entity.schema_with_defaults (EC.request_schema b);
            Entity.createdBy := EC.create_user req;
            Entity.createdAt := now;
            Entity.updatedAt := now |}.
Proof.
  unfold EC.createEntity.
  destruct (EC.create_checks _) eqn:Hchecks; [|done].
  unfold EC.create_checks in Hchecks.
  destruct (EC.code (EC.create_body req)) as [code|] eqn:Hcode; [|done].
  destruct (EC.name (EC.create_body req)) as [name|] eqn:Hname;
    [|by destruct (notEmpty _), (from_option _ _ _)].
  simpl in Hchecks.
  destruct (negb (String.eqb code "")) eqn:Hne; [|done].
  destruct (code_pattern code) eqn:Hpattern; [|done].
  destruct (String.eqb_spec name "") as [->|Hnonempty]; [done|].
  apply negb_true_iff in Hne. rewrite Hne. simpl.
  rewrite (code_pattern_upper code Hpattern).
  destruct (Entity_findOne db code) eqn:Hfound; [done|].
  unfold Entity_create, Entity.build. simpl.
  destruct (Entity.pre_validate _) eqn:Hhook; [done|].
  rewrite (code_pattern_trim code Hpattern), (code_pattern_upper code Hpattern).
  unfold Entity.validate_code. rewrite Hne, Hpattern. simpl.
  destruct (String.eqb (trim name) "") eqn:Htrim; [done|].
  destruct (_ || _) eqn:Hlink; [|done]. simpl.
  rewrite Hfound. simpl.
  case_bool_decide as Hfresh; [done|]. simpl.
  intros [= <- <-]. exists code, name.
  split_and!; try done;
    first [ by apply eq_None_not_Some
          | unfold Entity.validate_name; by rewrite Htrim
          | unfold Entity.validate_linkType; simpl; by rewrite Hlink ].
Qed.

(** After a create that answered 201 the definition is found by its code,
    in any spelling, and a second create with that code is refused with
    400 and changes nothing. *)
Lemma createEntity_then_found db fresh now req db' entity :
  EC.createEntity db fresh now req = (db', json 201 (EntityData entity)) ->
  (forall spelling,
     toUpperCase spelling = Entity.code entity ->
     EH.getEntityByCode db' spelling = json 200 (EntityData entity))
  /\ (forall fresh' now' req',
        EC.code (EC.create_body req') = EC.code (EC.create_body req) ->
        exists b,
          EC.createEntity db' fresh' now' req' = (db', json 400 b)).
Proof.
  intros (code & name & Hcode & _ & Hpattern & _ & Hnone & Hfresh & -> & _
          & _ & _ & Hentity)%createEntity_done.
  assert (Entity.code entity = code) as Hstored by by rewrite Hentity.
  assert (Entity_findOne (set_entities (insert fresh entity) db) code
          = Some entity) as Hfound.
  { apply (Entity_findOne_unique _ _ fresh); [apply lookup_insert_eq|done|].
    intros j e'. simpl. destruct (decide (fresh = j)) as [<-|Hne].
    - rewrite lookup_insert_eq. by intros [= <-].
    - rewrite lookup_insert_ne by done. intros Hj Hcode'.
      rewrite Entity_findOne_None in Hnone. by destruct (Hnone j e' Hj). }
  split.
  - intros spelling Hspelling. unfold EH.getEntityByCode.
    by rewrite Hspelling, Hstored, Hfound.
  - intros fresh' now' req' Hsame. unfold EC.createEntity.
    destruct (EC.create_checks _); [|by eexists].
    rewrite Hsame, Hcode.
    destruct (String.eqb_spec code "") as [->|_]; [done|]. simpl.
    rewrite (code_pattern_upper code Hpattern), Hfound. by eexists.
Qed.

Lemma required_defined_None props fields :
  Entity.required_defined props fields = None ->
  forall field, field ∈ fields -> truthy (js_get props field) = true.
Proof.
  induction fields as [|f fields IH]; simpl; intros Hnone field Hin.
  - by apply not_elem_of_nil in Hin.
  - destruct (truthy (js_get props f)) eqn:Hf; [|done]. simpl in Hnone.
    apply elem_of_cons in Hin as [->|Hin]; [done|]. by apply IH.
Qed.

(** A schema that passes the validate hook declares each of its required
    fields. *)
Lemma pre_validate_None s :
  Entity.pre_validate s = None ->
  forall field,
    field ∈ default [] (Entity.required s) ->
    truthy (js_get (default (JObj []) (Entity.properties s)) field) = true.
Proof.
  unfold Entity.pre_validate.
  destruct (negb (typeof_object _)); [done|].
  destruct (default (JObj []) (Entity.properties s)) eqn:Hprops;
    try apply required_defined_None.
  destruct (default [] (Entity.required s)); [|done].
  intros _ field Hin. by apply not_elem_of_nil in Hin.
Qed.

Lemma pre_validate_schema_with_defaults s :
  Entity.pre_validate (Entity.schema_with_defaults s) = Entity.pre_validate s.
Proof. reflexivity. Qed.


(** What an update that answers 200 has done. *)
Lemma updateEntity_done db now req db' updated :
  EC.updateEntity db now req = (db', json 200 (EntityData updated)) ->
  exists entity config,
    ObjectId_isValid (EC.update_id req) = true
    /\ entities db !! toLowerCase (EC.update_id req) = Some entity
    /\ db' = set_entities (insert (Entity._id entity) updated) db
    /\ Entity._id updated = Entity._id entity
    /\ Entity.schemaDefinition updated
       = default (Entity.schemaDefinition entity)
           (Entity.u_schemaDefinition (EC.update_body req))
    /\ Entity.derivedRecordConfig updated
       = default (Entity.derivedRecordConfig entity) config
    /\ (Entity.createdBy updated, Entity.createdAt updated)
       = (Entity.createdBy entity, Entity.createdAt entity).
Proof.
  unfold EC.updateEntity.
  destruct (EC.update_checks _); [|done].
  unfold Entity_findById_param.
  destruct (ObjectId_isValid (EC.update_id req)) eqn:Hid; [|done].
  destruct (entities db !! toLowerCase (EC.update_id req)) as [entity|]
    eqn:Hentity; [|done].
  destruct (_ && _); [done|]. destruct (_ && _); [done|].
  assert (Entity.u_schemaDefinition
            (if truthy (Entity.u_code (EC.update_body req))
             then EC.delete_code (EC.update_body req)
             else EC.update_body req)
          = Entity.u_schemaDefinition (EC.update_body req)) as Hschema
    by by destruct (truthy _).
  revert Hschema.
  generalize (if truthy (Entity.u_code (EC.update_body req))
              then EC.delete_code (EC.update_body req)
              else EC.update_body req) as body.
  intros body Hschema.
  unfold Entity_findByIdAndUpdate.
  destruct (Entity.pre_findOneAndUpdate _); [done|].
  rewrite Hid. simpl.
  match goal with
  | |- match match ?c with _ => _ end with _ => _ end = _ -> _ =>
      destruct c as [code'|es|m]
  end;
    [|by destruct (Entity.u_derivedRecordConfig body) as [c|];
         [destruct (Entity.cast_config c)|]..].
  match goal with
  | |- match match ?c with _ => _ end with _ => _ end = _ -> _ =>
      destruct c as [config|es|m]; [|done..]
  end.
  destruct (Entity.update_validators _ _); [|done].
  rewrite Hentity.
  destruct (_ && _); [done|].
  intros [= <- <-]. exists entity, config.
  split_and!; try done.
  simpl. by rewrite Hschema.
Qed.

(** A definition whose stored schema requires a field that its properties,
    a plain object, do not declare cannot be toggled: the save runs the
    validate hook of the model, whose error is answered 500, and nothing
    is written.  (An update can store such a schema: it does not run the
    hook.) *)
Lemma toggleEntityActivation_needs_schema db now id e field :
  ObjectId_isValid id = true ->
  entities db !! toLowerCase id = Some e ->
  plain_object (Entity.schema_properties e) = true ->
  own_name field = true ->
  field ∈ Entity.schema_required e ->
  truthy (js_get (Entity.schema_properties e) field) = false ->
  EH.toggleEntityActivation db now id
  = (db, crash "Server error while toggling entity activation").
Proof.
  intros Hid He _ _ Hfield Hundeclared.
  unfold EH.toggleEntityActivation, Entity_findById_param. rewrite Hid, He.
  unfold Entity_save.
  rewrite (pre_validate_schema_with_defaults (Entity.schemaDefinition e)
           : Entity.pre_validate
               (Entity.schemaDefinition (Entity_set_entityActive _ e)) = _).
  destruct (Entity.pre_validate (Entity.schemaDefinition e)) eqn:Hhook;
    [done|].
  pose proof (pre_validate_None _ Hhook field Hfield) as Hdeclared.
  unfold Entity.schema_properties in Hundeclared. congruence.
Qed.

(** What a toggle of a definition that answers 200 has done. *)
Lemma toggleEntityActivation_done db now id db' a :
  EH.toggleEntityActivation db now id = (db', reply 200 a) ->
  exists e,
    ObjectId_isValid id = true
    /\ entities db !! toLowerCase id = Some e
    /\ Entity.pre_validate (Entity.schemaDefinition e) = None
    /\ Entity.validate_code (Some (Entity.code e)) = []
    /\ Entity.validate_name (Some (Entity.name e)) = []
    /\ Entity.validate_linkType (Some (Entity.hierarchy_linkType e)) = []
    /\ db' = set_entities
               (insert (Entity._id e)
                  (Entity_saved now e
                     (Entity_set_entityActive
                        (negb (Entity.activation_entityActive e)) e)))
               db
    /\ a = EntityToggled (Entity._id e) (Entity.code e)
             (negb (Entity.activation_entityActive e)).
Proof.
  unfold EH.toggleEntityActivation, Entity_findById_param.
  destruct (ObjectId_isValid id); [|done].
  destruct (entities db !! toLowerCase id) as [e|]; [|done].
  unfold Entity_save.
  rewrite (pre_validate_schema_with_defaults (Entity.schemaDefinition e)
           : Entity.pre_validate
               (Entity.schemaDefinition (Entity_set_entityActive _ e)) = _).
  destruct (Entity.pre_validate _) eqn:Hhook; [done|].
  change (Entity.code (Entity_set_entityActive _ e)) with (Entity.code e).
  change (Entity.name (Entity_set_entityActive _ e)) with (Entity.name e).
  change (Entity.Hierarchy.linkType
            (Entity.hierarchy
               (Entity.derivedRecordConfig (Entity_set_entityActive _ e))))
    with (Some (Entity.hierarchy_linkType e)).
  destruct (Entity.validate_code _) eqn:Hcode; [|done].
  destruct (Entity.validate_name _) eqn:Hname; [|done].
  destruct (Entity.validate_linkType _) eqn:Hlink; [|done].
  rewrite String.eqb_refl. cbn [app negb Entity_pre_save].
  intros [= <- <-]. exists e. split_and!; done.
Qed.

Lemma toggleEntityActivation_succeeds db now id e :
  ObjectId_isValid id = true ->
  entities db !! toLowerCase id = Some e ->
  Entity.pre_validate (Entity.schemaDefinition e) = None ->
  Entity.validate_code (Some (Entity.code e)) = [] ->
  Entity.validate_name (Some (Entity.name e)) = [] ->
  Entity.validate_linkType (Some (Entity.hierarchy_linkType e)) = [] ->
  EH.toggleEntityActivation db now id
  = (set_entities
       (insert (Entity._id e)
          (Entity_saved now e
             (Entity_set_entityActive
                (negb (Entity.activation_entityActive e)) e)))
       db,
     reply 200
       (EntityToggled (Entity._id e) (Entity.code e)
          (negb (Entity.activation_entityActive e)))).
Proof.
  intros Hid He Hhook Hcode Hname Hlink.
  unfold EH.toggleEntityActivation, Entity_findById_param.
  rewrite Hid, He. unfold Entity_save.
  rewrite (pre_validate_schema_with_defaults (Entity.schemaDefinition e)
           : Entity.pre_validate
               (Entity.schemaDefinition (Entity_set_entityActive _ e)) = _).
  rewrite Hhook.
  change (Entity.code (Entity_set_entityActive _ e)) with (Entity.code e).
  change (Entity.name (Entity_set_entityActive _ e)) with (Entity.name e).
  change (Entity.Hierarchy.linkType
            (Entity.hierarchy
               (Entity.derivedRecordConfig (Entity_set_entityActive _ e))))
    with (Some (Entity.hierarchy_linkType e)).
  rewrite Hcode, Hname, Hlink, String.eqb_refl. reflexivity.
Qed.

(** What a toggle of a definition that answers 200 has done: the
    definition stored under the id reads the opposite [entityActive] and
    the time of the request as [updatedAt]; every other setting reads as
    before, and no record is touched. *)
Lemma toggleEntityActivation_flips db now id db' a :
  EH.toggleEntityActivation db now id = (db', reply 200 a) ->
  entityRecords db' = entityRecords db
  /\ exists e e',
       entities db !! toLowerCase id = Some e
       /\ entities db' !! Entity._id e = Some e'
       /\ a = EntityToggled (Entity._id e) (Entity.code e)
                (Entity.activation_entityActive e')
       /\ Entity.activation_entityActive e'
          = negb (Entity.activation_entityActive e)
       /\ Entity.updatedAt e' = now
       /\ (Entity.activation_enabled e', Entity.activation_defaultState e',
           Entity.activation_useTimeBounding e')
          = (Entity.activation_enabled e, Entity.activation_defaultState e,
             Entity.activation_useTimeBounding e)
       /\ (Entity.versioning_enabled e', Entity.hierarchy_enabled e',
           Entity.hierarchy_parentLinkField e', Entity.hierarchy_linkType e')
          = (Entity.versioning_enabled e, Entity.hierarchy_enabled e,
             Entity.hierarchy_parentLinkField e, Entity.hierarchy_linkType e)
       /\ (Entity.schema_properties e', Entity.schema_required e')
          = (Entity.schema_properties e, Entity.schema_required e)
       /\ (Entity._id e', Entity.code e', Entity.name e',
           Entity.description e', Entity.createdBy e', Entity.createdAt e')
          = (Entity._id e, Entity.code e, Entity.name e,
             Entity.description e, Entity.createdBy e, Entity.createdAt e).
Proof.
  intros (e & _ & He & _ & _ & _ & _ & -> & ->)%toggleEntityActivation_done.
  split; [reflexivity|]. exists e. eexists.
  split; [exact He|]. split; [apply lookup_insert_eq|].
  split_and!; reflexivity.
Qed.

Lemma entityActive_saved now e e' v :
  Entity.activation_entityActive
    (Entity_saved now e (Entity_set_entityActive v e')) = v.
Proof. reflexivity. Qed.

(** Two toggles in a row restore the flag: the second one answers 200 with
    the value the definition read at first. *)
Lemma toggleEntityActivation_twice db now now' id db1 a1 e :
  keyed db ->
  entities db !! toLowerCase id = Some e ->
  EH.toggleEntityActivation db now id = (db1, reply 200 a1) ->
  exists db2 e2,
    EH.toggleEntityActivation db1 now' id
    = (db2, reply 200
              (EntityToggled (Entity._id e) (Entity.code e)
                 (Entity.activation_entityActive e)))
    /\ entities db2 !! toLowerCase id = Some e2
    /\ Entity.activation_entityActive e2 = Entity.activation_entityActive e.
Proof.
  intros [Hkeyed _] He
    (e0 & Hid & He0 & Hhook & Hcode & Hname & Hlink & -> & _)%toggleEntityActivation_done.
  rewrite He in He0. injection He0 as <-.
  pose proof (Hkeyed _ _ He) as Hkey.
  set (e1 := Entity_saved now e
               (Entity_set_entityActive
                  (negb (Entity.activation_entityActive e)) e)).
  set (db1 := set_entities (insert (Entity._id e) e1) db).
  assert (entities db1 !! toLowerCase id = Some e1) as He1
    by (simpl; rewrite Hkey; apply lookup_insert_eq).
  rewrite (toggleEntityActivation_succeeds db1 now' id e1 Hid He1);
    [|exact Hhook|exact Hcode|exact Hname|].
  2: { unfold e1, Entity.hierarchy_linkType. simpl.
       exact Hlink. }
  clear He1. subst db1 e1.
  rewrite !entityActive_saved, negb_involutive.
  eexists _, _. split_and!; [reflexivity|..].
  - simpl. rewrite Hkey. apply lookup_insert_eq.
  - apply entityActive_saved.
Qed.

(** Deleting a definition deletes nothing else: its records stay in the
    store as they are.  A read of such a record is answered 200 under the
    name 'Unknown'; its history is answered 404 and a toggle of its
    activation 400. *)
Lemma deleteEntity_orphans `{Host} db id db' a :
  EH.deleteEntity db id = (db', reply 200 a) ->
  entities db' = delete (toLowerCase id) (entities db)
  /\ entityRecords db' = entityRecords db
  /\ EH.getEntityById db' id = json 404 (Fail "Entity not found")
  /\ forall now req r,
       ObjectId_isValid (ERC.id req) = true ->
       EntityRecord_findOne db (ERC.id req) (toUpperCase (ERC.entityCode req))
       = Some r ->
       EntityRecord.entityId r = Some (toLowerCase id) ->
       RH.getEntityRecordById db' req = json 200 (RecordData "Unknown" r)
       /\ ERC.getEntityRecordVersions db' req
          = json 404 (Fail "Parent entity definition not found")
       /\ RH.toggleEntityRecordActivation db' now req
          = (db', refuse 400 "Activation is not enabled for this entity type").
Proof.
  unfold EH.deleteEntity, Entity_findById_param.
  destruct (ObjectId_isValid id) eqn:Hid; [|done].
  destruct (entities db !! toLowerCase id); [|done].
  intros [= <- _]. split_and!; try reflexivity.
  - unfold EH.getEntityById, Entity_findById_param. rewrite Hid. simpl.
    by rewrite lookup_delete_eq.
  - intros now req r Hvalid Hr Hparent.
    unfold RH.getEntityRecordById, ERC.getEntityRecordVersions,
      RH.toggleEntityRecordActivation.
    rewrite Hvalid. simpl.
    change (EntityRecord_findOne
              (set_entities (delete (toLowerCase id)) db))
      with (EntityRecord_findOne db).
    rewrite Hr. unfold Entity_findById. rewrite Hparent. simpl.
    by rewrite lookup_delete_eq.
Qed.

(** ** The list of definitions *)

#[global] Instance entity_newest_first_total : Total EH.newest_first.
Proof. intros a b. unfold EH.newest_first. lia. Qed.

Lemma paginate_shorter {A} skip limit (l page : list A) :
  ERC.paginate skip limit l = Some page -> (length page <= length l)%nat.
Proof.
  unfold ERC.paginate. destruct skip as [s|], limit as [n|]; try done.
  destruct (s <? 0)%Z; [done|]. intros [= <-].
  destruct (n =? 0)%Z; rewrite ?length_take, length_drop; lia.
Qed.

(** A page of the list of definitions: every entry is the list view of a
    stored definition; under an [active] filter the stored definition
    carries the flag itself, with the value asked for, so a definition
    that lacks the stored flag is in neither filtered list; the page is
    ordered by creation time, newest first; the counts are those of the
    page and of the matching definitions. *)
Lemma getEntities_page `{Host} db q page :
  EH.getEntities db q = Some page ->
  Forall (fun l =>
            exists i e,
              entities db !! i = Some e
              /\ l = EH.select e
              /\ (defined (EH.active q) = true ->
                  Entity.Activation.entityActive
                    (Entity.activation (Entity.derivedRecordConfig e))
                  = Some (js_eqb (EH.active q) (JStr "true"))))
    (EH.data page)
  /\ Sorted (fun a b => (EH.l_createdAt b <= EH.l_createdAt a)%Z)
       (EH.data page)
  /\ EH.count page = length (EH.data page)
  /\ (EH.count page <= EH.total page <= size (entities db))%nat.
Proof.
  unfold EH.getEntities.
  set (found := EH.Entity_find db (EH.list_filter (EH.active q) (EH.search q))).
  assert (forall skip limit entries,
            ERC.paginate skip limit (EH.select <$> merge_sort EH.newest_first found)
            = Some entries ->
            Forall (fun l =>
                      exists i e,
                        entities db !! i = Some e
                        /\ l = EH.select e
                        /\ (defined (EH.active q) = true ->
                            Entity.Activation.entityActive
                              (Entity.activation (Entity.derivedRecordConfig e))
                            = Some (js_eqb (EH.active q) (JStr "true"))))
              entries
            /\ Sorted (fun a b => (EH.l_createdAt b <= EH.l_createdAt a)%Z)
                 entries
            /\ (length entries <= length found <= size (entities db))%nat)
    as Hpage.
  { intros skip limit entries Hentries. split_and!.
    - apply Forall_forall. intros l Hl.
      eapply paginate_elem in Hl; [|exact Hentries].
      apply list_elem_of_fmap in Hl as (e & -> & He).
      rewrite merge_sort_Permutation in He. unfold found, EH.Entity_find in He.
      apply list_elem_of_filter in He as [Hcond He].
      apply list_elem_of_fmap in He as ([i e'] & -> & He).
      apply elem_of_map_to_list in He. exists i, e'. split_and!; [done..|].
      intros Hactive. unfold EH.list_filter in Hcond. rewrite Hactive in Hcond.
      apply andb_prop in Hcond as [Hflag _].
      by apply bool_decide_eq_true in Hflag.
    - eapply paginate_Sorted; [exact Hentries|].
      apply (Sorted_fmap _ EH.newest_first); [by intros ???|].
      apply (Sorted_merge_sort EH.newest_first).
    - apply paginate_shorter in Hentries.
      by rewrite length_fmap, merge_sort_Permutation in Hentries.
    - unfold found, EH.Entity_find.
      etrans; [apply length_filter|].
      by rewrite length_fmap, length_map_to_list. }
  destruct (EH.search q) as [ | | [] | [] | | | | | ]; try done;
    (match goal with
     | |- context [ERC.paginate ?s ?l ?xs] =>
         destruct (ERC.paginate s l xs) as [entries|] eqn:Hentries; [|done]
     end;
     destruct (Hpage _ _ _ Hentries) as (? & ? & ? & ?);
     intros [= <-]; by split_and!).
Qed.

(** ** Documents and their ids *)

Lemma keyed_insert_entity db i e :
  keyed db -> Entity._id e = i -> keyed (set_entities (insert i e) db).
Proof.
  intros [He Hr] Hid. split; [|exact Hr]. intros j e'. simpl.
  destruct (decide (i = j)) as [<-|Hne].
  - rewrite lookup_insert_eq. by intros [= <-].
  - rewrite lookup_insert_ne by done. apply He.
Qed.

Lemma keyed_insert_record db i r :
  keyed db -> EntityRecord._id r = i -> keyed (set_entityRecords (insert i r) db).
Proof.
  intros [He Hr] Hid. split; [exact He|]. intros j r'. simpl.
  destruct (decide (i = j)) as [<-|Hne].
  - rewrite lookup_insert_eq. by intros [= <-].
  - rewrite lookup_insert_ne by done. apply Hr.
Qed.

Lemma keyed_delete_entity db i : keyed db -> keyed (set_entities (delete i) db).
Proof.
  intros [He Hr]. split; [|exact Hr]. intros k e. simpl.
  intros [_ ?]%lookup_delete_Some. eauto.
Qed.

Lemma keyed_delete_record db i :
  keyed db -> keyed (set_entityRecords (delete i) db).
Proof.
  intros [He Hr]. split; [exact He|]. intros k r. simpl.
  intros [_ ?]%lookup_delete_Some. eauto.
Qed.

(** What each writing handler does to the store: nothing, or one insert
    under an [_id]. *)
Lemma createEntity_cases db fresh now req :
  (EC.createEntity db fresh now req).1 = db
  \/ exists e,
       Entity._id e = fresh
       /\ (EC.createEntity db fresh now req).1
          = set_entities (insert fresh e) db.
Proof.
  unfold EC.createEntity.
  destruct (EC.create_checks _); [|by left].
  destruct (_ ≫= _); [by left|].
  unfold Entity_create, Entity.build.
  destruct (Entity.pre_validate _); [by left|].
  match goal with
  | |- context [match ?l with [] => _ | _ :: _ => _ end] =>
      destruct l; [|by left]
  end.
  match goal with
  | |- context [if ?b then Thrown _ else _] => destruct b; [by left|]
  end.
  right. eexists. split; [|simpl; reflexivity]. reflexivity.
Qed.

Lemma updateEntity_cases db now req :
  (EC.updateEntity db now req).1 = db
  \/ exists entity updated,
       entities db !! toLowerCase (EC.update_id req) = Some entity
       /\ Entity._id updated = Entity._id entity
       /\ (EC.updateEntity db now req).1
          = set_entities (insert (Entity._id entity) updated) db.
Proof.
  destruct (EC.updateEntity db now req) as [db' [code b]] eqn:Hupdate.
  assert ((code = 200%nat /\ exists updated, b = EntityData updated)
          \/ db' = db) as [[-> [updated ->]]| ->]; [|right|by left].
  - revert Hupdate. unfold EC.updateEntity.
    destruct (EC.update_checks _); [|intros [= <- _]; by right].
    destruct (Entity_findById_param _ _) as [[entity|]|es|m];
      [|intros [= <- _]; by right..].
    destruct (_ && _); [intros [= <- _]; by right|].
    destruct (_ && _); [intros [= <- _]; by right|].
    destruct (Entity_findByIdAndUpdate _ _ _ _) as [[db'' [updated|]]|es|m];
      [|intros [= <- _]; by right..].
    intros [= _ <- <-]. left. eauto.
  - apply updateEntity_done in Hupdate
      as (entity & config & _ & Hentity & -> & Hid & _).
    by exists entity, updated.
Qed.

Lemma toggleEntityActivation_cases db now id :
  (EH.toggleEntityActivation db now id).1 = db
  \/ exists e e',
       entities db !! toLowerCase id = Some e
       /\ Entity._id e' = Entity._id e
       /\ (EH.toggleEntityActivation db now id).1
          = set_entities (insert (Entity._id e) e') db.
Proof.
  unfold EH.toggleEntityActivation, Entity_findById_param.
  destruct (ObjectId_isValid id); [|by left].
  destruct (entities db !! toLowerCase id) as [e|]; [|by left].
  unfold Entity_save.
  destruct (Entity.pre_validate _); [by left|].
  match goal with
  | |- context [match ?l with [] => _ | _ :: _ => _ end] =>
      destruct l; [|by left]
  end.
  destruct (Entity_pre_save _ _); [by left|].
  right. eexists _, _. split_and!; [reflexivity| |simpl; reflexivity].
  reflexivity.
Qed.

Lemma toggleEntityRecordActivation_cases `{Host} db now req :
  (RH.toggleEntityRecordActivation db now req).1 = db
  \/ exists r r',
       entityRecords db !! toLowerCase (ERC.id req) = Some r
       /\ EntityRecord._id r' = EntityRecord._id r
       /\ (RH.toggleEntityRecordActivation db now req).1
          = set_entityRecords (insert (EntityRecord._id r) r') db.
Proof.
  unfold RH.toggleEntityRecordActivation, EntityRecord_findOne.
  destruct (negb _); [by left|].
  destruct (entityRecords db !! toLowerCase (ERC.id req)) as [r|]; [|by left].
  case_bool_decide; [|by left].
  destruct (Entity_findById _ _); [|by left].
  destruct (negb _); [by left|].
  unfold EntityRecord_save. rewrite flip_eq.
  destruct (EntityRecord.validate _); [|by left].
  right. eexists _, _. split_and!; [reflexivity| |simpl; reflexivity].
  reflexivity.
Qed.

(** Every handler keeps the documents of the store under their own
    [_id]: a create inserts under the new [_id], an update and the two
    toggles write a document back where it was read, the deletes only
    delete, and the two write handlers of records write nothing. *)
Lemma handlers_keep_keyed `{Host} db :
  keyed db ->
  (forall fresh now req, keyed (EC.createEntity db fresh now req).1)
  /\ (forall now req, keyed (EC.updateEntity db now req).1)
  /\ (forall now id, keyed (EH.toggleEntityActivation db now id).1)
  /\ (forall id, keyed (EH.deleteEntity db id).1)
  /\ (forall now req, keyed (RH.toggleEntityRecordActivation db now req).1)
  /\ (forall req, keyed (RH.deleteEntityRecord db req).1)
  /\ (forall fresh now req, keyed (ERC.createEntityRecord db fresh now req).1)
  /\ (forall now req, keyed (ERC.updateEntityRecord db now req).1).
Proof.
  intros Hkeyed. split_and!.
  - intros fresh now req.
    destruct (createEntity_cases db fresh now req) as [->|(e & Hid & ->)];
      [done|by apply keyed_insert_entity].
  - intros now req.
    destruct (updateEntity_cases db now req) as [->|(e & e' & _ & Hid & ->)];
      [done|by apply keyed_insert_entity].
  - intros now id.
    destruct (toggleEntityActivation_cases db now id)
      as [->|(e & e' & _ & Hid & ->)];
      [done|by apply keyed_insert_entity].
  - intros id. unfold EH.deleteEntity.
    destruct (Entity_findById_param _ _) as [[e|]|es|m]; try done.
    by apply keyed_delete_entity.
  - intros now req.
    destruct (toggleEntityRecordActivation_cases db now req)
      as [->|(r & r' & _ & Hid & ->)];
      [done|by apply keyed_insert_record].
  - intros req. unfold RH.deleteEntityRecord.
    destruct (negb _); [done|].
    destruct (EntityRecord_findOne _ _ _); [|done].
    by apply keyed_delete_record.
  - intros fresh now req. by rewrite createEntityRecord_db.
  - intros now req. by rewrite updateEntityRecord_db.
Qed.

(** An update writes nothing but the definition stored under the id of
    the request: the records and every other definition stay as they are,
    and the definition keeps its [_id]. *)
Lemma updateEntity_frame db now req j :
  keyed db ->
  j <> toLowerCase (EC.update_id req) ->
  let db' := (EC.updateEntity db now req).1 in
  entityRecords db' = entityRecords db
  /\ entities db' !! j = entities db !! j
  /\ (Entity._id <$> entities db' !! toLowerCase (EC.update_id req))
     = (Entity._id <$> entities db !! toLowerCase (EC.update_id req)).
Proof.
  intros [Hkeyed _] Hj db'. subst db'.
  destruct (updateEntity_cases db now req)
    as [->|(e & e' & He & Hid & ->)]; [done|].
  simpl. rewrite (Hkeyed _ _ He).
  rewrite lookup_insert_ne by done. rewrite lookup_insert_eq, He. simpl.
  by rewrite Hid.
Qed.

(** ** Ids that are not ObjectIds *)

(** The record handlers check the form of the id and answer 400; the
    handlers of definitions hand the id to the store, whose cast error
    they answer with 500.  Nothing is written either way. *)
Lemma malformed_id `{Host} db now id :
  ObjectId_isValid id = false ->
  (forall req,
     ERC.id req = id ->
     RH.getEntityRecordById db req = json 400 (Fail "Invalid ID format")
     /\ ERC.getEntityRecordVersions db req = json 400 (Fail "Invalid ID format")
     /\ RH.toggleEntityRecordActivation db now req
        = (db, refuse 400 "Invalid ID format")
     /\ RH.deleteEntityRecord db req = (db, refuse 400 "Invalid ID format")
     /\ (ERC.update_checks (ERC.body req) = [] ->
         ERC.updateEntityRecord db now req
         = (db, json 400 (Fail "Invalid ID format"))))
  /\ EH.getEntityById db id
     = json 500 (ServerError "Server error while fetching entity")
  /\ EH.getEntitySchema db id
     = crash "Server error while fetching entity schema"
  /\ EH.toggleEntityActivation db now id
     = (db, crash "Server error while toggling entity activation")
  /\ EH.deleteEntity db id = (db, crash "Server error while deleting entity")
  /\ (forall req,
        EC.update_id req = id ->
        EC.update_checks (EC.update_body req) = [] ->
        EC.updateEntity db now req
        = (db, json 500 (ServerError "Server error while updating entity"))).
Proof.
  intros Hid. split_and!.
  - intros req <-.
    unfold RH.getEntityRecordById, ERC.getEntityRecordVersions,
      RH.toggleEntityRecordActivation, RH.deleteEntityRecord,
      ERC.updateEntityRecord.
    rewrite Hid. split_and!; try reflexivity. by intros ->.
  - unfold EH.getEntityById, Entity_findById_param. by rewrite Hid.
  - unfold EH.getEntitySchema, Entity_findById_param. by rewrite Hid.
  - unfold EH.toggleEntityActivation, Entity_findById_param. by rewrite Hid.
  - unfold EH.deleteEntity, Entity_findById_param. by rewrite Hid.
  - intros req <- Hchecks. unfold EC.updateEntity, Entity_findById_param.
    by rewrite Hchecks, Hid.
Qed.

(** ** Roles of a user *)

Lemma UserRole_findOne_Some s cond k ur :
  URC.UserRole_findOne s cond = Some (k, ur) ->
  URC.userRoles s !! k = Some ur /\ cond ur = true.
Proof.
  unfold URC.UserRole_findOne. intros Hhead%head_Some_elem_of.
  apply list_elem_of_filter in Hhead as [Hcond Hin].
  by apply elem_of_map_to_list in Hin.
Qed.

Lemma UserRole_findOne_None s cond :
  URC.UserRole_findOne s cond = None
  <-> forall k ur, URC.userRoles s !! k = Some ur -> cond ur = false.
Proof.
  split.
  - unfold URC.UserRole_findOne. rewrite head_None. intros Hnil k ur Hk.
    destruct (cond ur) eqn:Hcond; [|done].
    destruct (filter_nil_not_elem_of _ _ (k, ur) Hnil Hcond).
    by apply elem_of_map_to_list.
  - intros Hnone.
    destruct (URC.UserRole_findOne s cond) as [[k ur]|] eqn:Hfound; [|done].
    apply UserRole_findOne_Some in Hfound as [Hk Hcond].
    by rewrite (Hnone k ur Hk) in Hcond.
Qed.

(** What an assignment that answers 201 has done. *)
Lemma addRoleToUser_done s fresh now user role s' a :
  URC.addRoleToUser s fresh now user role = (s', (201%nat, a)) ->
  exists r u ro,
    role = Some r
    /\ URC.isMongoId r = true
    /\ ObjectId_isValid user = true
    /\ ObjectId_isValid r = true
    /\ URC.users s !! toLowerCase user = Some u
    /\ URC.roles s !! toLowerCase r = Some ro
    /\ URC.UserRole_findOne s (URC.assigns user r) = None
    /\ URC.userRoles s !! fresh = None
    /\ s' = URC.set_userRoles
              (insert fresh
                 {| URC.ur_id := fresh;
                    URC.userId := toLowerCase user;
                    URC.roleId := toLowerCase r;
                    URC.createdAt := now |})
              s
    /\ a = URC.Assigned user r (URC.username u) (URC.role_name ro).
Proof.
  unfold URC.addRoleToUser, URC.add_checks, URC.findById.
  destruct role as [r|]; [|done]. simpl.
  destruct (URC.isMongoId r) eqn:Hcheck; [|done].
  destruct (ObjectId_isValid user) eqn:Huser; [|done].
  destruct (URC.users s !! toLowerCase user) as [u|] eqn:Hu; [|done].
  destruct (ObjectId_isValid r) eqn:Hr; [|done].
  destruct (URC.roles s !! toLowerCase r) as [ro|] eqn:Hro; [|done].
  destruct (URC.UserRole_findOne _ _) eqn:Hnone; [done|].
  case_bool_decide as Hfresh; [done|].
  intros [= <- <-]. exists r, u, ro. split_and!; try done.
  by apply eq_None_not_Some.
Qed.

(** After an assignment that answered 201, the check of that role answers
    that the user has it, the list of the roles of the user carries it,
    and a second assignment of it is refused with 400 and changes
    nothing. *)
Lemma addRoleToUser_then_check s fresh now user role s' a :
  URC.addRoleToUser s fresh now user (Some role) = (s', (201%nat, a)) ->
  exists u ro,
    URC.users s !! toLowerCase user = Some u
    /\ URC.roles s !! toLowerCase role = Some ro
    /\ URC.checkUserRole s' user role
       = (200%nat, URC.HasRole true (URC.username u) (URC.role_name ro))
    /\ (exists n listed,
          URC.getUserRoles s' user = (200%nat, URC.Roles n listed)
          /\ Some ro ∈ listed)
    /\ forall fresh' now',
         URC.addRoleToUser s' fresh' now' user (Some role)
         = (s', (400%nat,
                 URC.Refused "Role is already assigned to this user")).
Proof.
  intros (r & u & ro & [= <-] & Hcheck & Huser & Hrole & Hu & Hro & _ & Hfresh
          & -> & _)%addRoleToUser_done.
  set (ur := {| URC.ur_id := fresh; URC.userId := toLowerCase user;
                URC.roleId := toLowerCase role; URC.createdAt := now |}).
  assert (is_Some (URC.UserRole_findOne (URC.set_userRoles (insert fresh ur) s)
                     (URC.assigns user role))) as Hfound.
  { apply not_eq_None_Some. rewrite UserRole_findOne_None. intros Hnone.
    specialize (Hnone fresh ur). simpl in Hnone.
    rewrite lookup_insert_eq in Hnone. specialize (Hnone eq_refl).
    unfold URC.assigns in Hnone. simpl in Hnone.
    by rewrite !String.eqb_refl in Hnone. }
  exists u, ro. split_and!; [done|done|..].
  - unfold URC.checkUserRole, URC.findById. rewrite Huser, Hrole. simpl.
    rewrite Hu, Hro. by rewrite bool_decide_eq_true_2.
  - unfold URC.getUserRoles, URC.findById. rewrite Huser. simpl. rewrite Hu.
    eexists _, _. split; [reflexivity|].
    apply list_elem_of_fmap. exists ur.
    split; [unfold ur; simpl; by rewrite Hro|].
    unfold URC.UserRole_find. apply list_elem_of_filter. split; [done|].
    apply list_elem_of_fmap. exists (fresh, ur). split; [done|].
    apply elem_of_map_to_list. simpl. apply lookup_insert_eq.
  - intros fresh' now'. unfold URC.addRoleToUser, URC.add_checks, URC.findById.
    simpl. rewrite Hcheck, Hrole, Huser. simpl. rewrite Hu, Hro.
    by destruct Hfound as [? ->].
Qed.

(** With the unique index satisfied, after a removal that answered 200 the
    check of that role answers that the user does not have it, and a
    second removal is answered 404. *)
Lemma removeRoleFromUser_then_check s user role s' a :
  URC.unique_assignments s ->
  URC.removeRoleFromUser s user role = (s', (200%nat, a)) ->
  (exists u ro,
     URC.checkUserRole s' user role
     = (200%nat, URC.HasRole false (URC.username u) (URC.role_name ro)))
  /\ URC.removeRoleFromUser s' user role
     = (s', (404%nat, URC.Refused "Role is not assigned to this user"))
  /\ URC.users s' = URC.users s
  /\ URC.roles s' = URC.roles s.
Proof.
  intros Hunique. unfold URC.removeRoleFromUser, URC.checkUserRole, URC.findById.
  destruct (ObjectId_isValid user) eqn:Huser; [|done].
  destruct (URC.users s !! toLowerCase user) as [u|] eqn:Hu; [|done].
  destruct (ObjectId_isValid role) eqn:Hrole; [|done].
  destruct (URC.roles s !! toLowerCase role) as [ro|] eqn:Hro; [|done].
  destruct (URC.UserRole_findOne s _) as [[k ur]|] eqn:Hfound; [|done].
  intros [= <- _]. simpl. rewrite Hu, Hro.
  apply UserRole_findOne_Some in Hfound as [Hk Hcond].
  assert (URC.UserRole_findOne (URC.set_userRoles (delete k) s)
            (URC.assigns user role) = None) as ->.
  { apply UserRole_findOne_None. intros k' ur'. simpl.
    intros [Hne Hk']%lookup_delete_Some.
    destruct (URC.assigns user role ur') eqn:Hcond'; [|done].
    destruct Hne. apply (Hunique k ur Hk k' ur' Hk');
      unfold URC.assigns in Hcond, Hcond';
      apply andb_prop in Hcond as [Hu1%String.eqb_eq Hr1%String.eqb_eq];
      apply andb_prop in Hcond' as [Hu2%String.eqb_eq Hr2%String.eqb_eq];
      congruence. }
  split_and!; try done. exists u, ro.
  by rewrite bool_decide_eq_false_2 by by intros [? ?].
Qed.

(** The two writing handlers keep the unique index satisfied: an
    assignment is inserted only when no stored assignment carries the same
    user and role. *)
Lemma unique_assignments_kept s :
  URC.unique_assignments s ->
  (forall fresh now user role,
     URC.unique_assignments (URC.addRoleToUser s fresh now user role).1)
  /\ (forall user role,
        URC.unique_assignments (URC.removeRoleFromUser s user role).1).
Proof.
  intros Hunique. split.
  - intros fresh now user role.
    destruct (URC.addRoleToUser s fresh now user role) as [s' [code a]]
      eqn:Hadd.
    destruct (decide (code = 201%nat)) as [->|Hcode].
    + apply addRoleToUser_done in Hadd
        as (r & u & ro & -> & _ & _ & _ & _ & _ & Hnone & Hfresh & -> & _).
      rewrite UserRole_findOne_None in Hnone.
      assert (forall k ur,
                URC.userRoles s !! k = Some ur ->
                URC.userId ur = toLowerCase user ->
                URC.roleId ur = toLowerCase r -> False) as Hnew.
      { intros k ur Hk Hu Hr. specialize (Hnone k ur Hk).
        unfold URC.assigns in Hnone.
        by rewrite Hu, Hr, !String.eqb_refl in Hnone. }
      intros k1 a1 Hk1 k2 a2 Hk2. simpl in Hk1, Hk2. revert Hk1 Hk2.
      destruct (decide (fresh = k1)) as [<-|Hne1],
        (decide (fresh = k2)) as [<-|Hne2]; [done|..];
        rewrite ?lookup_insert_eq, ?lookup_insert_ne by done.
      * intros [= <-] Hk2 Hu Hr. simpl in *. by destruct (Hnew k2 a2 Hk2).
      * intros Hk1 [= <-] Hu Hr. simpl in *. by destruct (Hnew k1 a1 Hk1).
      * intros Hk1 Hk2. by apply (Hunique k1 a1 Hk1 k2 a2 Hk2).
    + revert Hadd. unfold URC.addRoleToUser.
      destruct (URC.add_checks _); [|by intros [= <- _]].
      destruct (URC.findById _ _) as [[u|]|es|m]; [|by intros [= <- _]..].
      destruct (URC.findById _ _) as [[ro|]|es|m]; [|by intros [= <- _]..].
      destruct (URC.UserRole_findOne _ _); [by intros [= <- _]|].
      destruct (bool_decide _); [by intros [= <- _]|].
      by intros [= _ <- _].
  - intros user role. unfold URC.removeRoleFromUser.
    destruct (URC.findById _ _) as [[u|]|es|m]; try done.
    destruct (URC.findById _ _) as [[ro|]|es|m]; try done.
    destruct (URC.UserRole_findOne _ _) as [[k ur]|]; [|done].
    intros k1 a1 Hk1 k2 a2 Hk2. simpl in Hk1, Hk2.
    apply lookup_delete_Some in Hk1 as [_ Hk1].
    apply lookup_delete_Some in Hk2 as [_ Hk2].
    by apply (Hunique k1 a1 Hk1 k2 a2 Hk2).
Qed.

(** * The properties on the scenario

    Each property above that rests on a condition is met on the data of
    the scenario. *)

Ltac computed := vm_compute; reflexivity.
Ltac decided := apply (bool_decide_unpack _); vm_compute; exact I.

(** ACME001 is served under CUSTOMER. *)
Lemma getEntityRecordById_scope_acme :
  let db := Scenario.db_acme in
  let req := Scenario.versions_acme in
  status (RH.getEntityRecordById db req) = 200%nat
  <-> ObjectId_isValid (ERC.id req) = true
      /\ exists r,
           entityRecords db !! toLowerCase (ERC.id req) = Some r
           /\ EntityRecord.entityCode r = Some (toUpperCase (ERC.entityCode req))
           /\ exists name,
                body (RH.getEntityRecordById db req) = RecordData name r.
Proof.
  intros db req.
  apply (getEntityRecordById_scope db req).
  reflexivity.
Defined.

(** The default listing of the history of ACME001 is its current
    revision. *)
Lemma getEntityRecords_page_history :
  let db := Cases.history in
  let req := Scenario.versions_acme in
  let page := listed (ERC.getEntityRecords (H := Scenario.host) db req) in
  let q := ERC.query req in
  page = [Cases.current]
  /\ Forall (fun r =>
               EntityRecord.entityCode r
               = Some (toUpperCase (ERC.entityCode req))
               /\ (exists i, entityRecords db !! i = Some r)
               /\ (defined (ERC.active q) = true ->
                   EntityRecord.isActive r
                   = Some (js_eqb (ERC.active q) (JStr "true"))))
       page
  /\ Sorted ERC.newest_first page
  /\ (forall n,
        parseInt (H := Scenario.host)
          (if defined (ERC.limit q) then ERC.limit q else JNum 20)
        = Some n ->
        n <> 0%Z -> (Z.of_nat (length page) <= Z.abs n)%Z).
Proof.
  intros db req page q. split; [computed|].
  apply (getEntityRecords_page (H := Scenario.host) db req).
  reflexivity.
Defined.


(** ACME001 is toggled to inactive. *)
Lemma toggleEntityRecordActivation_flips_acme :
  let db := Scenario.db_acme in
  let req := Scenario.versions_acme in
  let now := 3000%Z in
  let db' :=
    (RH.toggleEntityRecordActivation (H := Scenario.host) db now req).1 in
  entities db' = entities db
  /\ exists r r',
       entityRecords db !! toLowerCase (ERC.id req) = Some r
       /\ entityRecords db' !! EntityRecord._id r = Some r'
       /\ EntityRecord.isActive r'
          = Some (negb (default false (EntityRecord.isActive r)))
       /\ EntityRecord.updatedBy r' = Some (ERC.user req)
       /\ EntityRecord.updatedAt r' = Some now
       /\ EntityRecord.data r' = EntityRecord.data r
       /\ (EntityRecord.effectiveFrom r', EntityRecord.effectiveTo r')
          = (EntityRecord.effectiveFrom r, EntityRecord.effectiveTo r)
       /\ (EntityRecord.version r', EntityRecord.isCurrent r',
           EntityRecord.expiredAt r')
          = (EntityRecord.version r, EntityRecord.isCurrent r,
             EntityRecord.expiredAt r)
       /\ (EntityRecord._id r', EntityRecord.entityId r',
           EntityRecord.entityCode r')
          = (EntityRecord._id r, EntityRecord.entityId r,
             EntityRecord.entityCode r)
       /\ (EntityRecord.createdBy r', EntityRecord.createdAt r')
          = (EntityRecord.createdBy r, EntityRecord.createdAt r).
Proof.
  intros db req now db'.
  apply (toggleEntityRecordActivation_flips (H := Scenario.host) db now req db'
           (RecordToggled "Customer" Scenario.acme_id (Some false))).
  computed.
Defined.

(** Toggled twice, ACME001 is active again. *)
Lemma toggleEntityRecordActivation_twice_acme :
  let db := Scenario.db_acme in
  let req := Scenario.versions_acme in
  let r := Scenario.acme_v1 in
  let db1 :=
    (RH.toggleEntityRecordActivation (H := Scenario.host) db 3000 req).1 in
  exists db2 name,
    RH.toggleEntityRecordActivation (H := Scenario.host) db1 4000 req
    = (db2, reply 200 (RecordToggled name (EntityRecord._id r) (Some true)))
    /\ entityRecords db2 !! toLowerCase (ERC.id req)
       = Some (EntityRecord.with_timestamps (EntityRecord.createdAt r)
                 (Some 4000%Z)
                 (EntityRecord.with_updatedBy (Some (ERC.user req)) r)).
Proof.
  intros db req r db1.
  apply (toggleEntityRecordActivation_twice (H := Scenario.host) db 3000 4000
           req db1 (RecordToggled "Customer" Scenario.acme_id (Some false))
           r true).
  - decided.
  - computed.
  - reflexivity.
  - computed.
Defined.

(** ACME001 is deleted and gone. *)
Lemma deleteEntityRecord_gone_acme :
  let db := Scenario.db_acme in
  let req := Scenario.versions_acme in
  let db' := (RH.deleteEntityRecord db req).1 in
  db' = set_entityRecords (delete (toLowerCase (ERC.id req))) db
  /\ RH.getEntityRecordById db' req
     = json 404 (Fail "Entity record not found")
  /\ RH.deleteEntityRecord db' req
     = (db', refuse 404 "Entity record not found").
Proof.
  intros db req db'.
  apply (deleteEntityRecord_gone db req db' (RecordDeleted "Customer")).
  computed.
Defined.

(** Revision 2 of ACME001 is untouched by a toggle or a delete of
    revision 1. *)
Lemma toggle_delete_frame_history :
  let db := Cases.history in
  let req := Scenario.versions_acme in
  let j := Scenario.acme_id2 in
  let toggled :=
    (RH.toggleEntityRecordActivation (H := Scenario.host) db 4000 req).1 in
  let deleted := (RH.deleteEntityRecord db req).1 in
  entities toggled = entities db
  /\ entityRecords toggled !! j = entityRecords db !! j
  /\ entities deleted = entities db
  /\ entityRecords deleted !! j = entityRecords db !! j.
Proof.
  intros db req j.
  apply (toggle_delete_frame (H := Scenario.host) db 4000 req j).
  - decided.
  - decided.
Defined.

(** The current revision of ACME001 is part of the history asked for
    through the retired one. *)
Lemma getEntityRecordVersions_complete_history :
  Cases.current
    ∈ listed (ERC.getEntityRecordVersions Cases.history Scenario.versions_acme).
Proof.
  apply (getEntityRecordVersions_complete Cases.history Scenario.versions_acme
           Cases.retired Scenario.versioned Cases.acme_key
           Scenario.acme_id2 Cases.current).
  - reflexivity.
  - computed.
  - computed.
  - reflexivity.
  - decided.
  - computed.
  - computed.
  - reflexivity.
  - computed.
Defined.

(** A record of CUSTOMER whose payload lacks [customerCode] has no
    history. *)
Lemma getEntityRecordVersions_needs_required_nameless :
  ERC.getEntityRecordVersions Cases.db_nameless Scenario.versions_acme
  = json 400 (Fail "Cannot determine business key for versioning").
Proof.
  apply (getEntityRecordVersions_needs_required Cases.db_nameless
           Scenario.versions_acme Cases.nameless Scenario.versioned).
  - reflexivity.
  - computed.
  - computed.
  - reflexivity.
  - reflexivity.
  - reflexivity.
  - decided.
Defined.


(** ACME001 with a window from 2000 to 9000, saved by a toggle, keeps its
    window, which is ordered. *)
Lemma EntityRecord_save_window_bounded :
  let d :=
    EntityRecord.with_timestamps (Some 2000%Z) (Some 4000%Z)
      (EntityRecord.with_isActive (Some false) Cases.bounded) in
  EntityRecord.effectiveFrom d = Some 2000%Z
  /\ EntityRecord.effectiveTo d = Some 9000%Z
  /\ window_ordered d.
Proof.
  intros d. split_and!; [reflexivity..|].
  apply (EntityRecord_save_window Cases.db_bounded 4000 Cases.bounded
           (RH.flip (H := Scenario.host) Scenario.admin Cases.bounded)
           (Scenario.db_with Scenario.versioned [d]) d).
  computed.
Defined.

(** The assignments of an update of ACME001 that names a parent, under
    CUSTOMER with a hierarchy, keep revision 1. *)
Lemma assign_keeps_revision_child :
  let updated :=
    (ERC.assign (H := Scenario.host) Cases.hierarchical Cases.update_child
       Scenario.acme_v1).1 in
  EntityRecord._id updated = EntityRecord._id Scenario.acme_v1
  /\ EntityRecord.version updated = EntityRecord.version Scenario.acme_v1
  /\ EntityRecord.isCurrent updated = EntityRecord.isCurrent Scenario.acme_v1
  /\ EntityRecord.expiredAt updated = EntityRecord.expiredAt Scenario.acme_v1.
Proof.
  apply (assign_keeps_revision (H := Scenario.host) Cases.hierarchical
           Cases.update_child Scenario.acme_v1).
  - reflexivity.
  - decided.
  - decided.
Defined.

(** The document of a create that names a parent, under CUSTOMER with a
    hierarchy, is revision 1 of ACME001. *)
Lemma recordData_first_revision_child :
  let db := Scenario.db_with Cases.hierarchical [] in
  let db' := Scenario.db_with Cases.hierarchical [Scenario.acme_v1] in
  let d := Scenario.acme_v1 in
  let fresh := Scenario.acme_id in
  let now := 2000%Z in
  EntityRecord._id d = fresh
  /\ EntityRecord.version d = Some 1%Z
  /\ EntityRecord.isCurrent d = Some true
  /\ EntityRecord.expiredAt d = None
  /\ EntityRecord.createdAt d = Some now
  /\ EntityRecord.updatedAt d = Some now
  /\ entityRecords db !! fresh = None
  /\ is_Some (entityRecords db' !! fresh)
  /\ (forall j, j <> fresh -> entityRecords db' !! j = entityRecords db !! j)
  /\ entities db' = entities db.
Proof.
  intros db db' d fresh now.
  apply (recordData_first_revision (H := Scenario.host) db fresh now
           Cases.hierarchical Scenario.create_child db' d).
  - reflexivity.
  - decided.
  - decided.
  - computed.
Defined.

(** CUSTOMER, once created, is found under any spelling of its code, and
    cannot be created again. *)
Lemma createEntity_then_found_customer :
  let entity := Scenario.customer false true false in
  let db' := Scenario.db_customer in
  let req := Scenario.define_customer false true false in
  (forall spelling,
     toUpperCase spelling = Entity.code entity ->
     EH.getEntityByCode db' spelling = json 200 (EntityData entity))
  /\ (forall fresh' now' req',
        EC.code (EC.create_body req') = EC.code (EC.create_body req) ->
        exists b,
          EC.createEntity db' fresh' now' req' = (db', json 400 b)).
Proof.
  intros entity db' req.
  apply (createEntity_then_found Scenario.empty_db Scenario.customer_id 1000
           req db' entity).
  computed.
Defined.


(** CUSTOMER, patched with a schema that requires an undeclared field,
    stores it and can no longer be toggled. *)
Lemma toggleEntityActivation_needs_schema_customer :
  let db := Scenario.db_with Cases.broken [] in
  EC.updateEntity Scenario.db_customer 5000 Cases.patch_schema
  = (db, json 200 (EntityData Cases.broken))
  /\ EH.toggleEntityActivation db 6000 Scenario.customer_id
     = (db, crash "Server error while toggling entity activation").
Proof.
  intros db. split; [computed|].
  apply (toggleEntityActivation_needs_schema db 6000 Scenario.customer_id
           Cases.broken "customerCode").
  - reflexivity.
  - computed.
  - reflexivity.
  - reflexivity.
  - decided.
  - reflexivity.
Defined.

(** The patch of CUSTOMER leaves ACME001 and its own [_id] alone. *)
Lemma updateEntity_frame_customer :
  let db := Scenario.db_acme in
  let req := Scenario.patch_code (JStr "other") in
  let j := Scenario.acme_id in
  let db' := (EC.updateEntity db 5000 req).1 in
  entityRecords db' = entityRecords db
  /\ entities db' !! j = entities db !! j
  /\ (Entity._id <$> entities db' !! toLowerCase (EC.update_id req))
     = (Entity._id <$> entities db !! toLowerCase (EC.update_id req)).
Proof.
  intros db req j.
  apply (updateEntity_frame db 5000 req j).
  - decided.
  - decided.
Defined.

(** CUSTOMER is toggled to inactive. *)
Lemma toggleEntityActivation_flips_customer :
  let db := Scenario.db_customer in
  let id := Scenario.customer_id in
  let now := 5000%Z in
  let db' := (EH.toggleEntityActivation db now id).1 in
  let a := EntityToggled Scenario.customer_id "CUSTOMER" false in
  entityRecords db' = entityRecords db
  /\ exists e e',
       entities db !! toLowerCase id = Some e
       /\ entities db' !! Entity._id e = Some e'
       /\ a = EntityToggled (Entity._id e) (Entity.code e)
                (Entity.activation_entityActive e')
       /\ Entity.activation_entityActive e'
          = negb (Entity.activation_entityActive e)
       /\ Entity.updatedAt e' = now
       /\ (Entity.activation_enabled e', Entity.activation_defaultState e',
           Entity.activation_useTimeBounding e')
          = (Entity.activation_enabled e, Entity.activation_defaultState e,
             Entity.activation_useTimeBounding e)
       /\ (Entity.versioning_enabled e', Entity.hierarchy_enabled e',
           Entity.hierarchy_parentLinkField e', Entity.hierarchy_linkType e')
          = (Entity.versioning_enabled e, Entity.hierarchy_enabled e,
             Entity.hierarchy_parentLinkField e, Entity.hierarchy_linkType e)
       /\ (Entity.schema_properties e', Entity.schema_required e')
          = (Entity.schema_properties e, Entity.schema_required e)
       /\ (Entity._id e', Entity.code e', Entity.name e',
           Entity.description e', Entity.createdBy e', Entity.createdAt e')
          = (Entity._id e, Entity.code e, Entity.name e,
             Entity.description e, Entity.createdBy e, Entity.createdAt e).
Proof.
  intros db id now db' a.
  apply (toggleEntityActivation_flips db now id db' a).
  computed.
Defined.

(** Toggled twice, CUSTOMER is active again. *)
Lemma toggleEntityActivation_twice_customer :
  let db := Scenario.db_customer in
  let id := Scenario.customer_id in
  let e := Scenario.versioned in
  let db1 := (EH.toggleEntityActivation db 5000 id).1 in
  exists db2 e2,
    EH.toggleEntityActivation db1 6000 id
    = (db2, reply 200
              (EntityToggled (Entity._id e) (Entity.code e)
                 (Entity.activation_entityActive e)))
    /\ entities db2 !! toLowerCase id = Some e2
    /\ Entity.activation_entityActive e2 = Entity.activation_entityActive e.
Proof.
  intros db id e db1.
  apply (toggleEntityActivation_twice db 5000 6000 id db1
           (EntityToggled Scenario.customer_id "CUSTOMER" false) e).
  - decided.
  - computed.
  - computed.
Defined.

(** With CUSTOMER deleted, ACME001 is still stored, under no name. *)
Lemma deleteEntity_orphans_acme :
  let db := Scenario.db_acme in
  let id := Scenario.customer_id in
  let db' := (EH.deleteEntity db id).1 in
  entities db' = delete (toLowerCase id) (entities db)
  /\ entityRecords db' = entityRecords db
  /\ EH.getEntityById db' id = json 404 (Fail "Entity not found")
  /\ forall now req r,
       ObjectId_isValid (ERC.id req) = true ->
       EntityRecord_findOne db (ERC.id req) (toUpperCase (ERC.entityCode req))
       = Some r ->
       EntityRecord.entityId r = Some (toLowerCase id) ->
       RH.getEntityRecordById db' req = json 200 (RecordData "Unknown" r)
       /\ ERC.getEntityRecordVersions db' req
          = json 404 (Fail "Parent entity definition not found")
       /\ RH.toggleEntityRecordActivation (H := Scenario.host) db' now req
          = (db', refuse 400 "Activation is not enabled for this entity type").
Proof.
  intros db id db'.
  apply (deleteEntity_orphans (H := Scenario.host) db id db' EntityDeleted).
  computed.
Defined.

(** The list of the active definitions of the scenario is CUSTOMER. *)
Lemma getEntities_page_customer :
  let db := Scenario.db_customer in
  let q := Cases.active_only in
  let page :=
    {| EH.count := 1; EH.totalPages := Some 1%Z; EH.currentPage := Some 1%Z;
       EH.total := 1; EH.data := [EH.select Scenario.versioned] |} in
  Forall (fun l =>
            exists i e,
              entities db !! i = Some e
              /\ l = EH.select e
              /\ (defined (EH.active q) = true ->
                  Entity.Activation.entityActive
                    (Entity.activation (Entity.derivedRecordConfig e))
                  = Some (js_eqb (EH.active q) (JStr "true"))))
    (EH.data page)
  /\ Sorted (fun a b => (EH.l_createdAt b <= EH.l_createdAt a)%Z)
       (EH.data page)
  /\ EH.count page = length (EH.data page)
  /\ (EH.count page <= EH.total page <= size (entities db))%nat.
Proof.
  intros db q page.
  apply (getEntities_page (H := Scenario.host) db q page).
  computed.
Defined.

(** The store of the scenario stays keyed under every handler. *)
Lemma handlers_keep_keyed_acme :
  let db := Scenario.db_acme in
  (forall fresh now req, keyed (EC.createEntity db fresh now req).1)
  /\ (forall now req, keyed (EC.updateEntity db now req).1)
  /\ (forall now id, keyed (EH.toggleEntityActivation db now id).1)
  /\ (forall id, keyed (EH.deleteEntity db id).1)
  /\ (forall now req,
        keyed (RH.toggleEntityRecordActivation (H := Scenario.host) db now req).1)
  /\ (forall req, keyed (RH.deleteEntityRecord db req).1)
  /\ (forall fresh now req,
        keyed (ERC.createEntityRecord (H := Scenario.host) db fresh now req).1)
  /\ (forall now req,
        keyed (ERC.updateEntityRecord (H := Scenario.host) db now req).1).
Proof.
  intros db.
  apply (handlers_keep_keyed (H := Scenario.host) db).
  decided.
Defined.

(** The id 42 is answered 400 for a record and 500 for a definition. *)
Lemma malformed_id_42 :
  let db := Scenario.db_acme in
  let now := 3000%Z in
  let id := "42" in
  (forall req,
     ERC.id req = id ->
     RH.getEntityRecordById db req = json 400 (Fail "Invalid ID format")
     /\ ERC.getEntityRecordVersions db req = json 400 (Fail "Invalid ID format")
     /\ RH.toggleEntityRecordActivation (H := Scenario.host) db now req
        = (db, refuse 400 "Invalid ID format")
     /\ RH.deleteEntityRecord db req = (db, refuse 400 "Invalid ID format")
     /\ (ERC.update_checks (ERC.body req) = [] ->
         ERC.updateEntityRecord (H := Scenario.host) db now req
         = (db, json 400 (Fail "Invalid ID format"))))
  /\ EH.getEntityById db id
     = json 500 (ServerError "Server error while fetching entity")
  /\ EH.getEntitySchema db id
     = crash "Server error while fetching entity schema"
  /\ EH.toggleEntityActivation db now id
     = (db, crash "Server error while toggling entity activation")
  /\ EH.deleteEntity db id = (db, crash "Server error while deleting entity")
  /\ (forall req,
        EC.update_id req = id ->
        EC.update_checks (EC.update_body req) = [] ->
        EC.updateEntity db now req
        = (db, json 500 (ServerError "Server error while updating entity"))).
Proof.
  intros db now id.
  apply (malformed_id (H := Scenario.host) db now id).
  reflexivity.
Defined.

(** Alice, made an editor, is one, and cannot be made one twice. *)
Lemma addRoleToUser_then_check_alice :
  let s := Cases.unassigned in
  let s' := Cases.assigned in
  let user := Cases.alice in
  let role := Cases.editor in
  exists u ro,
    URC.users s !! toLowerCase user = Some u
    /\ URC.roles s !! toLowerCase role = Some ro
    /\ URC.checkUserRole s' user role
       = (200%nat, URC.HasRole true (URC.username u) (URC.role_name ro))
    /\ (exists n listed,
          URC.getUserRoles s' user = (200%nat, URC.Roles n listed)
          /\ Some ro ∈ listed)
    /\ forall fresh' now',
         URC.addRoleToUser s' fresh' now' user (Some role)
         = (s', (400%nat,
                 URC.Refused "Role is already assigned to this user")).
Proof.
  intros s s' user role.
  apply (addRoleToUser_then_check s Cases.assignment 7000 user role s'
           (URC.Assigned user role "alice" "editor")).
  computed.
Defined.

(** Alice, no longer an editor, is none. *)
Lemma removeRoleFromUser_then_check_alice :
  let s := Cases.assigned in
  let s' := Cases.unassigned in
  let user := Cases.alice in
  let role := Cases.editor in
  (exists u ro,
     URC.checkUserRole s' user role
     = (200%nat, URC.HasRole false (URC.username u) (URC.role_name ro)))
  /\ URC.removeRoleFromUser s' user role
     = (s', (404%nat, URC.Refused "Role is not assigned to this user"))
  /\ URC.users s' = URC.users s
  /\ URC.roles s' = URC.roles s.
Proof.
  intros s s' user role.
  apply (removeRoleFromUser_then_check s user role s' URC.Removed).
  - decided.
  - computed.
Defined.

(** The store with Alice as an editor keeps the index satisfied. *)
Lemma unique_assignments_kept_alice :
  let s := Cases.assigned in
  (forall fresh now user role,
     URC.unique_assignments (URC.addRoleToUser s fresh now user role).1)
  /\ (forall user role,
        URC.unique_assignments (URC.removeRoleFromUser s user role).1).
Proof.
  intros s.
  apply (unique_assignments_kept s).
  decided.
Defined.
